(** * Memory-test scheduler of the STM32G473CB diagnostic firmware

    A shallow embedding of the window rotation
    (Src/memory_test_configuration.c), the pattern generators and the
    enhanced butterfly test (Src/address_tests.c), the backup-register
    bookkeeping (Src/watchdog_handler.c) and the cycle scheduler
    (Src/main.c), followed by the properties established about them.

    Every C [uint32_t] is a [Z] with the wrap-around written out; an
    operation whose behaviour is undefined in C (a division or a modulo by
    zero, a read of an array slot that was never written) makes the
    embedded function return [None]. *)

From Stdlib Require Import ZArith List Lia Bool String Ascii.
Import ListNotations.
Local Open Scope Z_scope.

(** ** 32-bit unsigned arithmetic *)

Module U32.

Definition modulus : Z := 2 ^ 32.
Definition max_value : Z := 0xFFFFFFFF.

Definition wrap (x : Z) : Z := x mod modulus.
Definition in_range (x : Z) : Prop := 0 <= x < modulus.

Definition add (a b : Z) : Z := wrap (a + b).
Definition sub (a b : Z) : Z := wrap (a - b).
Definition mul (a b : Z) : Z := wrap (a * b).
Definition shl (a n : Z) : Z := wrap (Z.shiftl a n).
Definition or (a b : Z) : Z := Z.lor a b.
Definition xor (a b : Z) : Z := Z.lxor a b.
Definition and (a b : Z) : Z := Z.land a b.
(* [~a] on a 32-bit operand *)
Definition not (a : Z) : Z := wrap (Z.lnot a).

(* [a % b] and [a / b]: undefined for [b = 0] *)
Definition umod (a b : Z) : option Z :=
  if b =? 0 then None else Some (a mod b).
Definition udiv (a b : Z) : option Z :=
  if b =? 0 then None else Some (a / b).

End U32.

(** ** The option monad, for code that may hit undefined behaviour *)

Definition obind {A B : Type} (m : option A) (k : A -> option B) : option B :=
  match m with
  | Some a => k a
  | None => None
  end.

Notation "x <-? m ; k" := (obind m (fun x => k))
  (at level 61, m at next level, right associativity).

(** ** Test configuration: Inc/memory_test.h and
       Src/memory_test_configuration.c *)

Module Config.

Definition FLASH_START_ADDR : Z := 0x08000000.
Definition FLASH_SIZE : Z := 0x80000.
Definition SRAM1_START_ADDR : Z := 0x20000000.
Definition SRAM1_SIZE : Z := 0x18000.
Definition SRAM2_START_ADDR : Z := 0x20018000.
Definition SRAM2_SIZE : Z := 0x8000.
Definition CCM_SRAM_START_ADDR : Z := 0x10000000.
Definition CCM_SRAM_SIZE : Z := 0x8000.

Record MemoryTestConfig : Type := mkConfig {
  flashTestSize : Z;
  sram1TestSize : Z;
  sram2TestSize : Z;
  ccmTestSize : Z;
  flashTestOffset : Z;
  sram1TestOffset : Z;
  sram2TestOffset : Z;
  ccmTestOffset : Z;
  addressTestStride : Z;
  numButterflyPairs : Z;
  reportIntervalMs : Z;
  advancedTestInterval : Z;
  rotateStartingOffsets : Z;   (* uint8_t, used as a truth value *)
  rotateTestSizes : Z          (* uint8_t, used as a truth value *)
}.

Definition set_offsets (c : MemoryTestConfig) (fo s1o s2o co : Z)
  : MemoryTestConfig :=
  mkConfig (flashTestSize c) (sram1TestSize c) (sram2TestSize c)
           (ccmTestSize c) fo s1o s2o co
           (addressTestStride c) (numButterflyPairs c)
           (reportIntervalMs c) (advancedTestInterval c)
           (rotateStartingOffsets c) (rotateTestSizes c).

Definition set_sizes (c : MemoryTestConfig) (fs s1s s2s cs : Z)
  : MemoryTestConfig :=
  mkConfig fs s1s s2s cs
           (flashTestOffset c) (sram1TestOffset c) (sram2TestOffset c)
           (ccmTestOffset c)
           (addressTestStride c) (numButterflyPairs c)
           (reportIntervalMs c) (advancedTestInterval c)
           (rotateStartingOffsets c) (rotateTestSizes c).

(* InitializeDefaultConfig assigns every field of the global. *)
Definition InitializeDefaultConfig : MemoryTestConfig :=
  {| flashTestSize := 0x8000;
     sram1TestSize := 0x4000;
     sram2TestSize := 0x2000;
     ccmTestSize := 0x2000;
     flashTestOffset := 0x20000;
     sram1TestOffset := 0x2000;
     sram2TestOffset := 0x400;
     ccmTestOffset := 0x400;
     addressTestStride := 256;
     numButterflyPairs := 16;
     reportIntervalMs := 1000;
     advancedTestInterval := 10;
     rotateStartingOffsets := 1;
     rotateTestSizes := 1 |}.

Definition GetFlashTestStart (c : MemoryTestConfig) : Z :=
  U32.add FLASH_START_ADDR (flashTestOffset c).
Definition GetSRAM1TestStart (c : MemoryTestConfig) : Z :=
  U32.add SRAM1_START_ADDR (sram1TestOffset c).
Definition GetSRAM2TestStart (c : MemoryTestConfig) : Z :=
  U32.add SRAM2_START_ADDR (sram2TestOffset c).
Definition GetCCMTestStart (c : MemoryTestConfig) : Z :=
  U32.add CCM_SRAM_START_ADDR (ccmTestOffset c).

(* The safety margins written as literals in RotateTestParameters. *)
Definition FLASH_MARGIN : Z := 0x1000.
Definition SRAM1_MARGIN : Z := 0x1000.
Definition SRAM2_MARGIN : Z := 0x400.
Definition CCM_MARGIN : Z := 0x400.

(* [if (offset < margin) offset = margin;] *)
Definition snap (offset margin : Z) : Z :=
  if offset <? margin then margin else offset.

(* The first [if] block of RotateTestParameters: the four assignments in
   source order, each modulo evaluated with the sizes the configuration
   holds on entry. *)
Definition rotateOffsets (c : MemoryTestConfig) : option MemoryTestConfig :=
  let maxFlashOffset :=
    U32.sub (U32.sub FLASH_SIZE (flashTestSize c)) 0x1000 in
  fo <-? U32.umod (U32.add (flashTestOffset c) 0x10000) maxFlashOffset;
  let maxSram1Offset :=
    U32.sub (U32.sub SRAM1_SIZE (sram1TestSize c)) 0x1000 in
  s1o <-? U32.umod (U32.add (sram1TestOffset c) 0x4000) maxSram1Offset;
  let s1o := snap s1o 0x1000 in
  let maxSram2Offset :=
    U32.sub (U32.sub SRAM2_SIZE (sram2TestSize c)) 0x400 in
  s2o <-? U32.umod (U32.add (sram2TestOffset c) 0x1000) maxSram2Offset;
  let s2o := snap s2o 0x400 in
  let maxCcmOffset :=
    U32.sub (U32.sub CCM_SRAM_SIZE (ccmTestSize c)) 0x400 in
  co <-? U32.umod (U32.add (ccmTestOffset c) 0x1000) maxCcmOffset;
  let co := snap co 0x400 in
  Some (set_offsets c fo s1o s2o co).

(* The [switch ((cycleCounter / 5) % 3)] of RotateTestParameters. *)
Definition rotateSizes (cycleCounter : Z) (c : MemoryTestConfig)
  : MemoryTestConfig :=
  match (cycleCounter / 5) mod 3 with
  | 0 => set_sizes c 0x8000 0x4000 0x2000 0x2000
  | 1 => set_sizes c 0x10000 0x8000 0x4000 0x4000
  | 2 => set_sizes c 0x20000 0x10000 0x6000 0x6000
  | _ => c
  end.

Definition RotateTestParameters (cycleCounter : Z) (c : MemoryTestConfig)
  : option MemoryTestConfig :=
  c1 <-? (if negb (rotateStartingOffsets c =? 0)
          then rotateOffsets c else Some c);
  if negb (rotateTestSizes c1 =? 0) && (cycleCounter mod 5 =? 0)
  then Some (rotateSizes cycleCounter c1)
  else Some c1.

(* Successive calls, one per cycle counter value of the list. *)
Fixpoint rotations (cycles : list Z) (c : MemoryTestConfig)
  : option MemoryTestConfig :=
  match cycles with
  | [] => Some c
  | n :: rest => c' <-? RotateTestParameters n c; rotations rest c'
  end.

(* [offset + size + margin <= bankSize], bank by bank. *)
Definition window_ok (offset size margin bankSize : Z) : Prop :=
  offset + size + margin <= bankSize.

Definition windows_ok (c : MemoryTestConfig) : Prop :=
  window_ok (flashTestOffset c) (flashTestSize c) FLASH_MARGIN FLASH_SIZE /\
  window_ok (sram1TestOffset c) (sram1TestSize c) SRAM1_MARGIN SRAM1_SIZE /\
  window_ok (sram2TestOffset c) (sram2TestSize c) SRAM2_MARGIN SRAM2_SIZE /\
  window_ok (ccmTestOffset c) (ccmTestSize c) CCM_MARGIN CCM_SRAM_SIZE.

End Config.

(** ** Bounded [for] loops

    [forLoop n i cond body s] runs [for (; cond i; i++) body] from state
    [s], for at most [n] iterations; a loop still running after [n]
    iterations is reported as [None], like undefined behaviour, so that a
    result [Some _] always is a result of the source loop. *)

Fixpoint forLoop {S : Type} (n : nat) (i : Z) (cond : Z -> bool)
         (body : Z -> S -> option S) (s : S) : option S :=
  match n with
  | O => if cond i then None else Some s
  | Datatypes.S n' =>
      if cond i
      then s' <-? body i s; forLoop n' (i + 1) cond body s'
      else Some s
  end.

(** ** Pattern generators and the enhanced butterfly test:
       Src/address_tests.c *)

Module AddressTests.

(* [address ^ (testCycleCounter * 0x1234567B) ^ 0xF00F0FF0] *)
Definition GenerateAddressPattern (testCycleCounter address : Z) : Z :=
  U32.xor (U32.xor address (U32.mul testCycleCounter 0x1234567B))
          0xF00F0FF0.

(* [0xAAAAAAAA ^ (i * 0x11111111) ^ testCycleCounter] and
   [0x55555555 ^ (i * 0x11111111) ^ testCycleCounter] *)
Definition butterflyPattern1 (testCycleCounter i : Z) : Z :=
  U32.xor (U32.xor 0xAAAAAAAA (U32.mul i 0x11111111)) testCycleCounter.
Definition butterflyPattern2 (testCycleCounter i : Z) : Z :=
  U32.xor (U32.xor 0x55555555 (U32.mul i 0x11111111)) testCycleCounter.

(* [uint32_t pairs[32][2]]: a slot holds [None] until it is assigned;
   reading such a slot, or indexing outside [0, 32), is undefined. *)
Definition PairArray : Type := Z -> option (Z * Z).
Definition noPairs : PairArray := fun _ => None.
Definition setPair (pairs : PairArray) (i : Z) (p : Z * Z)
  : option PairArray :=
  if (0 <=? i) && (i <? 32)
  then Some (fun j => if j =? i then Some p else pairs j)
  else None.
Definition getPair (pairs : PairArray) (i : Z) : option (Z * Z) :=
  if (0 <=? i) && (i <? 32) then pairs i else None.

(* [if (a < startAddr || a >= (startAddr + size))
      a = startAddr + (a % size);] *)
Definition mapIntoWindow (startAddr size a : Z) : option Z :=
  if (a <? startAddr) || (a >=? U32.add startAddr size)
  then r <-? U32.umod a size; Some (U32.add startAddr r)
  else Some a.

Section Addresses.

Variables startAddr size totalSize : Z.
Variable testCycleCounter : Z.

(* body of the first loop, lines 95-116; [numPairs] already clamped *)
Definition mainPairBody (baseAddr rotationOffset numPairs i : Z)
           (pairs : PairArray) : option PairArray :=
  q1 <-? U32.udiv totalSize numPairs;
  pos1 <-? U32.umod (U32.add rotationOffset (U32.mul i q1)) totalSize;
  q2 <-? U32.udiv totalSize numPairs;
  pos2 <-? U32.umod
             (U32.add rotationOffset
                      (U32.add (U32.mul i q2) (totalSize / 2)))
             totalSize;
  a0 <-? mapIntoWindow startAddr size (U32.add baseAddr pos1);
  a1 <-? mapIntoWindow startAddr size (U32.add baseAddr pos2);
  setPair pairs i (a0, a1).

(* body of the second loop, lines 119-141 *)
Definition extraPairBody (baseAddr rotationOffset numPairs i : Z)
           (pairs : PairArray) : option PairArray :=
  let bitPosition := U32.shl 1 (i + 2) in
  let bitPosition :=
    if bitPosition >=? totalSize then totalSize / 2 else bitPosition in
  pos1 <-? U32.umod rotationOffset totalSize;
  pos2 <-? U32.umod (U32.add rotationOffset bitPosition) totalSize;
  a0 <-? mapIntoWindow startAddr size (U32.add baseAddr pos1);
  a1 <-? mapIntoWindow startAddr size (U32.add baseAddr pos2);
  setPair pairs (U32.add numPairs i) (a0, a1).

(* lines 81-144: the pair table and the final number of pairs *)
Definition butterflyPairs (numButterflyPairs : Z)
  : option (PairArray * Z) :=
  r <-? U32.umod startAddr totalSize;
  let baseAddr := U32.sub startAddr r in
  let numPairs := numButterflyPairs in
  let numPairs := if numPairs >? 32 then 32 else numPairs in
  rotationOffset <-? U32.umod (U32.mul testCycleCounter 19) totalSize;
  pairs <-? forLoop 32 0 (fun i => i <? numPairs)
              (mainPairBody baseAddr rotationOffset numPairs) noPairs;
  pairs <-? forLoop 5 0
              (fun i => (i <? 5) && (U32.add i numPairs <? 32))
              (extraPairBody baseAddr rotationOffset numPairs) pairs;
  let numPairs :=
    if U32.add numPairs 5 <=? 32 then U32.add numPairs 5 else 32 in
  Some (pairs, numPairs).

End Addresses.

(** The memory under test is a device outside the program: its type
    and its word accesses are parameters, and every access the test
    makes is recorded in a log, together with the error lines sent to
    the UART. *)

Inductive Event : Type :=
| Store (addr value : Z)
| Load (addr : Z)
| ButterflyError (addr read expected : Z).

Definition accessed (e : Event) : option Z :=
  match e with
  | Store a _ => Some a
  | Load a => Some a
  | ButterflyError _ _ _ => None
  end.

Section Device.

Variable Mem : Type.
Variable load : Mem -> Z -> Z.
Variable store : Mem -> Z -> Z -> Mem.

Record TestState : Type := mkTestState {
  mem : Mem;
  log : list Event;
  errors : Z
}.

(* [*(uint32_t* )a = v;] *)
Definition write (a v : Z) (s : TestState) : TestState :=
  mkTestState (store (mem s) a v) (log s ++ [Store a v]) (errors s).

(* [if ( *(uint32_t* )a != expected) { errors++; report }]: the report
   reads the word a second time for its argument. *)
Definition verifyReport (a expected : Z) (s : TestState) : TestState :=
  let v := load (mem s) a in
  let s := mkTestState (mem s) (log s ++ [Load a]) (errors s) in
  if negb (v =? expected)
  then let v' := load (mem s) a in
       mkTestState (mem s)
                   (log s ++ [Load a; ButterflyError a v' expected])
                   (U32.add (errors s) 1)
  else s.

(* [if ( *(uint32_t* )a != expected) errors++;] *)
Definition verify (a expected : Z) (s : TestState) : TestState :=
  let v := load (mem s) a in
  mkTestState (mem s) (log s ++ [Load a])
              (if negb (v =? expected)
               then U32.add (errors s) 1 else errors s).

(* body of the test loop, lines 147-186 *)
Definition testPairBody (testCycleCounter : Z) (pairs : PairArray)
           (i : Z) (s : TestState) : option TestState :=
  p <-? getPair pairs i;
  let pattern1 := butterflyPattern1 testCycleCounter i in
  let pattern2 := butterflyPattern2 testCycleCounter i in
  let s := write (fst p) pattern1 s in
  let s := write (snd p) pattern2 s in
  let s := verifyReport (fst p) pattern1 s in
  let s := verifyReport (snd p) pattern2 s in
  let s := write (fst p) pattern2 s in
  let s := write (snd p) pattern1 s in
  let s := verify (fst p) pattern2 s in
  let s := verify (snd p) pattern1 s in
  Some s.

(* The state on return; its [errors] field is the returned count.
   [numButterflyPairs] and [testCycleCounter] are the globals read. *)
Definition RunEnhancedButterflyTest
           (numButterflyPairs testCycleCounter : Z)
           (startAddr size totalSize : Z) (m : Mem)
  : option TestState :=
  pn <-? butterflyPairs startAddr size totalSize testCycleCounter
           numButterflyPairs;
  forLoop 32 0 (fun i => i <? snd pn)
          (testPairBody testCycleCounter (fst pn))
          (mkTestState m [] 0).

End Device.

Arguments mem {Mem} _.
Arguments log {Mem} _.
Arguments errors {Mem} _.
Arguments mkTestState {Mem} _ _ _.
Arguments write {Mem} store a v s.
Arguments verifyReport {Mem} load a expected s.
Arguments verify {Mem} load a expected s.
Arguments testPairBody {Mem} load store testCycleCounter pairs i s.
Arguments RunEnhancedButterflyTest {Mem} load store _ _ _ _ _ m.

(* An ideal memory, for running the test on concrete inputs. *)
Definition IdealMem : Type := Z -> Z.
Definition idealLoad (m : IdealMem) (a : Z) : Z := m a.
Definition idealStore (m : IdealMem) (a v : Z) : IdealMem :=
  fun b => if b =? a then v else m b.

End AddressTests.

(** ** Backup registers and reset diagnosis: Src/watchdog_handler.c *)

Module Watchdog.

Import Config.

Definition RTC_BKP_DR0 : Z := 0.  (* Last test operation *)
Definition RTC_BKP_DR1 : Z := 1.  (* Test cycle counter *)
Definition RTC_BKP_DR2 : Z := 2.  (* Last error code *)
Definition RTC_BKP_DR3 : Z := 3.  (* Watchdog reset counter *)

Definition ERROR_NONE : Z := 0x00000000.
Definition ERROR_ECC_DETECTED : Z := 0x00000006.
Definition ERROR_HARDFAULT : Z := 0x0000000A.
Definition ERROR_BUSFAULT : Z := 0x0000000B.
Definition ERROR_MEMMANAGE : Z := 0x0000000C.
Definition ERROR_USAGEFAULT : Z := 0x0000000D.
Definition ERROR_WATCHDOG : Z := 0x0000000E.

(** Modelled from the spec: the backup-register accessors
    HAL_RTCEx_BKUPRead and HAL_RTCEx_BKUPWrite belong to the vendor HAL,
    which is not part of the sources; the spec describes them as fixed
    slots addressed by index, a read returning the value last written. *)
Definition BackupRegs : Type := Z -> Z.
Definition HAL_RTCEx_BKUPRead (r : BackupRegs) (i : Z) : Z := r i.
Definition HAL_RTCEx_BKUPWrite (r : BackupRegs) (i v : Z) : BackupRegs :=
  fun j => if j =? i then v else r j.

(* A line sent to the UART, kept as the format it uses and the values
   passed for its conversions, in argument order. *)
Inductive UartMsg : Type :=
| WatchdogResetReport (resetCount lastCycle lastOperation lastError : Z)
| PinResetReport
| OtherResetReport (resetCause : Z)
| ErrorReport (errorCode operationCode cycle : Z)
| FaultReport (errorCode : Z)
| ConfigStatusReport (c : MemoryTestConfig).

Record Persist : Type := mkPersist {
  bkp : BackupRegs;
  uart : list UartMsg
}.

Definition bkpWrite (i v : Z) (s : Persist) : Persist :=
  mkPersist (HAL_RTCEx_BKUPWrite (bkp s) i v) (uart s).
Definition transmit (m : UartMsg) (s : Persist) : Persist :=
  mkPersist (bkp s) (uart s ++ [m]).

Section ResetFlags.

(* Bit masks of the RCC->CSR reset flags; the device header that
   defines them is not part of the sources. *)
Variables RCC_CSR_IWDGRSTF RCC_CSR_PINRSTF : Z.

(* [resetCause] is the value read from RCC->CSR on entry. *)
Definition CheckForReset (resetCause : Z) (s : Persist) : Persist :=
  if negb (U32.and resetCause RCC_CSR_IWDGRSTF =? 0) then
    let resetCount := HAL_RTCEx_BKUPRead (bkp s) RTC_BKP_DR3 in
    let resetCount := U32.add resetCount 1 in
    let s := bkpWrite RTC_BKP_DR3 resetCount s in
    let lastOperation := HAL_RTCEx_BKUPRead (bkp s) RTC_BKP_DR0 in
    let lastCycle := HAL_RTCEx_BKUPRead (bkp s) RTC_BKP_DR1 in
    let lastError := HAL_RTCEx_BKUPRead (bkp s) RTC_BKP_DR2 in
    transmit (WatchdogResetReport resetCount lastCycle lastOperation
                                  lastError) s
  else if negb (U32.and resetCause RCC_CSR_PINRSTF =? 0) then
    let s := transmit PinResetReport s in
    let s := bkpWrite RTC_BKP_DR0 0 s in
    let s := bkpWrite RTC_BKP_DR1 0 s in
    let s := bkpWrite RTC_BKP_DR2 0 s in
    s
  else
    transmit (OtherResetReport resetCause) s.

End ResetFlags.

(* [testCycleCounter] is the global the function reads. *)
Definition SaveTestState (testCycleCounter operationCode errorCode : Z)
           (s : Persist) : Persist :=
  let s := bkpWrite RTC_BKP_DR0 operationCode s in
  let s := bkpWrite RTC_BKP_DR1 testCycleCounter s in
  let s := bkpWrite RTC_BKP_DR2 errorCode s in
  if negb (errorCode =? ERROR_NONE)
  then transmit (ErrorReport errorCode operationCode testCycleCounter) s
  else s.

(* The four fault handlers up to the point where they spin waiting for
   the watchdog. *)
Definition faultHandler (testCycleCounter errorCode : Z) (s : Persist)
  : Persist :=
  let s := SaveTestState testCycleCounter
             (HAL_RTCEx_BKUPRead (bkp s) RTC_BKP_DR0) errorCode s in
  transmit (FaultReport errorCode) s.
Definition HardFault_Handler (c : Z) := faultHandler c ERROR_HARDFAULT.
Definition BusFault_Handler (c : Z) := faultHandler c ERROR_BUSFAULT.
Definition MemManage_Handler (c : Z) := faultHandler c ERROR_MEMMANAGE.
Definition UsageFault_Handler (c : Z) := faultHandler c ERROR_USAGEFAULT.

(* Src/ecc_handler.c *)
Definition HandleECCError (testCycleCounter operationCode : Z)
  : Persist -> Persist :=
  SaveTestState testCycleCounter operationCode ERROR_ECC_DETECTED.

(* The record the spec calls FaultRecord, read slot by slot. *)
Definition operationTag (s : Persist) : Z :=
  HAL_RTCEx_BKUPRead (bkp s) RTC_BKP_DR0.
Definition lastCycle (s : Persist) : Z :=
  HAL_RTCEx_BKUPRead (bkp s) RTC_BKP_DR1.
Definition errorCode (s : Persist) : Z :=
  HAL_RTCEx_BKUPRead (bkp s) RTC_BKP_DR2.
Definition resetCount (s : Persist) : Z :=
  HAL_RTCEx_BKUPRead (bkp s) RTC_BKP_DR3.

Definition regsOf (op cycle err resets : Z) : BackupRegs :=
  fun i => if i =? 0 then op else if i =? 1 then cycle
           else if i =? 2 then err else if i =? 3 then resets else 0.

End Watchdog.

(** ** The cycle scheduler: Src/main.c *)

Module Scheduler.

Import Config Watchdog.

Definition NORMAL_TEST_CYCLE : Z := 0.
Definition STRESS_TEST_CYCLE : Z := 1.
Definition SRAM_ONLY_CYCLE : Z := 2.
Definition FLASH_ONLY_CYCLE : Z := 3.
Definition CACHE_ONLY_CYCLE : Z := 4.

(* The test primitives and the watchdog refresh are recorded as calls,
   with their arguments, in the order the scheduler makes them.  The
   error counts they return only feed the per-bank statistics, which
   are left out. *)
Inductive TestCall : Type :=
| ImprovedAddressTest (startAddr size totalSize : Z)
| EnhancedButterflyTest (startAddr size totalSize : Z)
| CheckerboardTest (startAddr size pattern : Z)
| CacheTest
| MarchCTest (startAddr size : Z)
| WalkingOnesTest (startAddr size : Z)
| WalkingZerosTest (startAddr size : Z)
| ModifiedCheckerboardTest (startAddr size : Z)
| IwdgRefresh.


Record World : Type := mkWorld {
  testConfig : MemoryTestConfig;
  testCycleCounter : Z;
  currentTestMode : Z;
  currentTestOperation : string;
  persist : Persist;
  calls : list TestCall
}.

Definition run (t : TestCall) (w : World) : World :=
  mkWorld (testConfig w) (testCycleCounter w) (currentTestMode w)
          (currentTestOperation w) (persist w) (calls w ++ [t]).

(* [for (i = 0; i < 4 && operation[i] != 0; i++)
      operationCode = (operationCode << 8) | operation[i];] *)
Fixpoint operationCodeOf (n : nat) (operation : string) (operationCode : Z)
  : Z :=
  match n, operation with
  | Datatypes.S n', String ch rest =>
      if (Z.of_N (N_of_ascii ch) =? 0) then operationCode
      else operationCodeOf n' rest
             (U32.or (U32.shl operationCode 8) (Z.of_N (N_of_ascii ch)))
  | _, _ => operationCode
  end.

(* strncpy into the 64-byte buffer, then [SaveTestState(code, 0)].  The
   operation strings are the literals of the callers; [char] is unsigned
   on this target, so a character enters the code as its byte value. *)
Definition UpdateTestOperation (operation : string) (w : World) : World :=
  let operationCode := operationCodeOf 4 operation 0 in
  mkWorld (testConfig w) (testCycleCounter w) (currentTestMode w)
          (substring 0 63 operation)
          (SaveTestState (testCycleCounter w) operationCode 0 (persist w))
          (calls w).

Definition ReportConfigStatus (w : World) : World :=
  mkWorld (testConfig w) (testCycleCounter w) (currentTestMode w)
          (currentTestOperation w)
          (transmit (ConfigStatusReport (testConfig w)) (persist w))
          (calls w).

Definition TestAllMemoryRegions (w : World) : option World :=
  let cfg := testConfig w in
  let flashTestStart := GetFlashTestStart cfg in
  let sram1TestStart := GetSRAM1TestStart cfg in
  let sram2TestStart := GetSRAM2TestStart cfg in
  let ccmTestStart := GetCCMTestStart cfg in
  (* Flash *)
  let w := UpdateTestOperation "Flash Address Test" w in
  let w := run (ImprovedAddressTest flashTestStart (flashTestSize cfg)
                                    FLASH_SIZE) w in
  let w := UpdateTestOperation "Flash Butterfly Test" w in
  let w := run (EnhancedButterflyTest flashTestStart (flashTestSize cfg)
                                      FLASH_SIZE) w in
  let w := UpdateTestOperation "Flash Checkerboard Test 0xAA55AA55" w in
  let w := run (CheckerboardTest flashTestStart (flashTestSize cfg)
                                 0xAA55AA55) w in
  let w := UpdateTestOperation "Flash Checkerboard Test 0x55AA55AA" w in
  let w := run (CheckerboardTest flashTestStart (flashTestSize cfg)
                                 0x55AA55AA) w in
  (* SRAM1 *)
  let w := UpdateTestOperation "SRAM1 Address Test" w in
  let w := run (ImprovedAddressTest sram1TestStart (sram1TestSize cfg)
                                    SRAM1_SIZE) w in
  let w := UpdateTestOperation "SRAM1 Butterfly Test" w in
  let w := run (EnhancedButterflyTest sram1TestStart (sram1TestSize cfg)
                                      SRAM1_SIZE) w in
  let w := UpdateTestOperation "SRAM1 Checkerboard Test 0xAA55AA55" w in
  let w := run (CheckerboardTest sram1TestStart (sram1TestSize cfg)
                                 0xAA55AA55) w in
  let w := UpdateTestOperation "SRAM1 Checkerboard Test 0x55AA55AA" w in
  let w := run (CheckerboardTest sram1TestStart (sram1TestSize cfg)
                                 0x55AA55AA) w in
  (* SRAM2 *)
  let w := UpdateTestOperation "SRAM2 Address Test" w in
  let w := run (ImprovedAddressTest sram2TestStart (sram2TestSize cfg)
                                    SRAM2_SIZE) w in
  let w := UpdateTestOperation "SRAM2 Butterfly Test" w in
  let w := run (EnhancedButterflyTest sram2TestStart (sram2TestSize cfg)
                                      SRAM2_SIZE) w in
  let w := UpdateTestOperation "SRAM2 Checkerboard Test 0xAA55AA55" w in
  let w := run (CheckerboardTest sram2TestStart (sram2TestSize cfg)
                                 0xAA55AA55) w in
  let w := UpdateTestOperation "SRAM2 Checkerboard Test 0x55AA55AA" w in
  let w := run (CheckerboardTest sram2TestStart (sram2TestSize cfg)
                                 0x55AA55AA) w in
  (* CCM SRAM *)
  let w := UpdateTestOperation "CCM SRAM Address Test" w in
  let w := run (ImprovedAddressTest ccmTestStart (ccmTestSize cfg)
                                    CCM_SRAM_SIZE) w in
  let w := UpdateTestOperation "CCM SRAM Butterfly Test" w in
  let w := run (EnhancedButterflyTest ccmTestStart (ccmTestSize cfg)
                                      CCM_SRAM_SIZE) w in
  let w := UpdateTestOperation "CCM SRAM Checkerboard Test 0xAA55AA55" w in
  let w := run (CheckerboardTest ccmTestStart (ccmTestSize cfg)
                                 0xAA55AA55) w in
  let w := UpdateTestOperation "CCM SRAM Checkerboard Test 0x55AA55AA" w in
  let w := run (CheckerboardTest ccmTestStart (ccmTestSize cfg)
                                 0x55AA55AA) w in
  (* Flash cache *)
  let w := UpdateTestOperation "Flash Cache Test" w in
  let w := run CacheTest w in
  (* [if (testCycleCounter % testConfig.advancedTestInterval == 0)] *)
  r <-? U32.umod (testCycleCounter w) (advancedTestInterval cfg);
  let w :=
    if r =? 0 then
      let w := UpdateTestOperation "SRAM1 March C Test" w in
      let marchSize := sram1TestSize cfg / 8 in
      let w := run (MarchCTest sram1TestStart marchSize) w in
      let w := UpdateTestOperation "SRAM2 Walking Test" w in
      let walkingSize := sram2TestSize cfg / 8 in
      let w := run (WalkingOnesTest sram2TestStart walkingSize) w in
      let w := run (WalkingZerosTest sram2TestStart walkingSize) w in
      w
    else w in
  Some (run IwdgRefresh w).

Definition TestSRAMOnly (w : World) : option World :=
  let cfg := testConfig w in
  let sram1TestStart := GetSRAM1TestStart cfg in
  let sram2TestStart := GetSRAM2TestStart cfg in
  let ccmTestStart := GetCCMTestStart cfg in
  let w := UpdateTestOperation "SRAM1 Address Test" w in
  let w := run (ImprovedAddressTest sram1TestStart (sram1TestSize cfg)
                                    SRAM1_SIZE) w in
  let w := UpdateTestOperation "SRAM1 Butterfly Test" w in
  let w := run (EnhancedButterflyTest sram1TestStart (sram1TestSize cfg)
                                      SRAM1_SIZE) w in
  let w := UpdateTestOperation "SRAM1 Checkerboard Test" w in
  let w := run (CheckerboardTest sram1TestStart (sram1TestSize cfg)
                                 0xAA55AA55) w in
  let w := UpdateTestOperation "SRAM2 Address Test" w in
  let w := run (ImprovedAddressTest sram2TestStart (sram2TestSize cfg)
                                    SRAM2_SIZE) w in
  let w := UpdateTestOperation "SRAM2 Butterfly Test" w in
  let w := run (EnhancedButterflyTest sram2TestStart (sram2TestSize cfg)
                                      SRAM2_SIZE) w in
  let w := UpdateTestOperation "SRAM2 Checkerboard Test" w in
  let w := run (CheckerboardTest sram2TestStart (sram2TestSize cfg)
                                 0xAA55AA55) w in
  let w := UpdateTestOperation "CCM SRAM Address Test" w in
  let w := run (ImprovedAddressTest ccmTestStart (ccmTestSize cfg)
                                    CCM_SRAM_SIZE) w in
  let w := UpdateTestOperation "CCM SRAM Butterfly Test" w in
  let w := run (EnhancedButterflyTest ccmTestStart (ccmTestSize cfg)
                                      CCM_SRAM_SIZE) w in
  let w := UpdateTestOperation "CCM SRAM Checkerboard Test" w in
  let w := run (CheckerboardTest ccmTestStart (ccmTestSize cfg)
                                 0xAA55AA55) w in
  (* [if (testCycleCounter % (testConfig.advancedTestInterval / 2) == 0)] *)
  r <-? U32.umod (testCycleCounter w) (advancedTestInterval cfg / 2);
  let w :=
    if r =? 0 then
      let w := UpdateTestOperation "SRAM1 March C Test" w in
      let marchSize := sram1TestSize cfg / 4 in
      let w := run (MarchCTest sram1TestStart marchSize) w in
      let w := UpdateTestOperation "SRAM2 Walking Test" w in
      let walkingSize := sram2TestSize cfg / 4 in
      let w := run (WalkingOnesTest sram2TestStart walkingSize) w in
      let w := run (WalkingZerosTest sram2TestStart walkingSize) w in
      let w := UpdateTestOperation "CCM SRAM Modified Checkerboard" w in
      let w := run (ModifiedCheckerboardTest ccmTestStart
                                             (ccmTestSize cfg / 4)) w in
      w
    else w in
  Some (run IwdgRefresh w).

Definition TestFlashOnly (w : World) : option World :=
  let cfg := testConfig w in
  let flashTestStart := GetFlashTestStart cfg in
  let w := UpdateTestOperation "Flash Address Test" w in
  let w := run (ImprovedAddressTest flashTestStart (flashTestSize cfg)
                                    FLASH_SIZE) w in
  let w := UpdateTestOperation "Flash Butterfly Test" w in
  let w := run (EnhancedButterflyTest flashTestStart (flashTestSize cfg)
                                      FLASH_SIZE) w in
  let w := UpdateTestOperation "Flash Checkerboard Test 0xAA55AA55" w in
  let w := run (CheckerboardTest flashTestStart (flashTestSize cfg)
                                 0xAA55AA55) w in
  let w := UpdateTestOperation "Flash Checkerboard Test 0x55AA55AA" w in
  let w := run (CheckerboardTest flashTestStart (flashTestSize cfg)
                                 0x55AA55AA) w in
  Some (run IwdgRefresh w).

Definition TestCacheOnly (w : World) : option World :=
  forLoop 5 0 (fun i => i <? 5)
          (fun _ w =>
             let w := UpdateTestOperation "Flash Cache Test" w in
             let w := run CacheTest w in
             Some (run IwdgRefresh w))
          w.

(* The status report at the end of the cycle depends on the HAL tick
   and on ReportTestStatus, neither of which is in the sources; it
   touches none of the state kept here. *)
Definition MainTestCycle (w : World) : option World :=
  let w := mkWorld (testConfig w) (U32.add (testCycleCounter w) 1)
                   (currentTestMode w) (currentTestOperation w)
                   (persist w) (calls w) in
  cfg <-? RotateTestParameters (testCycleCounter w) (testConfig w);
  let w := mkWorld cfg (testCycleCounter w) (currentTestMode w)
                   (currentTestOperation w) (persist w) (calls w) in
  let w := if testCycleCounter w mod 20 =? 0
           then ReportConfigStatus w else w in
  w <-? (if currentTestMode w =? STRESS_TEST_CYCLE
         then TestAllMemoryRegions w
         else if currentTestMode w =? SRAM_ONLY_CYCLE
         then TestSRAMOnly w
         else if currentTestMode w =? FLASH_ONLY_CYCLE
         then TestFlashOnly w
         else if currentTestMode w =? CACHE_ONLY_CYCLE
         then TestCacheOnly w
         else TestAllMemoryRegions w);
  Some (run IwdgRefresh w).



Definition initialWorld (mode : Z) : World :=
  mkWorld InitializeDefaultConfig 0 mode EmptyString
          (mkPersist (fun _ => 0) []) [].

(* [n] successive scheduler cycles. *)
Fixpoint runCycles (n : nat) (w : World) : option World :=
  match n with
  | O => Some w
  | Datatypes.S n' => w' <-? MainTestCycle w; runCycles n' w'
  end.

End Scheduler.

(** ** Range tests: Src/memory_test_framework.c and the address test of
       Src/address_tests.c *)

Module RangeTests.

Definition PATTERN_CHECKERBOARD_1 : Z := 0xAA55AA55.
Definition PATTERN_CHECKERBOARD_2 : Z := 0x55AA55AA.

Record MemoryTestStatus : Type := mkStatus {
  addressTestSuccess : Z;
  addressTestTotal : Z;
  dataTestSuccess : Z;
  dataTestTotal : Z;
  marchCTestSuccess : Z;
  marchCTestTotal : Z;
  galpatTestSuccess : Z;
  galpatTestTotal : Z;
  walkingTestSuccess : Z;
  walkingTestTotal : Z;
  eccErrorCount : Z;
  transactionFailCount : Z;
  totalErrors : Z
}.

Definition set_addressTest (st : MemoryTestStatus) (success total : Z)
  : MemoryTestStatus :=
  mkStatus success total (dataTestSuccess st) (dataTestTotal st)
           (marchCTestSuccess st) (marchCTestTotal st)
           (galpatTestSuccess st) (galpatTestTotal st)
           (walkingTestSuccess st) (walkingTestTotal st)
           (eccErrorCount st) (transactionFailCount st) (totalErrors st).

Definition set_dataTest (st : MemoryTestStatus) (success total : Z)
  : MemoryTestStatus :=
  mkStatus (addressTestSuccess st) (addressTestTotal st) success total
           (marchCTestSuccess st) (marchCTestTotal st)
           (galpatTestSuccess st) (galpatTestTotal st)
           (walkingTestSuccess st) (walkingTestTotal st)
           (eccErrorCount st) (transactionFailCount st) (totalErrors st).

(* [for (uint32_t offset = 0; offset < size; offset += stride) body]
   from [offset], for at most [fuel] iterations; a loop still running
   after [fuel] iterations is reported as [None]. *)
Fixpoint strideLoop {S : Type} (fuel : nat) (offset stride size : Z)
         (body : Z -> S -> S) (s : S) : option S :=
  match fuel with
  | O => if offset <? size then None else Some s
  | Datatypes.S fuel' =>
      if offset <? size
      then strideLoop fuel' (U32.add offset stride) stride size body
                      (body offset s)
      else Some s
  end.

(* Which error line a mismatch sends to the UART. *)
Inductive LineKind : Type :=
| AddressTestError
| CheckerboardError
| CheckerboardInvError.

Inductive Access : Type :=
| MemWrite (addr value : Z)
| MemRead (addr : Z)
| ErrorLine (kind : LineKind) (addr read expected : Z).

Section Device.

Variable Mem : Type.
Variable load : Mem -> Z -> Z.
Variable store : Mem -> Z -> Z -> Mem.

Record RunState : Type := mkRunState {
  mem : Mem;
  log : list Access;
  errors : Z
}.

(* [*addr = value;] *)
Definition poke (a v : Z) (s : RunState) : RunState :=
  mkRunState (store (mem s) a v) (log s ++ [MemWrite a v]) (errors s).

(* [if ( *addr != expected) { errors++; report }]: the report reads the
   word a second time for its argument. *)
Definition check (kind : LineKind) (a expected : Z) (s : RunState)
  : RunState :=
  let v := load (mem s) a in
  if negb (v =? expected)
  then mkRunState (mem s)
                  (log s ++ [MemRead a; MemRead a;
                             ErrorLine kind a (load (mem s) a) expected])
                  (U32.add (errors s) 1)
  else mkRunState (mem s) (log s ++ [MemRead a]) (errors s).

(* A write loop and a read loop over [startAddr + offset], the value for
   an address given by [valueAt]. *)
Definition writePhase (fuel : nat) (stride startAddr size : Z)
           (valueAt : Z -> Z) (s : RunState) : option RunState :=
  strideLoop fuel 0 stride size
             (fun offset s =>
                let addr := U32.add startAddr offset in
                poke addr (valueAt addr) s)
             s.

Definition readPhase (fuel : nat) (stride startAddr size : Z)
           (kind : LineKind) (valueAt : Z -> Z) (s : RunState)
  : option RunState :=
  strideLoop fuel 0 stride size
             (fun offset s =>
                let addr := U32.add startAddr offset in
                check kind addr (valueAt addr) s)
             s.

(* memory_test_framework.c, RunCheckerboardTest.  The returned state
   carries the error count the function returns. *)
Definition RunCheckerboardTest (fuel : nat) (startAddr size pattern : Z)
           (status : MemoryTestStatus) (m : Mem)
  : option (RunState * MemoryTestStatus) :=
  let status := set_dataTest status (dataTestSuccess status)
                             (U32.add (dataTestTotal status) 1) in
  let s := mkRunState m [] 0 in
  s <-? writePhase fuel 4 startAddr size (fun _ => pattern) s;
  s <-? readPhase fuel 4 startAddr size CheckerboardError
                  (fun _ => pattern) s;
  let invPattern := U32.not pattern in
  s <-? writePhase fuel 4 startAddr size (fun _ => invPattern) s;
  s <-? readPhase fuel 4 startAddr size CheckerboardInvError
                  (fun _ => invPattern) s;
  let status := if errors s =? 0
                then set_dataTest status
                                  (U32.add (dataTestSuccess status) 1)
                                  (dataTestTotal status)
                else status in
  Some (s, status).

(* memory_test_framework.c, RunAddressTest: step 256, the pattern
   [addr ^ (testCycleCounter * 0x1234567B)]. *)
Definition RunAddressTest (fuel : nat) (testCycleCounter : Z)
           (startAddr size : Z) (status : MemoryTestStatus) (m : Mem)
  : option (RunState * MemoryTestStatus) :=
  let step := 256 in
  let status := set_addressTest status (addressTestSuccess status)
                                (U32.add (addressTestTotal status) 1) in
  let expectedValue addr :=
    U32.xor addr (U32.mul testCycleCounter 0x1234567B) in
  let s := mkRunState m [] 0 in
  s <-? writePhase fuel step startAddr size expectedValue s;
  s <-? readPhase fuel step startAddr size AddressTestError
                  expectedValue s;
  let status := if errors s =? 0
                then set_addressTest status
                                     (U32.add (addressTestSuccess status) 1)
                                     (addressTestTotal status)
                else status in
  Some (s, status).

(* address_tests.c, lines 31-69: the address test with the configured
   stride and GenerateAddressPattern; [totalSize] is not used. *)
Definition RunImprovedAddressTest (fuel : nat)
           (addressTestStride testCycleCounter : Z)
           (startAddr size totalSize : Z) (m : Mem) : option RunState :=
  let stride := addressTestStride in
  let expectedValue :=
    AddressTests.GenerateAddressPattern testCycleCounter in
  let s := mkRunState m [] 0 in
  s <-? writePhase fuel stride startAddr size expectedValue s;
  readPhase fuel stride startAddr size AddressTestError expectedValue s.

End Device.

Arguments mem {Mem} _.
Arguments log {Mem} _.
Arguments errors {Mem} _.
Arguments mkRunState {Mem} _ _ _.
Arguments poke {Mem} store a v s.
Arguments check {Mem} load kind a expected s.
Arguments writePhase {Mem} store fuel stride startAddr size valueAt s.
Arguments readPhase {Mem} load fuel stride startAddr size kind valueAt s.
Arguments RunCheckerboardTest {Mem} load store fuel _ _ _ status m.
Arguments RunAddressTest {Mem} load store fuel _ _ _ status m.
Arguments RunImprovedAddressTest {Mem} load store fuel _ _ _ _ _ m.

Definition emptyStatus : MemoryTestStatus :=
  mkStatus 0 0 0 0 0 0 0 0 0 0 0 0 0.

End RangeTests.

(** ** A session of the persistent store: boots, state saves and fault
       traps in the order they happen *)

Module Session.

Inductive Step : Type :=
| Boot (resetCause : Z)
| Save (testCycleCounter operationCode errorCode : Z)
| Operation (testCycleCounter : Z) (operation : string)
| Fault (testCycleCounter errorCode : Z).

Section ResetFlags.

Variables RCC_CSR_IWDGRSTF RCC_CSR_PINRSTF : Z.

Definition step (st : Step) (s : Watchdog.Persist) : Watchdog.Persist :=
  match st with
  | Boot cause =>
      Watchdog.CheckForReset RCC_CSR_IWDGRSTF RCC_CSR_PINRSTF cause s
  | Save c op err => Watchdog.SaveTestState c op err s
  | Operation c operation =>
      Watchdog.SaveTestState c (Scheduler.operationCodeOf 4 operation 0) 0 s
  | Fault c err => Watchdog.faultHandler c err s
  end.

Definition run (steps : list Step) (s : Watchdog.Persist)
  : Watchdog.Persist :=
  fold_left (fun s st => step st s) steps s.

Definition isWatchdogBoot (st : Step) : bool :=
  match st with
  | Boot cause => negb (U32.and cause RCC_CSR_IWDGRSTF =? 0)
  | _ => false
  end.

End ResetFlags.

End Session.

(** ** Vocabulary of the properties *)

(* Two addresses differ in exactly one bit, bit [k] of a 32-bit word. *)
Definition differInOneBit (a1 a2 : Z) : Prop :=
  exists k, 0 <= k < 32 /\ Z.lxor a1 a2 = 2 ^ k.

(* The stores of a log, in order, as (address, value). *)
Fixpoint storesIn (l : list AddressTests.Event) : list (Z * Z) :=
  match l with
  | [] => []
  | AddressTests.Store a v :: rest => (a, v) :: storesIn rest
  | _ :: rest => storesIn rest
  end.

(* The test window [startAddr, startAddr + size). *)
Definition inWindow (startAddr size a : Z) : Prop :=
  startAddr <= a < startAddr + size.

(* A 32-bit access at [a] touches the four bytes [a .. a + 3]; it lies in
   the window when all four do. *)
Definition wordInWindow (startAddr size a : Z) : Prop :=
  startAddr <= a /\ a + 4 <= startAddr + size.

Definition accessInWindow (startAddr size : Z) (e : AddressTests.Event)
  : Prop :=
  match AddressTests.accessed e with
  | Some a => wordInWindow startAddr size a
  | None => True
  end.

(* Every slot of the pair table that was assigned holds two addresses of
   the window; the slots below [n] were all assigned. *)
Definition pairsInside (startAddr size : Z) (pairs : AddressTests.PairArray)
  : Prop :=
  forall j a0 a1, pairs j = Some (a0, a1) ->
                  inWindow startAddr size a0 /\ inWindow startAddr size a1.
Definition filledBelow (n : Z) (pairs : AddressTests.PairArray) : Prop :=
  forall j, 0 <= j < n -> pairs j <> None.



(* The order the spec words for a rotation: the size tier is selected
   first and the offsets are then advanced with the new sizes.  Kept only
   to be compared with RotateTestParameters. *)
Definition RotateSizesFirst (n : Z) (c : Config.MemoryTestConfig)
  : option Config.MemoryTestConfig :=
  let c1 := if negb (Config.rotateTestSizes c =? 0) && (n mod 5 =? 0)
            then Config.rotateSizes n c else c in
  if negb (Config.rotateStartingOffsets c1 =? 0)
  then Config.rotateOffsets c1 else Some c1.

(* The call with cycle counter [n] leaves the size tier as it is: size
   rotation is disabled, or not due, or due with the first tier. *)
Definition sizeRotationIdle (c : Config.MemoryTestConfig) (n : Z) : bool :=
  (Config.rotateTestSizes c =? 0) || negb (n mod 5 =? 0)
  || ((n / 5) mod 3 =? 0).

(* The divisors of the flash, SRAM1 and CCM rotations are not zero. *)
Definition otherBanksRotatable (c : Config.MemoryTestConfig) : Prop :=
  U32.sub (U32.sub Config.FLASH_SIZE (Config.flashTestSize c)) 0x1000 <> 0 /\
  U32.sub (U32.sub Config.SRAM1_SIZE (Config.sram1TestSize c)) 0x1000 <> 0 /\
  U32.sub (U32.sub Config.CCM_SRAM_SIZE (Config.ccmTestSize c)) 0x400 <> 0.

(* The window sizes leave room in every bank: a positive usable range,
   and space for the window above the low margin. *)
Definition sizesFit (c : Config.MemoryTestConfig) : Prop :=
  0 <= Config.flashTestSize c /\
  Config.flashTestSize c + Config.FLASH_MARGIN < Config.FLASH_SIZE /\
  0 <= Config.sram1TestSize c /\
  Config.sram1TestSize c + 2 * Config.SRAM1_MARGIN <= Config.SRAM1_SIZE /\
  0 <= Config.sram2TestSize c /\
  Config.sram2TestSize c + 2 * Config.SRAM2_MARGIN <= Config.SRAM2_SIZE /\
  0 <= Config.ccmTestSize c /\
  Config.ccmTestSize c + 2 * Config.CCM_MARGIN <= Config.CCM_SRAM_SIZE.

(* The four window sizes are those of one of the three built-in tiers. *)
Definition isTier (c : Config.MemoryTestConfig) : Prop :=
  (Config.flashTestSize c, Config.sram1TestSize c,
   Config.sram2TestSize c, Config.ccmTestSize c)
  = (0x8000, 0x4000, 0x2000, 0x2000) \/
  (Config.flashTestSize c, Config.sram1TestSize c,
   Config.sram2TestSize c, Config.ccmTestSize c)
  = (0x10000, 0x8000, 0x4000, 0x4000) \/
  (Config.flashTestSize c, Config.sram1TestSize c,
   Config.sram2TestSize c, Config.ccmTestSize c)
  = (0x20000, 0x10000, 0x6000, 0x6000).

(* The offsets a range test visits: the multiples of the stride below
   the size. *)
Definition visited (stride size k : Z) : Prop :=
  0 <= k < size /\ (stride | k).

(* A memory that returns what was last stored: a 32-bit value stored at
   an address is read back from it, and a store does not change the word
   at an address four or more bytes away. *)
Definition soundMemory {Mem : Type} (load : Mem -> Z -> Z)
           (store : Mem -> Z -> Z -> Mem) : Prop :=
  (forall m a v, U32.in_range v -> load (store m a v) a = v) /\
  (forall m a b v, 4 <= Z.abs (a - b) -> load (store m a v) b = load m b).

(* What the steps of a cycle keep of the world [w0] it started from, and
   what the last operation update left in the persistent store. *)
Definition keepsFrame (w0 w : Scheduler.World) : Prop :=
  Scheduler.testCycleCounter w = Scheduler.testCycleCounter w0 /\
  Scheduler.currentTestMode w = Scheduler.currentTestMode w0 /\
  Scheduler.testConfig w = Scheduler.testConfig w0 /\
  Watchdog.resetCount (Scheduler.persist w)
  = Watchdog.resetCount (Scheduler.persist w0).

Definition cycleSaved (w : Scheduler.World) : Prop :=
  Watchdog.lastCycle (Scheduler.persist w) = Scheduler.testCycleCounter w /\
  Watchdog.errorCode (Scheduler.persist w) = 0.

(** * Properties *)

Import Config AddressTests Watchdog Scheduler.

(** ** The embedding at work *)

Example first_rotation :
  option_map (fun c => (flashTestOffset c, sram1TestOffset c,
                        sram2TestOffset c, ccmTestOffset c))
             (RotateTestParameters 1 InitializeDefaultConfig)
  = Some (0x30000, 0x6000, 0x1400, 0x1400).
Proof. reflexivity. Qed.

Example address_pattern_value :
  GenerateAddressPattern 1 0x20000000 = 0xC23B598B.
Proof. reflexivity. Qed.

Example butterfly_patterns_value :
  (butterflyPattern1 3 2, butterflyPattern2 3 2) = (0x8888888B, 0x77777774).
Proof. reflexivity. Qed.

Example operation_code_value :
  operationCodeOf 4 "SRAM2 Walking Test" 0 = 0x5352414D.
Proof. reflexivity. Qed.

Example butterfly_first_pair :
  option_map (fun pn => (fst pn 0, snd pn))
             (butterflyPairs 0x20018400 0x2000 0x8000 1 16)
  = Some (Some (0x20018413, 0x20018413), 21).
Proof. reflexivity. Qed.

(** ** Facts about 32-bit arithmetic *)

Lemma wrap_range (x : Z) : U32.in_range (U32.wrap x).
Proof.
  unfold U32.in_range, U32.wrap, U32.modulus.
  apply Z.mod_pos_bound. reflexivity.
Qed.

Lemma wrap_small (x : Z) : U32.in_range x -> U32.wrap x = x.
Proof.
  unfold U32.in_range, U32.wrap. intros H. now apply Z.mod_small.
Qed.

Lemma wrap_testbit (x n : Z) :
  Z.testbit (U32.wrap x) n = (n <? 32) && Z.testbit x n.
Proof.
  unfold U32.wrap, U32.modulus.
  destruct (Z.ltb_spec n 32) as [Hlt | Hge]; cbn [andb].
  - destruct (Z.lt_ge_cases n 0) as [Hneg | Hpos].
    + now rewrite !Z.testbit_neg_r.
    + apply Z.mod_pow2_bits_low. lia.
  - apply Z.mod_pow2_bits_high. lia.
Qed.

Lemma wrap_lxor (a b : Z) :
  U32.wrap (Z.lxor a b) = Z.lxor (U32.wrap a) (U32.wrap b).
Proof.
  apply Z.bits_inj'. intros n _.
  rewrite Z.lxor_spec, !wrap_testbit, Z.lxor_spec.
  now destruct (n <? 32).
Qed.

Lemma ones32_testbit (n : Z) :
  0 <= n -> Z.testbit 0xFFFFFFFF n = (n <? 32).
Proof.
  intros Hn. change 0xFFFFFFFF with (Z.ones 32).
  destruct (Z.ltb_spec n 32).
  - apply Z.ones_spec_low. lia.
  - apply Z.ones_spec_high. lia.
Qed.

(* On 32 bits, [~x] is [x ^ 0xFFFFFFFF]. *)
Lemma not_as_xor (x : Z) : U32.not x = Z.lxor (U32.wrap x) 0xFFFFFFFF.
Proof.
  unfold U32.not. apply Z.bits_inj'. intros n Hn.
  rewrite Z.lxor_spec, !wrap_testbit, ones32_testbit by assumption.
  rewrite Z.lnot_spec by assumption.
  destruct (n <? 32); cbn [andb]; [now rewrite xorb_true_r | reflexivity].
Qed.

Lemma lxor_cancel_r (a b x : Z) : Z.lxor a x = Z.lxor b x -> a = b.
Proof.
  intros H.
  assert (E : Z.lxor (Z.lxor a x) x = Z.lxor (Z.lxor b x) x) by now rewrite H.
  now rewrite !Z.lxor_assoc, Z.lxor_nilpotent, !Z.lxor_0_r in E.
Qed.

(** ** The address pattern *)

Lemma GenerateAddressPattern_injective (c a1 a2 : Z) :
  GenerateAddressPattern c a1 = GenerateAddressPattern c a2 -> a1 = a2.
Proof.
  unfold GenerateAddressPattern, U32.xor. intros H.
  now apply lxor_cancel_r in H; apply lxor_cancel_r in H.
Qed.

(* The two patterns differ in the very bits in which the addresses do. *)
Lemma GenerateAddressPattern_difference (c a1 a2 : Z) :
  Z.lxor (GenerateAddressPattern c a1) (GenerateAddressPattern c a2)
  = Z.lxor a1 a2.
Proof.
  unfold GenerateAddressPattern, U32.xor.
  set (m := U32.mul c 0x1234567B). set (k := 0xF00F0FF0).
  rewrite (Z.lxor_comm (Z.lxor a2 m) k), Z.lxor_assoc.
  rewrite <- (Z.lxor_assoc k k), Z.lxor_nilpotent, Z.lxor_0_l.
  rewrite (Z.lxor_comm a2 m), Z.lxor_assoc, <- (Z.lxor_assoc m m).
  now rewrite Z.lxor_nilpotent, Z.lxor_0_l.
Qed.

(** C8. For every cycle counter value and every two addresses that differ
    in exactly one bit, GenerateAddressPattern returns different values. *)
Theorem address_pattern_separates_one_bit (c a1 a2 : Z) :
  differInOneBit a1 a2 ->
  GenerateAddressPattern c a1 <> GenerateAddressPattern c a2.
Proof.
  intros [k [Hk Hx]] Heq.
  apply GenerateAddressPattern_injective in Heq. subst a2.
  rewrite Z.lxor_nilpotent in Hx.
  assert (0 < 2 ^ k) by (apply Z.pow_pos_nonneg; lia).
  lia.
Qed.

Lemma address_pattern_separates_one_bit_witness :
  differInOneBit 0x20000000 0x20000100 /\
  GenerateAddressPattern 7 0x20000000 <> GenerateAddressPattern 7 0x20000100.
Proof.
  assert (H : differInOneBit 0x20000000 0x20000100).
  { exists 8. split; [lia | reflexivity]. }
  split; [exact H | exact (address_pattern_separates_one_bit 7 _ _ H)].
Defined.

(** ** The butterfly patterns *)

Lemma butterflyPattern1_range (c i : Z) :
  U32.in_range c -> U32.wrap (butterflyPattern1 c i) = butterflyPattern1 c i.
Proof.
  intros Hc. unfold butterflyPattern1, U32.xor, U32.mul.
  rewrite !wrap_lxor, (wrap_small c Hc).
  rewrite (wrap_small (U32.wrap _) (wrap_range _)).
  reflexivity.
Qed.

Lemma butterflyPattern2_range (c i : Z) :
  U32.in_range c -> U32.wrap (butterflyPattern2 c i) = butterflyPattern2 c i.
Proof.
  intros Hc. unfold butterflyPattern2, U32.xor, U32.mul.
  rewrite !wrap_lxor, (wrap_small c Hc).
  rewrite (wrap_small (U32.wrap _) (wrap_range _)).
  reflexivity.
Qed.

Lemma butterflyPattern2_is_not (c i : Z) :
  U32.in_range c ->
  butterflyPattern2 c i = U32.not (butterflyPattern1 c i).
Proof.
  intros Hc. rewrite not_as_xor, butterflyPattern1_range by assumption.
  unfold butterflyPattern1, butterflyPattern2, U32.xor.
  set (m := U32.mul i 0x11111111).
  rewrite (Z.lxor_comm _ 0xFFFFFFFF), <- !Z.lxor_assoc.
  reflexivity.
Qed.

Lemma butterflyPattern1_is_not (c i : Z) :
  U32.in_range c ->
  butterflyPattern1 c i = U32.not (butterflyPattern2 c i).
Proof.
  intros Hc. rewrite not_as_xor, butterflyPattern2_range by assumption.
  unfold butterflyPattern1, butterflyPattern2, U32.xor.
  set (m := U32.mul i 0x11111111).
  rewrite (Z.lxor_comm _ 0xFFFFFFFF), <- !Z.lxor_assoc.
  reflexivity.
Qed.

Lemma not_involutive (x : Z) : U32.in_range x -> U32.not (U32.not x) = x.
Proof.
  intros Hx. rewrite !not_as_xor, wrap_lxor, !(wrap_small x Hx).
  change (U32.wrap 0xFFFFFFFF) with 0xFFFFFFFF.
  now rewrite Z.lxor_assoc, Z.lxor_nilpotent, Z.lxor_0_r.
Qed.

Lemma storesIn_app (l l' : list Event) :
  storesIn (l ++ l') = storesIn l ++ storesIn l'.
Proof.
  induction l as [| e l IH]; [reflexivity |].
  destruct e; cbn; now rewrite IH.
Qed.

Section DeviceFacts.

Variable Mem : Type.
Variable load : Mem -> Z -> Z.
Variable store : Mem -> Z -> Z -> Mem.

Lemma log_write (a v : Z) (s : TestState Mem) :
  log (write store a v s) = log s ++ [Store a v].
Proof. reflexivity. Qed.

Lemma log_verifyReport (a e : Z) (s : TestState Mem) :
  exists v, log (verifyReport load a e s) = log s ++ [Load a]
         \/ log (verifyReport load a e s)
            = log s ++ [Load a; Load a; ButterflyError a v e].
Proof.
  exists (load (mem s) a). unfold verifyReport.
  destruct (negb (load (mem s) a =? e)); cbn [log mem];
    [right; now rewrite <- app_assoc | now left].
Qed.

Lemma log_verify (a e : Z) (s : TestState Mem) :
  log (verify load a e s) = log s ++ [Load a].
Proof. reflexivity. Qed.

Lemma stores_verifyReport (a e : Z) (s : TestState Mem) :
  storesIn (log (verifyReport load a e s)) = storesIn (log s).
Proof.
  destruct (log_verifyReport a e s) as [v [H | H]]; rewrite H, storesIn_app;
    cbn; now rewrite app_nil_r.
Qed.

Lemma testPairBody_stores (c i : Z) (pairs : PairArray) (a0 a1 : Z)
      (s : TestState Mem) :
  getPair pairs i = Some (a0, a1) ->
  exists s',
    testPairBody load store c pairs i s = Some s' /\
    storesIn (log s')
    = storesIn (log s) ++ [(a0, butterflyPattern1 c i);
                           (a1, butterflyPattern2 c i);
                           (a0, butterflyPattern2 c i);
                           (a1, butterflyPattern1 c i)].
Proof.
  intros Hget. unfold testPairBody. rewrite Hget. cbn [obind fst snd].
  eexists. split; [reflexivity |].
  rewrite !log_verify, !storesIn_app, !log_write, !storesIn_app.
  rewrite !stores_verifyReport, !log_write, !storesIn_app.
  cbn [storesIn]. rewrite !app_nil_r, <- !app_assoc. reflexivity.
Qed.

End DeviceFacts.

(** C9. For every pair index and every cycle counter value, the butterfly
    test stores a value at the first address of the pair and the bitwise
    complement of that value at the second address; after the swap the
    two stored values are again complements of each other. *)
Theorem butterfly_pair_values_complementary
        (Mem : Type) (load : Mem -> Z -> Z) (store : Mem -> Z -> Z -> Mem)
        (c i : Z) (pairs : PairArray) (a0 a1 : Z) (s : TestState Mem) :
  U32.in_range c ->
  getPair pairs i = Some (a0, a1) ->
  exists s' v,
    testPairBody load store c pairs i s = Some s' /\
    v = butterflyPattern1 c i /\
    butterflyPattern2 c i = U32.not v /\
    U32.not (U32.not v) = v /\
    storesIn (log s')
    = storesIn (log s) ++ [(a0, v); (a1, U32.not v);
                           (a0, U32.not v); (a1, v)].
Proof.
  intros Hc Hget.
  destruct (testPairBody_stores Mem load store c i pairs a0 a1 s Hget)
    as [s' [Hrun Hst]].
  exists s', (butterflyPattern1 c i).
  rewrite <- (butterflyPattern2_is_not c i Hc).
  repeat split; try assumption.
  rewrite (butterflyPattern2_is_not c i Hc).
  apply not_involutive. rewrite <- (butterflyPattern1_range c i Hc).
  apply wrap_range.
Qed.

Lemma butterfly_pair_values_complementary_witness :
  let pairs : PairArray :=
    fun j => if j =? 0 then Some (0x20018413, 0x20018417) else None in
  let s := mkTestState (fun _ : Z => 0) [] 0 in
  U32.in_range 1 /\
  getPair pairs 0 = Some (0x20018413, 0x20018417) /\
  exists s' v,
    testPairBody idealLoad idealStore 1 pairs 0 s = Some s' /\
    v = butterflyPattern1 1 0 /\
    butterflyPattern2 1 0 = U32.not v /\
    U32.not (U32.not v) = v /\
    storesIn (log s')
    = storesIn (log s) ++ [(0x20018413, v); (0x20018417, U32.not v);
                           (0x20018413, U32.not v); (0x20018417, v)].
Proof.
  intros pairs s.
  assert (Hc : U32.in_range 1) by (unfold U32.in_range, U32.modulus; lia).
  assert (Hg : getPair pairs 0 = Some (0x20018413, 0x20018417))
    by reflexivity.
  split; [exact Hc | split; [exact Hg |]].
  exact (butterfly_pair_values_complementary
           IdealMem idealLoad idealStore 1 0 pairs _ _ s Hc Hg).
Defined.

(** ** Loops *)

(* A loop whose condition fails within [n] iterations and whose body
   keeps an invariant returns a state satisfying the invariant, at the
   first index where the condition fails. *)
Lemma forLoop_invariant {S : Type} (I : Z -> S -> Prop) (cond : Z -> bool)
      (body : Z -> S -> option S) :
  (forall i s, I i s -> cond i = true ->
               exists s', body i s = Some s' /\ I (i + 1) s') ->
  forall (n : nat) (i : Z) (s : S),
    I i s ->
    (exists k, (k <= n)%nat /\ cond (i + Z.of_nat k) = false) ->
    exists k s', (k <= n)%nat /\
                 forLoop n i cond body s = Some s' /\
                 I (i + Z.of_nat k) s' /\
                 cond (i + Z.of_nat k) = false.
Proof.
  intros Hbody n. induction n as [| n IH]; intros i s Hi [k [Hk Hend]].
  - assert (k = 0%nat) by lia. subst k. cbn in Hend. rewrite Z.add_0_r in Hend.
    exists 0%nat, s. cbn. rewrite Z.add_0_r, Hend. auto.
  - cbn. destruct (cond i) eqn:Hc.
    + destruct (Hbody i s Hi Hc) as [s1 [Hb H1]]. rewrite Hb. cbn.
      destruct k as [| k].
      { cbn in Hend. rewrite Z.add_0_r in Hend. congruence. }
      destruct (IH (i + 1) s1 H1) as [k' [s' [Hk' [Hrun [HI Hstop]]]]].
      { exists k. split; [lia |].
        now replace (i + 1 + Z.of_nat k) with (i + Z.of_nat (Datatypes.S k))
          by lia. }
      exists (Datatypes.S k'), s'.
      replace (i + Z.of_nat (Datatypes.S k')) with (i + 1 + Z.of_nat k')
        by lia.
      repeat split; [lia | assumption ..].
    + exists 0%nat, s. cbn. rewrite Z.add_0_r. repeat split; auto. lia.
Qed.

(** ** The butterfly test stays inside its window *)

Section WindowFacts.

Variables startAddr size totalSize : Z.
Hypothesis Hstart : 0 <= startAddr.
Hypothesis Hsize : 0 < size.
Hypothesis Htotal : 0 < totalSize.
Hypothesis Hfit : startAddr + size <= U32.modulus.

Lemma mapIntoWindow_inside (a : Z) :
  exists a', mapIntoWindow startAddr size a = Some a' /\
             inWindow startAddr size a'.
Proof.
  unfold mapIntoWindow, inWindow.
  destruct ((a <? startAddr) || (a >=? U32.add startAddr size)) eqn:Hout.
  - unfold U32.umod. destruct (Z.eqb_spec size 0) as [E | _]; [lia |].
    cbn [obind]. eexists. split; [reflexivity |].
    pose proof (Z.mod_pos_bound a size Hsize) as Hr.
    unfold U32.add, U32.wrap. rewrite Z.mod_small; lia.
  - exists a. split; [reflexivity |].
    apply orb_false_iff in Hout. destruct Hout as [H1 H2].
    apply Z.ltb_ge in H1. rewrite Z.geb_leb in H2. apply Z.leb_gt in H2.
    split; [assumption |].
    unfold U32.add, U32.wrap in H2.
    destruct (Z.eq_dec (startAddr + size) U32.modulus) as [E | NE].
    + rewrite E, Z.mod_same in H2 by (unfold U32.modulus; lia). lia.
    + rewrite Z.mod_small in H2 by lia. assumption.
Qed.

Lemma setPair_keeps (pairs pairs' : PairArray) (i n a0 a1 : Z) :
  pairsInside startAddr size pairs -> filledBelow n pairs ->
  inWindow startAddr size a0 -> inWindow startAddr size a1 ->
  setPair pairs i (a0, a1) = Some pairs' ->
  pairsInside startAddr size pairs' /\
  (i = n -> filledBelow (n + 1) pairs').
Proof.
  intros Hin Hfill H0 H1. unfold setPair.
  destruct ((0 <=? i) && (i <? 32)); [| discriminate].
  intros E. injection E as <-. split.
  - intros j b0 b1. destruct (Z.eqb_spec j i).
    + intros E. injection E as <- <-. auto.
    + apply Hin.
  - intros Hi j Hj. destruct (Z.eqb_spec j i); [discriminate |].
    apply Hfill. lia.
Qed.

Lemma storePair_keeps (pairs : PairArray) (i a b : Z) :
  0 <= i < 32 ->
  pairsInside startAddr size pairs -> filledBelow i pairs ->
  exists pairs',
    (a0 <-? mapIntoWindow startAddr size a;
     a1 <-? mapIntoWindow startAddr size b;
     setPair pairs i (a0, a1)) = Some pairs' /\
    pairsInside startAddr size pairs' /\ filledBelow (i + 1) pairs'.
Proof.
  intros Hi Hin Hfill.
  destruct (mapIntoWindow_inside a) as [a0 [E0 W0]].
  destruct (mapIntoWindow_inside b) as [a1 [E1 W1]].
  rewrite E0, E1. cbn [obind].
  destruct (setPair pairs i (a0, a1)) as [pairs' |] eqn:E.
  - exists pairs'. split; [reflexivity |].
    destruct (setPair_keeps pairs pairs' i i a0 a1 Hin Hfill W0 W1 E)
      as [H1 H2].
    auto.
  - unfold setPair in E.
    replace (0 <=? i) with true in E by (symmetry; apply Z.leb_le; lia).
    replace (i <? 32) with true in E by (symmetry; apply Z.ltb_lt; lia).
    discriminate.
Qed.

Lemma mainPairBody_keeps (baseAddr rotationOffset numPairs : Z)
      (i : Z) (pairs : PairArray) :
  0 <= numPairs <= 32 ->
  0 <= i < numPairs ->
  pairsInside startAddr size pairs -> filledBelow i pairs ->
  exists pairs',
    mainPairBody startAddr size totalSize baseAddr rotationOffset
                 numPairs i pairs = Some pairs' /\
    pairsInside startAddr size pairs' /\ filledBelow (i + 1) pairs'.
Proof.
  intros HnumPairs Hi Hin Hfill. unfold mainPairBody, U32.udiv, U32.umod.
  destruct (Z.eqb_spec numPairs 0) as [E | _]; [lia |].
  destruct (Z.eqb_spec totalSize 0) as [E | _]; [lia |].
  cbn [obind]. apply storePair_keeps; [lia | assumption ..].
Qed.

Lemma extraPairBody_keeps (baseAddr rotationOffset numPairs : Z)
      (i : Z) (pairs : PairArray) :
  0 <= numPairs <= 32 ->
  0 <= i -> numPairs + i < 32 ->
  pairsInside startAddr size pairs -> filledBelow (numPairs + i) pairs ->
  exists pairs',
    extraPairBody startAddr size totalSize baseAddr rotationOffset
                  numPairs i pairs = Some pairs' /\
    pairsInside startAddr size pairs' /\
    filledBelow (numPairs + (i + 1)) pairs'.
Proof.
  intros HnumPairs Hi Hlt Hin Hfill. unfold extraPairBody, U32.umod.
  destruct (Z.eqb_spec totalSize 0) as [E | _]; [lia |].
  cbn [obind].
  assert (Hidx : U32.add numPairs i = numPairs + i).
  { apply wrap_small. unfold U32.in_range, U32.modulus. lia. }
  rewrite Hidx. rewrite Z.add_assoc.
  apply storePair_keeps; [lia | assumption ..].
Qed.

(* Lines 81-144 fill the table up to the final number of pairs with
   addresses of the window. *)
Lemma butterflyPairs_inside (c nbp : Z) :
  0 <= nbp ->
  exists pairs n,
    butterflyPairs startAddr size totalSize c nbp = Some (pairs, n) /\
    0 <= n <= 32 /\
    pairsInside startAddr size pairs /\ filledBelow n pairs.
Proof.
  intros Hnbp. unfold butterflyPairs, U32.umod.
  destruct (Z.eqb_spec totalSize 0) as [E | _]; [lia |].
  cbn [obind].
  set (base := U32.sub startAddr (startAddr mod totalSize)).
  set (rot := U32.mul c 19 mod totalSize).
  set (np := if nbp >? 32 then 32 else nbp).
  assert (Hnp : 0 <= np <= 32).
  { unfold np. destruct (Z.gtb_spec nbp 32); lia. }
  (* first loop *)
  destruct (forLoop_invariant
              (fun i pairs => 0 <= i <= np /\
                              pairsInside startAddr size pairs /\
                              filledBelow i pairs)
              (fun i => i <? np)
              (mainPairBody startAddr size totalSize base rot np))
    with (n := 32%nat) (i := 0) (s := noPairs)
    as [k1 [pairs1 [Hk1 [Hrun1 [[Hi1 [Hin1 Hfill1]] Hstop1]]]]].
  { cbn beta. intros i pairs [Hi [Hin Hfill]] Hc. apply Z.ltb_lt in Hc.
    destruct (mainPairBody_keeps base rot np i pairs)
      as [pairs' [E [H1 H2]]]; try assumption; try lia.
    exists pairs'. split; [exact E | split; [lia | split; assumption]]. }
  { split; [lia | split].
    - intros j a0 a1 E. discriminate.
    - intros j Hj. lia. }
  { exists (Z.to_nat np). split; [lia |]. apply Z.ltb_ge. lia. }
  rewrite Hrun1. cbn [obind]. cbn [Z.add] in Hstop1, Hfill1, Hi1.
  apply Z.ltb_ge in Hstop1.
  assert (Hk1eq : Z.of_nat k1 = np) by lia. rewrite Hk1eq in Hfill1.
  (* second loop *)
  destruct (forLoop_invariant
              (fun i pairs => 0 <= i <= 5 /\
                              pairsInside startAddr size pairs /\
                              filledBelow (np + i) pairs)
              (fun i => (i <? 5) && (U32.add i np <? 32))
              (extraPairBody startAddr size totalSize base rot np))
    with (n := 5%nat) (i := 0) (s := pairs1)
    as [k2 [pairs2 [Hk2 [Hrun2 [[Hi2 [Hin2 Hfill2]] Hstop2]]]]].
  { cbn beta. intros i pairs [Hi [Hin Hfill]] Hc.
    apply andb_true_iff in Hc. destruct Hc as [Hc1 Hc2].
    apply Z.ltb_lt in Hc1. apply Z.ltb_lt in Hc2.
    assert (Hidx : U32.add i np = i + np).
    { apply wrap_small. unfold U32.in_range, U32.modulus. lia. }
    rewrite Hidx in Hc2.
    destruct (extraPairBody_keeps base rot np i pairs)
      as [pairs' [E [H1 H2]]]; try assumption; try lia.
    exists pairs'. split; [exact E | split; [lia | split; assumption]]. }
  { split; [lia | split; [assumption |]].
    now rewrite Z.add_0_r. }
  { exists 5%nat. split; [lia |]. reflexivity. }
  rewrite Hrun2. cbn [obind]. cbn [Z.add] in Hstop2, Hfill2, Hi2.
  assert (Hidx2 : U32.add (Z.of_nat k2) np = Z.of_nat k2 + np).
  { apply wrap_small. unfold U32.in_range, U32.modulus. lia. }
  rewrite Hidx2 in Hstop2.
  assert (Hidx5 : U32.add np 5 = np + 5).
  { apply wrap_small. unfold U32.in_range, U32.modulus. lia. }
  rewrite Hidx5.
  eexists _, _. split; [reflexivity |].
  apply andb_false_iff in Hstop2.
  destruct (Z.leb_spec (np + 5) 32) as [Hle | Hgt].
  - split; [lia |]. split; [assumption |].
    intros j Hj. apply Hfill2.
    destruct Hstop2 as [H | H]; apply Z.ltb_ge in H; lia.
  - split; [lia |]. split; [assumption |].
    intros j Hj. apply Hfill2.
    destruct Hstop2 as [H | H]; apply Z.ltb_ge in H; lia.
Qed.

End WindowFacts.

(** C10. The remapping keeps the first byte of every pair address in
    the window, but the test then accesses a 32-bit word there.  After
    the rotations of cycles 1 to 430 of the default run, cycle 431 calls
    the SRAM1 butterfly test with the window [0x20006000, 0x20016000); a
    pair address is remapped to 0x20015FFD, three bytes before the end of
    the window, and the word stored there reaches byte 0x20016000,
    outside the window. *)
Theorem butterfly_word_access_leaves_window :
  exists c430 w431 s' v,
    rotations (map Z.of_nat (seq 1 430)) InitializeDefaultConfig
    = Some c430 /\
    MainTestCycle (mkWorld c430 430 NORMAL_TEST_CYCLE EmptyString
                           (mkPersist (fun _ => 0) []) []) = Some w431 /\
    testCycleCounter w431 = 431 /\
    nth_error (calls w431) 5
    = Some (EnhancedButterflyTest 0x20006000 0x10000 SRAM1_SIZE) /\
    0 < 0x10000 /\
    RunEnhancedButterflyTest idealLoad idealStore
                             (numButterflyPairs (testConfig w431))
                             (testCycleCounter w431)
                             0x20006000 0x10000 SRAM1_SIZE (fun _ => 0)
    = Some s' /\
    In (Store 0x20015FFD v) (log s') /\
    inWindow 0x20006000 0x10000 0x20015FFD /\
    ~ inWindow 0x20006000 0x10000 (0x20015FFD + 3) /\
    ~ accessInWindow 0x20006000 0x10000 (Store 0x20015FFD v) /\
    ~ Forall (accessInWindow 0x20006000 0x10000) (log s').
Proof.
  eexists. eexists.
  assert (Hrun : exists s',
             RunEnhancedButterflyTest idealLoad idealStore 16 431
                                      0x20006000 0x10000 SRAM1_SIZE
                                      (fun _ => 0) = Some s' /\
             exists v, In (Store 0x20015FFD v) (log s')).
  { eexists. split; [vm_compute; reflexivity |].
    cbn [log]. eexists. repeat (first [left; reflexivity | right]). }
  destruct Hrun as [s' [E [v Hlog]]]. exists s', v.
  assert (Hout : ~ accessInWindow 0x20006000 0x10000 (Store 0x20015FFD v)).
  { unfold accessInWindow, wordInWindow. cbn [accessed]. lia. }
  split; [vm_compute; reflexivity |].
  split; [vm_compute; reflexivity |].
  split; [reflexivity |].
  split; [reflexivity |]. split; [lia |].
  split; [exact E |]. split; [exact Hlog |].
  split; [unfold inWindow; lia |]. split; [unfold inWindow; lia |].
  split; [exact Hout |].
  intros Hall. rewrite Forall_forall in Hall. exact (Hout (Hall _ Hlog)).
Qed.

(** ** Reset diagnosis *)

Lemma bkup_read_write_same (r : BackupRegs) (i v : Z) :
  HAL_RTCEx_BKUPRead (HAL_RTCEx_BKUPWrite r i v) i = v.
Proof. unfold HAL_RTCEx_BKUPRead, HAL_RTCEx_BKUPWrite. now rewrite Z.eqb_refl. Qed.

Lemma bkup_read_write_other (r : BackupRegs) (i j v : Z) :
  j <> i -> HAL_RTCEx_BKUPRead (HAL_RTCEx_BKUPWrite r i v) j
            = HAL_RTCEx_BKUPRead r j.
Proof.
  intros H. unfold HAL_RTCEx_BKUPRead, HAL_RTCEx_BKUPWrite.
  now destruct (Z.eqb_spec j i).
Qed.

(** C2. When the reset cause has the watchdog flag set, CheckForReset
    stores the reset counter incremented by one (as a 32-bit increment,
    which is the counter plus one below 0xFFFFFFFF), leaves the persisted
    operation tag, cycle and error code as they were, and its report
    carries the new count and those three persisted values. *)
Theorem watchdog_reset_reports_persisted_state
        (RCC_CSR_IWDGRSTF RCC_CSR_PINRSTF resetCause : Z) (s : Persist) :
  U32.and resetCause RCC_CSR_IWDGRSTF <> 0 ->
  let s' := CheckForReset RCC_CSR_IWDGRSTF RCC_CSR_PINRSTF resetCause s in
  resetCount s' = U32.add (resetCount s) 1 /\
  (0 <= resetCount s < U32.max_value -> resetCount s' = resetCount s + 1) /\
  operationTag s' = operationTag s /\
  lastCycle s' = lastCycle s /\
  errorCode s' = errorCode s /\
  uart s' = uart s ++ [WatchdogResetReport (U32.add (resetCount s) 1)
                                           (lastCycle s) (operationTag s)
                                           (errorCode s)].
Proof.
  intros Hflag s'. subst s'. unfold CheckForReset.
  destruct (Z.eqb_spec (U32.and resetCause RCC_CSR_IWDGRSTF) 0) as [E | _];
    [contradiction |].
  cbn [negb]. unfold resetCount, operationTag, lastCycle, errorCode.
  cbn [bkp uart transmit bkpWrite].
  rewrite bkup_read_write_same.
  rewrite !bkup_read_write_other by (cbv; discriminate).
  repeat split.
  intros Hr. apply wrap_small.
  unfold U32.in_range, U32.modulus, U32.max_value in *. lia.
Qed.

Lemma watchdog_reset_reports_persisted_state_witness :
  let s := mkPersist (regsOf 0x41 37 0x06 2) [] in
  U32.and 0x24000000 0x20000000 <> 0 /\
  let s' := CheckForReset 0x20000000 0x04000000 0x24000000 s in
  resetCount s' = U32.add (resetCount s) 1 /\
  (0 <= resetCount s < U32.max_value -> resetCount s' = resetCount s + 1) /\
  operationTag s' = operationTag s /\
  lastCycle s' = lastCycle s /\
  errorCode s' = errorCode s /\
  uart s' = uart s ++ [WatchdogResetReport (U32.add (resetCount s) 1)
                                           (lastCycle s) (operationTag s)
                                           (errorCode s)].
Proof.
  intros s.
  assert (H : U32.and 0x24000000 0x20000000 <> 0) by (cbv; discriminate).
  split; [exact H |].
  exact (watchdog_reset_reports_persisted_state
           0x20000000 0x04000000 0x24000000 s H).
Defined.

(* The record of the spec's scenario, evaluated. *)
Example watchdog_reset_scenario :
  let s' := CheckForReset 0x20000000 0x04000000 0x24000000
              (mkPersist (regsOf 0x41 37 0x06 2) []) in
  uart s' = [WatchdogResetReport 3 37 0x41 0x06] /\
  (operationTag s', lastCycle s', errorCode s', resetCount s')
  = (0x41, 37, 0x06, 3).
Proof. split; reflexivity. Qed.

Lemma SaveTestState_regs (c op err : Z) (s : Persist) :
  let s' := SaveTestState c op err s in
  operationTag s' = op /\ lastCycle s' = c /\ errorCode s' = err /\
  resetCount s' = resetCount s.
Proof.
  cbn zeta. unfold SaveTestState.
  assert (H : forall t : Persist,
             bkp (if negb (err =? ERROR_NONE)
                  then transmit (ErrorReport err op c) t else t) = bkp t)
    by (intros t; now destruct (negb (err =? ERROR_NONE))).
  unfold resetCount, operationTag, lastCycle, errorCode.
  rewrite H. cbn [bkp bkpWrite].
  rewrite !bkup_read_write_same.
  rewrite !bkup_read_write_other by (cbv; discriminate).
  rewrite !bkup_read_write_same. auto.
Qed.

(** C3 as stated fails: UpdateTestOperation, which the scheduler calls
    before every test, passes error code 0 to SaveTestState and so
    overwrites a recorded non-zero error code with zero. *)
Lemma error_code_cleared_counterexample :
  let w := mkWorld InitializeDefaultConfig 37 NORMAL_TEST_CYCLE EmptyString
                   (mkPersist (regsOf 0x41 37 0x06 2) []) [] in
  errorCode (persist w) = 0x06 /\
  errorCode (persist (UpdateTestOperation "Flash Address Test" w)) = 0 /\
  ~ (forall op w0, errorCode (persist w0) <> 0 ->
                   errorCode (persist (UpdateTestOperation op w0)) <> 0).
Proof.
  intros w. split; [reflexivity |]. split; [reflexivity |].
  intros H. apply (H "Flash Address Test"%string w); [discriminate |].
  reflexivity.
Qed.

(** C3 (as amended). On a clean reset (pin-reset flag set, watchdog flag
    clear) CheckForReset zeroes the persisted operation tag, cycle and
    error code and leaves the reset counter unchanged; during operation
    every UpdateTestOperation stores the tag of the new operation (its
    first four characters), records the current cycle, overwrites the
    error code with zero, and leaves the reset counter unchanged. *)
Theorem persisted_fields_cleared
        (RCC_CSR_IWDGRSTF RCC_CSR_PINRSTF resetCause : Z) (s : Persist)
        (operation : string) (w : World) :
  U32.and resetCause RCC_CSR_IWDGRSTF = 0 ->
  U32.and resetCause RCC_CSR_PINRSTF <> 0 ->
  let s' := CheckForReset RCC_CSR_IWDGRSTF RCC_CSR_PINRSTF resetCause s in
  let w' := UpdateTestOperation operation w in
  (operationTag s' = 0 /\ lastCycle s' = 0 /\ errorCode s' = 0 /\
   resetCount s' = resetCount s) /\
  (operationTag (persist w') = operationCodeOf 4 operation 0 /\
   errorCode (persist w') = 0 /\
   lastCycle (persist w') = testCycleCounter w /\
   resetCount (persist w') = resetCount (persist w)).
Proof.
  intros Hwd Hpin s' w'. subst s' w'. split.
  - unfold CheckForReset. rewrite Hwd. cbn [Z.eqb negb].
    destruct (Z.eqb_spec (U32.and resetCause RCC_CSR_PINRSTF) 0) as [E | _];
      [contradiction |].
    cbn [negb]. unfold resetCount, operationTag, lastCycle, errorCode.
    cbn [bkp bkpWrite transmit].
    rewrite !bkup_read_write_other by (cbv; discriminate).
    rewrite !bkup_read_write_same.
    rewrite !bkup_read_write_other by (cbv; discriminate).
    rewrite !bkup_read_write_same. auto.
  - unfold UpdateTestOperation. cbn [persist testCycleCounter].
    destruct (SaveTestState_regs (testCycleCounter w)
                (operationCodeOf 4 operation 0) 0 (persist w))
      as [Ho [Hc [He Hr]]].
    auto.
Qed.

Lemma persisted_fields_cleared_witness :
  let s := mkPersist (regsOf 0x41 37 0x06 2) [] in
  let w := mkWorld InitializeDefaultConfig 37 NORMAL_TEST_CYCLE EmptyString
                   s [] in
  U32.and 0x0C000000 0x20000000 = 0 /\
  U32.and 0x0C000000 0x04000000 <> 0 /\
  let s' := CheckForReset 0x20000000 0x04000000 0x0C000000 s in
  let w' := UpdateTestOperation "SRAM1 Address Test" w in
  (operationTag s' = 0 /\ lastCycle s' = 0 /\ errorCode s' = 0 /\
   resetCount s' = resetCount s) /\
  (operationTag (persist w') = operationCodeOf 4 "SRAM1 Address Test" 0 /\
   errorCode (persist w') = 0 /\
   lastCycle (persist w') = testCycleCounter w /\
   resetCount (persist w') = resetCount (persist w)).
Proof.
  intros s w.
  assert (H1 : U32.and 0x0C000000 0x20000000 = 0) by reflexivity.
  assert (H2 : U32.and 0x0C000000 0x04000000 <> 0) by (cbv; discriminate).
  split; [exact H1 | split; [exact H2 |]].
  exact (persisted_fields_cleared 0x20000000 0x04000000 0x0C000000 s
           "SRAM1 Address Test" w H1 H2).
Defined.

(** ** The scheduler *)


Lemma rotateOffsets_frame (c c' : MemoryTestConfig) :
  rotateOffsets c = Some c' ->
  advancedTestInterval c' = advancedTestInterval c /\
  rotateStartingOffsets c' = rotateStartingOffsets c /\
  rotateTestSizes c' = rotateTestSizes c /\
  flashTestSize c' = flashTestSize c /\
  sram1TestSize c' = sram1TestSize c /\
  sram2TestSize c' = sram2TestSize c /\
  ccmTestSize c' = ccmTestSize c.
Proof.
  unfold rotateOffsets.
  destruct (U32.umod _ _); [| discriminate]. cbn [obind].
  destruct (U32.umod _ _); [| discriminate]. cbn [obind].
  destruct (U32.umod _ _); [| discriminate]. cbn [obind].
  destruct (U32.umod _ _); [| discriminate]. cbn [obind].
  intros E. injection E as <-. cbn. auto 10.
Qed.

Lemma rotateSizes_frame (n : Z) (c : MemoryTestConfig) :
  advancedTestInterval (rotateSizes n c) = advancedTestInterval c /\
  rotateStartingOffsets (rotateSizes n c) = rotateStartingOffsets c /\
  rotateTestSizes (rotateSizes n c) = rotateTestSizes c /\
  flashTestOffset (rotateSizes n c) = flashTestOffset c /\
  sram1TestOffset (rotateSizes n c) = sram1TestOffset c /\
  sram2TestOffset (rotateSizes n c) = sram2TestOffset c /\
  ccmTestOffset (rotateSizes n c) = ccmTestOffset c.
Proof.
  unfold rotateSizes.
  destruct ((n / 5) mod 3) as [| [[]|[]|] | ]; cbn; auto 10.
Qed.

Lemma RotateTestParameters_frame (n : Z) (c c' : MemoryTestConfig) :
  RotateTestParameters n c = Some c' ->
  advancedTestInterval c' = advancedTestInterval c /\
  rotateStartingOffsets c' = rotateStartingOffsets c /\
  rotateTestSizes c' = rotateTestSizes c.
Proof.
  unfold RotateTestParameters.
  destruct (negb (rotateStartingOffsets c =? 0)).
  - destruct (rotateOffsets c) as [c1 |] eqn:E1; [| discriminate].
    cbn [obind]. apply rotateOffsets_frame in E1.
    destruct E1 as [A [B [C _]]].
    destruct (negb (rotateTestSizes c1 =? 0) && (n mod 5 =? 0));
      intros E; injection E as <-.
    + destruct (rotateSizes_frame n c1) as [A' [B' [C' _]]].
      rewrite A', B', C'. auto.
    + auto.
  - cbn [obind].
    destruct (negb (rotateTestSizes c =? 0) && (n mod 5 =? 0));
      intros E; injection E as <-.
    + destruct (rotateSizes_frame n c) as [A' [B' [C' _]]]. auto.
    + auto.
Qed.









(** ** Window rotation *)

(* The SRAM2 offset after a rotation is computed from the window size the
   configuration held on entry, whatever the cycle counter. *)
Lemma rotation_uses_entry_size (n : Z) (c c' : MemoryTestConfig) :
  rotateStartingOffsets c <> 0 ->
  RotateTestParameters n c = Some c' ->
  sram2TestOffset c'
  = snap (U32.add (sram2TestOffset c) 0x1000
          mod U32.sub (U32.sub SRAM2_SIZE (sram2TestSize c)) 0x400) 0x400.
Proof.
  intros Hrot. unfold RotateTestParameters.
  destruct (Z.eqb_spec (rotateStartingOffsets c) 0) as [E | _];
    [contradiction |].
  cbn [negb].
  destruct (rotateOffsets c) as [c1 |] eqn:E1; [| discriminate].
  cbn [obind].
  assert (H1 : sram2TestOffset c1
               = snap (U32.add (sram2TestOffset c) 0x1000
                       mod U32.sub (U32.sub SRAM2_SIZE (sram2TestSize c))
                                   0x400) 0x400).
  { revert E1. unfold rotateOffsets, U32.umod.
    repeat (destruct (_ =? 0); [discriminate |]; cbn [obind]).
    intros E. now injection E as <-. }
  destruct (negb (rotateTestSizes c1 =? 0) && (n mod 5 =? 0));
    intros E; injection E as <-; [| exact H1].
  destruct (rotateSizes_frame n c1) as [_ [_ [_ [_ [_ [H _]]]]]].
  now rewrite H.
Qed.

(* One rotation that leaves the size tier alone, from a configuration
   whose SRAM2 window is 0x2000 bytes. *)
Lemma idle_rotation_step (n : Z) (c : MemoryTestConfig) :
  sram2TestSize c = 0x2000 -> rotateStartingOffsets c <> 0 ->
  otherBanksRotatable c -> sizeRotationIdle c n = true ->
  exists c',
    RotateTestParameters n c = Some c' /\
    sram2TestSize c' = 0x2000 /\
    rotateStartingOffsets c' = rotateStartingOffsets c /\
    rotateTestSizes c' = rotateTestSizes c /\
    otherBanksRotatable c' /\
    sram2TestOffset c'
    = snap (U32.add (sram2TestOffset c) 0x1000 mod 0x5C00) 0x400.
Proof.
  intros Hsize Hrot [Hf [H1 Hc]] Hidle.
  assert (Hsome : exists c', RotateTestParameters n c = Some c' /\
                             sram2TestSize c' = 0x2000 /\
                             otherBanksRotatable c').
  { unfold RotateTestParameters.
    destruct (Z.eqb_spec (rotateStartingOffsets c) 0) as [E | _];
      [contradiction |].
    cbn [negb]. unfold rotateOffsets, U32.umod.
    destruct (Z.eqb_spec (U32.sub (U32.sub FLASH_SIZE (flashTestSize c))
                                  0x1000) 0) as [E | _]; [contradiction |].
    cbn [obind].
    destruct (Z.eqb_spec (U32.sub (U32.sub SRAM1_SIZE (sram1TestSize c))
                                  0x1000) 0) as [E | _]; [contradiction |].
    cbn [obind]. rewrite Hsize.
    change (U32.sub (U32.sub SRAM2_SIZE 0x2000) 0x400 =? 0) with false.
    cbn [obind].
    destruct (Z.eqb_spec (U32.sub (U32.sub CCM_SRAM_SIZE (ccmTestSize c))
                                  0x400) 0) as [E | _]; [contradiction |].
    cbn [obind]. cbn [rotateTestSizes set_offsets].
    destruct (negb (rotateTestSizes c =? 0) && (n mod 5 =? 0)) eqn:Hdue.
    - unfold sizeRotationIdle in Hidle.
      apply andb_true_iff in Hdue. destruct Hdue as [Hd1 Hd2].
      rewrite Hd2 in Hidle. apply negb_true_iff in Hd1.
      rewrite Hd1 in Hidle. cbn [negb orb] in Hidle.
      apply Z.eqb_eq in Hidle.
      eexists. split; [reflexivity |].
      unfold rotateSizes. rewrite Hidle.
      split; [reflexivity |]. unfold otherBanksRotatable. cbn.
      repeat split; discriminate.
    - eexists. split; [reflexivity |]. cbn.
      split; [exact Hsize |]. unfold otherBanksRotatable. cbn. auto. }
  destruct Hsome as [c' [E [Hs' Ho']]].
  exists c'. split; [exact E |]. split; [exact Hs' |].
  destruct (RotateTestParameters_frame n c c' E) as [_ [B C]].
  split; [exact B |]. split; [exact C |]. split; [exact Ho' |].
  rewrite (rotation_uses_entry_size n c c' Hrot E), Hsize. reflexivity.
Qed.

Lemma snap_mod_bounds (x : Z) :
  0x400 <= snap (x mod 0x5C00) 0x400 < 0x5C00.
Proof.
  unfold snap. pose proof (Z.mod_pos_bound x 0x5C00 ltac:(lia)) as H.
  destruct (Z.ltb_spec (x mod 0x5C00) 0x400); lia.
Qed.

Lemma idle_rotations_bound (cs : list Z) :
  forall c : MemoryTestConfig,
    sram2TestSize c = 0x2000 -> rotateStartingOffsets c <> 0 ->
    otherBanksRotatable c ->
    0x400 <= sram2TestOffset c <= 0x5C00 ->
    Forall (fun k => sizeRotationIdle c k = true) cs ->
    exists c', rotations cs c = Some c' /\
               0x400 <= sram2TestOffset c' <= 0x5C00.
Proof.
  induction cs as [| n cs IH]; intros c Hsize Hrot Hother Hoff Hidle.
  - exists c. now split.
  - inversion Hidle as [| ? ? Hn Hcs]; subst.
    destruct (idle_rotation_step n c Hsize Hrot Hother Hn)
      as [c1 [E [Hs1 [Hr1 [Ht1 [Ho1 Hoff1]]]]]].
    cbn [rotations]. rewrite E. cbn [obind].
    apply IH; try assumption.
    + now rewrite Hr1.
    + rewrite Hoff1. pose proof (snap_mod_bounds
                                   (U32.add (sram2TestOffset c) 0x1000)). lia.
    + revert Hcs. apply Forall_impl. intros k.
      unfold sizeRotationIdle. now rewrite Ht1.
Qed.

(** C7. From an SRAM2 window of size 0x2000 at offset 0x400 (bank size
    0x8000, margin 0x400, stride 0x1000), with offset rotation enabled and
    rotations that leave the size tier alone, the first rotation sets the
    offset to 0x1400, and after any number of further rotations the
    offset does not exceed 0x5C00. *)
Theorem sram2_offset_rotation (c : MemoryTestConfig) (n : Z) (cs : list Z) :
  sram2TestSize c = 0x2000 -> sram2TestOffset c = 0x400 ->
  rotateStartingOffsets c <> 0 -> otherBanksRotatable c ->
  Forall (fun k => sizeRotationIdle c k = true) (n :: cs) ->
  exists c1 c',
    RotateTestParameters n c = Some c1 /\
    sram2TestOffset c1 = 0x1400 /\
    rotations cs c1 = Some c' /\
    sram2TestOffset c' <= 0x8000 - 0x2000 - 0x400 /\
    0x400 <= sram2TestOffset c'.
Proof.
  intros Hsize Hoff Hrot Hother Hidle.
  inversion Hidle as [| ? ? Hn Hcs]; subst.
  destruct (idle_rotation_step n c Hsize Hrot Hother Hn)
    as [c1 [E [Hs1 [Hr1 [Ht1 [Ho1 Hoff1]]]]]].
  rewrite Hoff in Hoff1.
  change (snap (U32.add 0x400 0x1000 mod 0x5C00) 0x400) with 0x1400 in Hoff1.
  destruct (idle_rotations_bound cs c1) as [c' [E' Hb]]; try assumption.
  - now rewrite Hr1.
  - rewrite Hoff1. lia.
  - revert Hcs. apply Forall_impl. intros k.
    unfold sizeRotationIdle. now rewrite Ht1.
  - exists c1, c'. repeat split; try assumption; lia.
Qed.

Lemma sram2_offset_rotation_witness :
  let c := InitializeDefaultConfig in
  sram2TestSize c = 0x2000 /\ sram2TestOffset c = 0x400 /\
  rotateStartingOffsets c <> 0 /\ otherBanksRotatable c /\
  Forall (fun k => sizeRotationIdle c k = true) [1; 2; 3; 4] /\
  exists c1 c',
    RotateTestParameters 1 c = Some c1 /\
    sram2TestOffset c1 = 0x1400 /\
    rotations [2; 3; 4] c1 = Some c' /\
    sram2TestOffset c' <= 0x8000 - 0x2000 - 0x400 /\
    0x400 <= sram2TestOffset c'.
Proof.
  intros c.
  assert (H1 : sram2TestSize c = 0x2000) by reflexivity.
  assert (H2 : sram2TestOffset c = 0x400) by reflexivity.
  assert (H3 : rotateStartingOffsets c <> 0) by (cbv; discriminate).
  assert (H4 : otherBanksRotatable c)
    by (unfold otherBanksRotatable; cbn; repeat split; discriminate).
  assert (H5 : Forall (fun k => sizeRotationIdle c k = true) [1; 2; 3; 4])
    by (repeat constructor).
  repeat (split; [assumption |]).
  exact (sram2_offset_rotation c 1 [2; 3; 4] H1 H2 H3 H4 H5).
Defined.

(** ** Where the rotation leaves the bank *)

(* The usable range of a bank, when the window and the margin fit. *)
Lemma usable_range (bank size margin : Z) :
  0 <= size -> 0 <= margin -> size + margin <= bank -> bank < U32.modulus ->
  U32.sub (U32.sub bank size) margin = bank - size - margin.
Proof.
  intros Hs Hm Hfit Hb. unfold U32.sub.
  rewrite (wrap_small (bank - size)) by (unfold U32.in_range; lia).
  apply wrap_small. unfold U32.in_range. lia.
Qed.

Lemma advance_in_window (offset stride bank size margin : Z) :
  0 <= size -> 0 < margin -> size + 2 * margin <= bank ->
  window_ok (snap (U32.add offset stride mod (bank - size - margin)) margin)
            size margin bank.
Proof.
  intros Hs Hm Hfit. unfold window_ok, snap.
  pose proof (Z.mod_pos_bound (U32.add offset stride) (bank - size - margin)
                              ltac:(lia)) as Hr.
  destruct (Z.ltb_spec (U32.add offset stride mod (bank - size - margin))
                       margin); lia.
Qed.

(* The offset rotation alone re-establishes the window invariant for the
   sizes the configuration holds when it runs. *)
Lemma rotateOffsets_restores_windows (c : MemoryTestConfig) :
  sizesFit c ->
  exists c', rotateOffsets c = Some c' /\ windows_ok c'.
Proof.
  unfold sizesFit, FLASH_MARGIN, SRAM1_MARGIN, SRAM2_MARGIN, CCM_MARGIN.
  intros [Hf0 [Hf [H10 [H1 [H20 [H2 [Hc0 Hc]]]]]]].
  unfold rotateOffsets, U32.umod.
  rewrite (usable_range FLASH_SIZE (flashTestSize c) 0x1000)
    by (unfold FLASH_SIZE, U32.modulus in *; lia).
  rewrite (usable_range SRAM1_SIZE (sram1TestSize c) 0x1000)
    by (unfold SRAM1_SIZE, U32.modulus in *; lia).
  rewrite (usable_range SRAM2_SIZE (sram2TestSize c) 0x400)
    by (unfold SRAM2_SIZE, U32.modulus in *; lia).
  rewrite (usable_range CCM_SRAM_SIZE (ccmTestSize c) 0x400)
    by (unfold CCM_SRAM_SIZE, U32.modulus in *; lia).
  destruct (Z.eqb_spec (FLASH_SIZE - flashTestSize c - 0x1000) 0)
    as [E | _]; [lia |].
  destruct (Z.eqb_spec (SRAM1_SIZE - sram1TestSize c - 0x1000) 0)
    as [E | _]; [unfold SRAM1_SIZE in *; lia |].
  destruct (Z.eqb_spec (SRAM2_SIZE - sram2TestSize c - 0x400) 0)
    as [E | _]; [unfold SRAM2_SIZE in *; lia |].
  destruct (Z.eqb_spec (CCM_SRAM_SIZE - ccmTestSize c - 0x400) 0)
    as [E | _]; [unfold CCM_SRAM_SIZE in *; lia |].
  cbn [obind]. eexists. split; [reflexivity |].
  unfold windows_ok, FLASH_MARGIN, SRAM1_MARGIN, SRAM2_MARGIN, CCM_MARGIN.
  cbn [set_offsets flashTestOffset flashTestSize sram1TestOffset
       sram1TestSize sram2TestOffset sram2TestSize ccmTestOffset
       ccmTestSize].
  split; [| split; [| split]].
  - unfold window_ok.
    pose proof (Z.mod_pos_bound (U32.add (flashTestOffset c) 0x10000)
                  (FLASH_SIZE - flashTestSize c - 0x1000) ltac:(lia)).
    lia.
  - apply advance_in_window; lia.
  - apply advance_in_window; lia.
  - apply advance_in_window; lia.
Qed.


Lemma sizesFit_same_sizes (c c' : MemoryTestConfig) :
  flashTestSize c' = flashTestSize c -> sram1TestSize c' = sram1TestSize c ->
  sram2TestSize c' = sram2TestSize c -> ccmTestSize c' = ccmTestSize c ->
  sizesFit c -> sizesFit c'.
Proof. unfold sizesFit. intros -> -> -> ->. exact (fun H => H). Qed.

Lemma rotateSizes_fit (n : Z) (c : MemoryTestConfig) :
  sizesFit c -> sizesFit (rotateSizes n c).
Proof.
  intros Hc. unfold rotateSizes.
  destruct ((n / 5) mod 3) as [| [[]|[]|] | ]; try exact Hc;
    unfold sizesFit, FLASH_MARGIN, SRAM1_MARGIN, SRAM2_MARGIN, CCM_MARGIN,
      FLASH_SIZE, SRAM1_SIZE, SRAM2_SIZE, CCM_SRAM_SIZE; cbn; lia.
Qed.

(* With sizes that fit, and so with the three built-in tiers, a rotation
   is defined and leaves sizes that fit. *)
Lemma RotateTestParameters_defined (n : Z) (c : MemoryTestConfig) :
  sizesFit c ->
  exists c', RotateTestParameters n c = Some c' /\ sizesFit c'.
Proof.
  intros Hc. unfold RotateTestParameters.
  assert (H1 : exists c1,
             (if negb (rotateStartingOffsets c =? 0)
              then rotateOffsets c else Some c) = Some c1 /\ sizesFit c1).
  { destruct (negb (rotateStartingOffsets c =? 0)).
    - destruct (rotateOffsets_restores_windows c Hc) as [c1 [E _]].
      exists c1. split; [exact E |].
      destruct (rotateOffsets_frame c c1 E) as [_ [_ [_ [A [B [C D]]]]]].
      exact (sizesFit_same_sizes c c1 A B C D Hc).
    - now exists c. }
  destruct H1 as [c1 [E1 Hc1]]. rewrite E1. cbn [obind].
  destruct (negb (rotateTestSizes c1 =? 0) && (n mod 5 =? 0)).
  - eexists. split; [reflexivity |]. now apply rotateSizes_fit.
  - now exists c1.
Qed.

Lemma default_rotations_defined (cs : list Z) :
  exists c', rotations cs InitializeDefaultConfig = Some c' /\ sizesFit c'.
Proof.
  assert (H : forall c, sizesFit c ->
                        exists c', rotations cs c = Some c' /\ sizesFit c').
  { induction cs as [| n cs IH]; intros c Hc.
    - now exists c.
    - destruct (RotateTestParameters_defined n c Hc) as [c1 [E Hc1]].
      cbn [rotations]. rewrite E. cbn [obind]. now apply IH. }
  apply H.
  unfold sizesFit, FLASH_MARGIN, SRAM1_MARGIN, SRAM2_MARGIN, CCM_MARGIN,
    FLASH_SIZE, SRAM1_SIZE, SRAM2_SIZE, CCM_SRAM_SIZE. cbn. lia.
Qed.

(** C1. The window invariant does not survive the default rotation: both
    rotations are enabled by default, the invariant holds for the default
    configuration and after each of the first four cycles, and the fifth
    call, which advances the offsets with the small tier and then selects
    the medium tier, leaves the flash, SRAM2 and CCM windows past the end
    of their banks; the scheduler then tests SRAM2 with that window. *)
Theorem default_rotation_breaks_window_invariant :
  windows_ok InitializeDefaultConfig /\
  (exists c4, rotations [1; 2; 3; 4] InitializeDefaultConfig = Some c4 /\
              windows_ok c4) /\
  (exists c5,
     rotations [1; 2; 3; 4; 5] InitializeDefaultConfig = Some c5 /\
     sram2TestOffset c5 = 0x5400 /\ sram2TestSize c5 = 0x4000 /\
     ~ window_ok (sram2TestOffset c5) (sram2TestSize c5)
                 SRAM2_MARGIN SRAM2_SIZE /\
     ~ window_ok (flashTestOffset c5) (flashTestSize c5)
                 FLASH_MARGIN FLASH_SIZE /\
     ~ windows_ok c5 /\
     exists w,
       runCycles 5 (initialWorld NORMAL_TEST_CYCLE) = Some w /\
       testConfig w = c5 /\
       In (EnhancedButterflyTest (SRAM2_START_ADDR + 0x5400) 0x4000
                                 SRAM2_SIZE)
          (calls w) /\
       SRAM2_START_ADDR + 0x5400 + 0x4000 > SRAM2_START_ADDR + SRAM2_SIZE).
Proof.
  split; [| split].
  - unfold windows_ok, window_ok. repeat split; vm_compute; discriminate.
  - eexists. split; [vm_compute; reflexivity |].
    unfold windows_ok, window_ok. repeat split; vm_compute; discriminate.
  - eexists. split; [vm_compute; reflexivity |].
    cbn [sram2TestOffset sram2TestSize flashTestOffset flashTestSize].
    split; [reflexivity |]. split; [reflexivity |].
    assert (H2 : ~ window_ok 21504 16384 SRAM2_MARGIN SRAM2_SIZE)
      by (unfold window_ok, SRAM2_MARGIN, SRAM2_SIZE; lia).
    split; [exact H2 |].
    split; [unfold window_ok, FLASH_MARGIN, FLASH_SIZE; lia |].
    split; [intros [_ [_ [H _]]]; exact (H2 H) |].
    destruct (runCycles 5 (initialWorld NORMAL_TEST_CYCLE)) as [w |] eqn:E;
      [| vm_compute in E; discriminate].
    exists w. split; [reflexivity |].
    vm_compute in E. injection E as <-.
    split; [reflexivity |].
    split; [| unfold SRAM2_START_ADDR, SRAM2_SIZE; lia].
    cbn [calls]. unfold SRAM2_START_ADDR, SRAM2_SIZE. cbn [Z.add Pos.add].
    repeat (first [left; reflexivity | right]).
Qed.

(** C5. The rotation does not clamp.  With an SRAM2 window size of 0x7C00
    the usable range [SRAM2_SIZE - size - 0x400] is zero and every call
    evaluates a modulo by zero; with a window size of 0x8000 the range
    wraps to 0xFFFFFC00, the call completes with that divisor, and the
    window size is left as configured. *)
Theorem rotation_does_not_clamp :
  let zeroRange := set_sizes InitializeDefaultConfig
                             0x8000 0x4000 0x7C00 0x2000 in
  let wrapped := set_sizes InitializeDefaultConfig
                           0x8000 0x4000 0x8000 0x2000 in
  sram2TestSize zeroRange + SRAM2_MARGIN = SRAM2_SIZE /\
  U32.sub (U32.sub SRAM2_SIZE (sram2TestSize zeroRange)) 0x400 = 0 /\
  (forall n, RotateTestParameters n zeroRange = None) /\
  sram2TestSize wrapped + SRAM2_MARGIN > SRAM2_SIZE /\
  U32.sub (U32.sub SRAM2_SIZE (sram2TestSize wrapped)) 0x400 = 0xFFFFFC00 /\
  exists c', RotateTestParameters 1 wrapped = Some c' /\
             sram2TestSize c' = 0x8000 /\
             sram2TestOffset c' = 0x1400 /\
             ~ windows_ok c'.
Proof.
  intros zeroRange wrapped.
  split; [reflexivity |]. split; [reflexivity |]. split; [| split].
  - intros n. reflexivity.
  - unfold SRAM2_MARGIN, SRAM2_SIZE. cbn. lia.
  - split; [reflexivity |].
    eexists. split; [vm_compute; reflexivity |].
    split; [reflexivity |]. split; [reflexivity |].
    intros [_ [_ [H _]]]. vm_compute in H. now apply H.
Qed.

(** C6. When size rotation is due, RotateTestParameters advances the
    offsets first, with the window size held on entry, and selects the new
    tier afterwards.  At cycle 5 of the default run the SRAM2 offset
    becomes (0x4400 + 0x1000) mod (0x8000 - 0x2000 - 0x400) = 0x5400 and
    the size 0x4000; selecting the tier first would have given
    0x5400 mod (0x8000 - 0x4000 - 0x400) = 0x1800. *)
Theorem offsets_advance_before_size_selection :
  exists c4 c5 c5',
    rotations [1; 2; 3; 4] InitializeDefaultConfig = Some c4 /\
    sram2TestOffset c4 = 0x4400 /\ sram2TestSize c4 = 0x2000 /\
    RotateTestParameters 5 c4 = Some c5 /\
    sram2TestSize c5 = 0x4000 /\
    sram2TestOffset c5 = 0x5400 /\
    sram2TestOffset c5
    = snap (U32.add 0x4400 0x1000
            mod U32.sub (U32.sub SRAM2_SIZE (sram2TestSize c4)) 0x400)
           0x400 /\
    RotateSizesFirst 5 c4 = Some c5' /\
    sram2TestSize c5' = 0x4000 /\
    sram2TestOffset c5' = 0x1800 /\
    sram2TestOffset c5' <> sram2TestOffset c5.
Proof.
  eexists; eexists; eexists.
  split; [vm_compute; reflexivity |].
  split; [reflexivity |]. split; [reflexivity |].
  split; [vm_compute; reflexivity |].
  split; [reflexivity |]. split; [reflexivity |]. split; [reflexivity |].
  split; [vm_compute; reflexivity |].
  split; [reflexivity |]. split; [reflexivity |].
  cbn. discriminate.
Qed.

(** * Further properties of the code *)

(** ** Rotation *)

Lemma tier_sizes_fit (c : MemoryTestConfig) : isTier c -> sizesFit c.
Proof.
  unfold isTier, sizesFit, FLASH_MARGIN, SRAM1_MARGIN, SRAM2_MARGIN,
    CCM_MARGIN, FLASH_SIZE, SRAM1_SIZE, SRAM2_SIZE, CCM_SRAM_SIZE.
  intros [H | [H | H]]; injection H as -> -> -> ->; lia.
Qed.

Lemma RotateTestParameters_tier (n : Z) (c : MemoryTestConfig) :
  isTier c -> exists c', RotateTestParameters n c = Some c' /\ isTier c'.
Proof.
  intros Hc. unfold RotateTestParameters.
  assert (H1 : exists c1,
             (if negb (rotateStartingOffsets c =? 0)
              then rotateOffsets c else Some c) = Some c1 /\ isTier c1).
  { destruct (negb (rotateStartingOffsets c =? 0)).
    - destruct (rotateOffsets_restores_windows c (tier_sizes_fit c Hc))
        as [c1 [E _]].
      exists c1. split; [exact E |].
      destruct (rotateOffsets_frame c c1 E) as [_ [_ [_ [A [B [C D]]]]]].
      unfold isTier. now rewrite A, B, C, D.
    - now exists c. }
  destruct H1 as [c1 [E1 Hc1]]. rewrite E1. cbn [obind].
  destruct (negb (rotateTestSizes c1 =? 0) && (n mod 5 =? 0)).
  - eexists. split; [reflexivity |]. unfold rotateSizes.
    destruct ((n / 5) mod 3) as [| [[]|[]|] | ]; try exact Hc1;
      unfold isTier; cbn; auto.
  - now exists c1.
Qed.

(** X1. Started from the default configuration, every sequence of
    rotations is defined (no modulo by zero), and the window sizes it
    leaves are those of one of the three built-in tiers. *)
Theorem default_rotations_stay_on_tiers (cs : list Z) :
  exists c', rotations cs InitializeDefaultConfig = Some c' /\ isTier c'.
Proof.
  assert (H : forall c, isTier c ->
                        exists c', rotations cs c = Some c' /\ isTier c').
  { induction cs as [| n cs IH]; intros c Hc.
    - now exists c.
    - destruct (RotateTestParameters_tier n c Hc) as [c1 [E Hc1]].
      cbn [rotations]. rewrite E. cbn [obind]. now apply IH. }
  apply H. left. reflexivity.
Qed.

Lemma rotation_without_size_change (n : Z) (c : MemoryTestConfig) :
  sizesFit c -> rotateTestSizes c = 0 -> windows_ok c ->
  exists c', RotateTestParameters n c = Some c' /\
             sizesFit c' /\ rotateTestSizes c' = 0 /\ windows_ok c'.
Proof.
  intros Hfit Hoff Hok. unfold RotateTestParameters.
  destruct (negb (rotateStartingOffsets c =? 0)).
  - destruct (rotateOffsets_restores_windows c Hfit) as [c1 [E Hw]].
    rewrite E. cbn [obind].
    destruct (rotateOffsets_frame c c1 E) as [_ [_ [T [A [B [C D]]]]]].
    rewrite T, Hoff. cbn [Z.eqb negb andb].
    exists c1. split; [reflexivity |].
    split; [exact (sizesFit_same_sizes c c1 A B C D Hfit) |].
    split; [now rewrite T | exact Hw].
  - cbn [obind]. rewrite Hoff. cbn [Z.eqb negb andb]. now exists c.
Qed.

(** X2. With size rotation disabled and window sizes that fit their
    banks, the window invariant offset + size + margin <= bankSize is
    kept by every sequence of rotations, each of which is defined. *)
Theorem windows_kept_without_size_rotation
        (cs : list Z) (c : MemoryTestConfig) :
  sizesFit c -> rotateTestSizes c = 0 -> windows_ok c ->
  exists c', rotations cs c = Some c' /\ windows_ok c'.
Proof.
  revert c. induction cs as [| n cs IH]; intros c Hfit Hoff Hok.
  - now exists c.
  - destruct (rotation_without_size_change n c Hfit Hoff Hok)
      as [c1 [E [Hfit1 [Hoff1 Hok1]]]].
    cbn [rotations]. rewrite E. cbn [obind]. now apply IH.
Qed.

Lemma windows_kept_without_size_rotation_witness :
  let c := set_sizes (mkConfig 0x8000 0x4000 0x2000 0x2000
                               0x20000 0x2000 0x400 0x400
                               256 16 1000 10 1 0)
                     0x20000 0x10000 0x6000 0x6000 in
  sizesFit c /\ rotateTestSizes c = 0 /\ windows_ok c /\
  exists c', rotations [1; 2; 3; 4; 5; 6; 7] c = Some c' /\ windows_ok c'.
Proof.
  intros c.
  assert (H1 : sizesFit c).
  { unfold sizesFit, FLASH_MARGIN, SRAM1_MARGIN, SRAM2_MARGIN, CCM_MARGIN,
      FLASH_SIZE, SRAM1_SIZE, SRAM2_SIZE, CCM_SRAM_SIZE. cbn. lia. }
  assert (H2 : rotateTestSizes c = 0) by reflexivity.
  assert (H3 : windows_ok c).
  { unfold windows_ok, window_ok. repeat split; vm_compute; discriminate. }
  split; [exact H1 |]. split; [exact H2 |]. split; [exact H3 |].
  exact (windows_kept_without_size_rotation [1; 2; 3; 4; 5; 6; 7] c
           H1 H2 H3).
Defined.

Lemma snap_lower (x margin : Z) : margin <= snap x margin.
Proof. unfold snap. destruct (Z.ltb_spec x margin); lia. Qed.

(** X3. After a rotation with offset rotation enabled, the SRAM1, SRAM2
    and CCM offsets are at or above their low margins (0x1000, 0x400,
    0x400), whatever the sizes and previous offsets were. *)
Theorem rotated_offsets_clear_low_margin
        (n : Z) (c c' : MemoryTestConfig) :
  rotateStartingOffsets c <> 0 ->
  RotateTestParameters n c = Some c' ->
  SRAM1_MARGIN <= sram1TestOffset c' /\
  SRAM2_MARGIN <= sram2TestOffset c' /\
  CCM_MARGIN <= ccmTestOffset c'.
Proof.
  intros Hrot. unfold RotateTestParameters.
  destruct (Z.eqb_spec (rotateStartingOffsets c) 0) as [E | _];
    [contradiction |].
  cbn [negb].
  destruct (rotateOffsets c) as [c1 |] eqn:E1; [| discriminate].
  cbn [obind].
  assert (H1 : SRAM1_MARGIN <= sram1TestOffset c1 /\
               SRAM2_MARGIN <= sram2TestOffset c1 /\
               CCM_MARGIN <= ccmTestOffset c1).
  { revert E1. unfold rotateOffsets, U32.umod.
    repeat (destruct (_ =? 0); [discriminate |]; cbn [obind]).
    intros E. injection E as <-.
    cbn [set_offsets sram1TestOffset sram2TestOffset ccmTestOffset].
    unfold SRAM1_MARGIN, SRAM2_MARGIN, CCM_MARGIN.
    auto using snap_lower. }
  destruct (negb (rotateTestSizes c1 =? 0) && (n mod 5 =? 0));
    intros E; injection E as <-; [| exact H1].
  destruct (rotateSizes_frame n c1) as [_ [_ [_ [_ [A [B C]]]]]].
  now rewrite A, B, C.
Qed.

Lemma rotated_offsets_clear_low_margin_witness :
  rotateStartingOffsets InitializeDefaultConfig <> 0 /\
  exists c',
    RotateTestParameters 5 InitializeDefaultConfig = Some c' /\
    SRAM1_MARGIN <= sram1TestOffset c' /\
    SRAM2_MARGIN <= sram2TestOffset c' /\
    CCM_MARGIN <= ccmTestOffset c'.
Proof.
  assert (H1 : rotateStartingOffsets InitializeDefaultConfig <> 0)
    by (cbv; discriminate).
  split; [exact H1 |].
  destruct (RotateTestParameters 5 InitializeDefaultConfig) as [c' |] eqn:E;
    [| vm_compute in E; discriminate].
  exists c'. split; [reflexivity |].
  exact (rotated_offsets_clear_low_margin 5 InitializeDefaultConfig c' H1 E).
Defined.

(** X4. A rotation changes window offsets and sizes only: the address
    test stride, the number of butterfly pairs, the report and
    advanced-test intervals and both rotation flags are left as they
    were. *)
Theorem rotation_changes_windows_only (n : Z) (c c' : MemoryTestConfig) :
  RotateTestParameters n c = Some c' ->
  addressTestStride c' = addressTestStride c /\
  numButterflyPairs c' = numButterflyPairs c /\
  reportIntervalMs c' = reportIntervalMs c /\
  advancedTestInterval c' = advancedTestInterval c /\
  rotateStartingOffsets c' = rotateStartingOffsets c /\
  rotateTestSizes c' = rotateTestSizes c.
Proof.
  unfold RotateTestParameters.
  assert (Hoff : forall c1, rotateOffsets c = Some c1 ->
            addressTestStride c1 = addressTestStride c /\
            numButterflyPairs c1 = numButterflyPairs c /\
            reportIntervalMs c1 = reportIntervalMs c /\
            advancedTestInterval c1 = advancedTestInterval c /\
            rotateStartingOffsets c1 = rotateStartingOffsets c /\
            rotateTestSizes c1 = rotateTestSizes c).
  { intros c1. unfold rotateOffsets, U32.umod.
    repeat (destruct (_ =? 0); [discriminate |]; cbn [obind]).
    intros E. injection E as <-. cbn. auto 10. }
  assert (Hsz : forall c1,
            addressTestStride (rotateSizes n c1) = addressTestStride c1 /\
            numButterflyPairs (rotateSizes n c1) = numButterflyPairs c1 /\
            reportIntervalMs (rotateSizes n c1) = reportIntervalMs c1 /\
            advancedTestInterval (rotateSizes n c1)
            = advancedTestInterval c1 /\
            rotateStartingOffsets (rotateSizes n c1)
            = rotateStartingOffsets c1 /\
            rotateTestSizes (rotateSizes n c1) = rotateTestSizes c1).
  { intros c1. unfold rotateSizes.
    destruct ((n / 5) mod 3) as [| [[]|[]|] | ]; cbn; auto 10. }
  destruct (negb (rotateStartingOffsets c =? 0)).
  - destruct (rotateOffsets c) as [c1 |] eqn:E1; [| discriminate].
    cbn [obind]. destruct (Hoff c1 eq_refl) as [A [B [C [D [E F]]]]].
    destruct (negb (rotateTestSizes c1 =? 0) && (n mod 5 =? 0));
      intros E0; injection E0 as <-.
    + destruct (Hsz c1) as [A' [B' [C' [D' [E' F']]]]].
      rewrite A', B', C', D', E', F'. auto 10.
    + auto 10.
  - cbn [obind].
    destruct (negb (rotateTestSizes c =? 0) && (n mod 5 =? 0));
      intros E0; injection E0 as <-; [apply Hsz | auto 10].
Qed.

Lemma rotation_changes_windows_only_witness :
  exists c',
    RotateTestParameters 10 InitializeDefaultConfig = Some c' /\
    addressTestStride c' = addressTestStride InitializeDefaultConfig /\
    numButterflyPairs c' = numButterflyPairs InitializeDefaultConfig /\
    reportIntervalMs c' = reportIntervalMs InitializeDefaultConfig /\
    advancedTestInterval c' = advancedTestInterval InitializeDefaultConfig /\
    rotateStartingOffsets c'
    = rotateStartingOffsets InitializeDefaultConfig /\
    rotateTestSizes c' = rotateTestSizes InitializeDefaultConfig.
Proof.
  destruct (RotateTestParameters 10 InitializeDefaultConfig) as [c' |] eqn:E;
    [| vm_compute in E; discriminate].
  exists c'. split; [reflexivity |].
  exact (rotation_changes_windows_only 10 InitializeDefaultConfig c' E).
Defined.

(** ** Pattern generators *)

(** X5. For a fixed cycle counter, the patterns of two addresses differ in
    exactly the bit positions in which the addresses differ: the
    exclusive-or of the two patterns is the exclusive-or of the two
    addresses. *)
Theorem address_pattern_preserves_difference (c a1 a2 : Z) :
  Z.lxor (GenerateAddressPattern c a1) (GenerateAddressPattern c a2)
  = Z.lxor a1 a2.
Proof. apply GenerateAddressPattern_difference. Qed.

(* An odd multiplier is invertible modulo 2^32. *)
Lemma odd_multiplier_injective (k kinv c1 c2 : Z) :
  U32.wrap (k * kinv) = 1 ->
  U32.in_range c1 -> U32.in_range c2 ->
  U32.mul c1 k = U32.mul c2 k -> c1 = c2.
Proof.
  unfold U32.mul, U32.wrap. intros Hinv H1 H2 E.
  assert (R : forall c, U32.in_range c ->
                        ((c * k) mod U32.modulus * kinv) mod U32.modulus = c).
  { intros c Hc. unfold U32.modulus.
    rewrite Z.mul_mod_idemp_l by discriminate.
    rewrite <- Z.mul_assoc, <- Z.mul_mod_idemp_r by discriminate.
    unfold U32.modulus in Hinv. rewrite Hinv, Z.mul_1_r.
    apply Z.mod_small. exact Hc. }
  rewrite <- (R c1 H1), <- (R c2 H2), E. reflexivity.
Qed.

(** X6. For a fixed address, two different cycle counter values give
    different address patterns: the multiplier 0x1234567B is odd, so the
    cycle counter is recovered from the pattern. *)
Theorem address_pattern_separates_cycles (c1 c2 a : Z) :
  U32.in_range c1 -> U32.in_range c2 -> c1 <> c2 ->
  GenerateAddressPattern c1 a <> GenerateAddressPattern c2 a.
Proof.
  intros H1 H2 Hne E. apply Hne.
  unfold GenerateAddressPattern, U32.xor in E.
  apply lxor_cancel_r in E.
  rewrite (Z.lxor_comm a), (Z.lxor_comm a) in E. apply lxor_cancel_r in E.
  exact (odd_multiplier_injective 0x1234567B 0x5C2418B3 c1 c2
           eq_refl H1 H2 E).
Qed.

Lemma address_pattern_separates_cycles_witness :
  U32.in_range 37 /\ U32.in_range 38 /\ 37 <> 38 /\
  GenerateAddressPattern 37 0x20018400 <> GenerateAddressPattern 38 0x20018400.
Proof.
  assert (H1 : U32.in_range 37) by (unfold U32.in_range, U32.modulus; lia).
  assert (H2 : U32.in_range 38) by (unfold U32.in_range, U32.modulus; lia).
  assert (H3 : 37 <> 38) by discriminate.
  split; [exact H1 |]. split; [exact H2 |]. split; [exact H3 |].
  exact (address_pattern_separates_cycles 37 38 0x20018400 H1 H2 H3).
Defined.

(** X7. Within one cycle, two different pair indices give different
    butterfly patterns (the multiplier 0x11111111 is odd), so no two of
    the up to 32 pairs are tested with the same values. *)
Theorem butterfly_pattern_separates_pairs (c i1 i2 : Z) :
  U32.in_range i1 -> U32.in_range i2 -> i1 <> i2 ->
  butterflyPattern1 c i1 <> butterflyPattern1 c i2 /\
  butterflyPattern2 c i1 <> butterflyPattern2 c i2.
Proof.
  intros H1 H2 Hne. split; intros E; apply Hne.
  - unfold butterflyPattern1, U32.xor in E.
    apply lxor_cancel_r in E.
    rewrite (Z.lxor_comm 0xAAAAAAAA), (Z.lxor_comm 0xAAAAAAAA) in E.
    apply lxor_cancel_r in E.
    exact (odd_multiplier_injective 0x11111111 0xFFFFFFF1 i1 i2
             eq_refl H1 H2 E).
  - unfold butterflyPattern2, U32.xor in E.
    apply lxor_cancel_r in E.
    rewrite (Z.lxor_comm 0x55555555), (Z.lxor_comm 0x55555555) in E.
    apply lxor_cancel_r in E.
    exact (odd_multiplier_injective 0x11111111 0xFFFFFFF1 i1 i2
             eq_refl H1 H2 E).
Qed.

Lemma butterfly_pattern_separates_pairs_witness :
  U32.in_range 3 /\ U32.in_range 20 /\ 3 <> 20 /\
  butterflyPattern1 5 3 <> butterflyPattern1 5 20 /\
  butterflyPattern2 5 3 <> butterflyPattern2 5 20.
Proof.
  assert (H1 : U32.in_range 3) by (unfold U32.in_range, U32.modulus; lia).
  assert (H2 : U32.in_range 20) by (unfold U32.in_range, U32.modulus; lia).
  assert (H3 : 3 <> 20) by discriminate.
  split; [exact H1 |]. split; [exact H2 |]. split; [exact H3 |].
  exact (butterfly_pattern_separates_pairs 5 3 20 H1 H2 H3).
Defined.

(** ** The enhanced butterfly test *)

Lemma ideal_memory_sound : soundMemory idealLoad idealStore.
Proof.
  split.
  - intros m a v _. unfold idealLoad, idealStore. now rewrite Z.eqb_refl.
  - intros m a b v Hd. unfold idealLoad, idealStore.
    destruct (Z.eqb_spec b a); [lia | reflexivity].
Qed.

Lemma butterflyPairs_count (startAddr size totalSize c nbp n : Z)
      (pairs : PairArray) :
  0 <= nbp ->
  butterflyPairs startAddr size totalSize c nbp = Some (pairs, n) ->
  n = Z.min 32 (Z.min nbp 32 + 5).
Proof.
  intros Hnbp. unfold butterflyPairs.
  destruct (U32.umod startAddr totalSize); [| discriminate]. cbn [obind].
  destruct (U32.umod (U32.mul c 19) totalSize); [| discriminate].
  cbn [obind].
  destruct (forLoop 32 0 _ _ noPairs); [| discriminate]. cbn [obind].
  destruct (forLoop 5 0 _ _ _); [| discriminate]. cbn [obind].
  intros E. injection E as _ <-.
  set (np := if nbp >? 32 then 32 else nbp).
  assert (Hnp : np = Z.min nbp 32).
  { unfold np. destruct (Z.gtb_spec nbp 32); lia. }
  assert (Hadd : U32.add np 5 = np + 5).
  { apply wrap_small. unfold U32.in_range, U32.modulus. lia. }
  rewrite Hadd. destruct (Z.leb_spec (np + 5) 32); lia.
Qed.

(** X8. The pair table never overflows: whatever numButterflyPairs is,
    the test builds min(numButterflyPairs, 32) + 5 pairs, capped at 32,
    and every slot below that count has been assigned before the test
    loop reads it. *)
Theorem butterfly_pair_table_filled
        (startAddr size totalSize c nbp : Z) :
  0 <= nbp -> 0 <= startAddr -> 0 < size -> 0 < totalSize ->
  startAddr + size <= U32.modulus ->
  exists pairs,
    butterflyPairs startAddr size totalSize c nbp
    = Some (pairs, Z.min 32 (Z.min nbp 32 + 5)) /\
    filledBelow (Z.min 32 (Z.min nbp 32 + 5)) pairs.
Proof.
  intros Hnbp Hstart Hsize Htotal Hfit.
  destruct (butterflyPairs_inside startAddr size totalSize Hstart Hsize
              Htotal Hfit c nbp Hnbp)
    as [pairs [n [Hpairs [Hn [Hin Hfill]]]]].
  pose proof (butterflyPairs_count _ _ _ _ _ _ _ Hnbp Hpairs) as En.
  subst n. now exists pairs.
Qed.

Lemma butterfly_pair_table_filled_witness :
  0 <= 40 /\ 0 <= 0x20018400 /\ 0 < 0x2000 /\ 0 < 0x8000 /\
  0x20018400 + 0x2000 <= U32.modulus /\
  exists pairs,
    butterflyPairs 0x20018400 0x2000 0x8000 7 40
    = Some (pairs, Z.min 32 (Z.min 40 32 + 5)) /\
    filledBelow (Z.min 32 (Z.min 40 32 + 5)) pairs.
Proof.
  assert (H1 : 0 <= 40) by lia.
  assert (H2 : 0 <= 0x20018400) by lia.
  assert (H3 : 0 < 0x2000) by lia.
  assert (H4 : 0 < 0x8000) by lia.
  assert (H5 : 0x20018400 + 0x2000 <= U32.modulus)
    by (unfold U32.modulus; lia).
  repeat (split; [assumption |]).
  exact (butterfly_pair_table_filled 0x20018400 0x2000 0x8000 7 40
           H1 H2 H3 H4 H5).
Defined.

Section ButterflyErrors.

Variable Mem : Type.
Variable load : Mem -> Z -> Z.
Variable store : Mem -> Z -> Z -> Mem.

Lemma errors_write (a v : Z) (s : TestState Mem) :
  errors (write store a v s) = errors s /\
  mem (write store a v s) = store (mem s) a v.
Proof. split; reflexivity. Qed.

Lemma verifyReport_step (a e : Z) (s : TestState Mem) :
  mem (verifyReport load a e s) = mem s /\
  errors (verifyReport load a e s)
  = if load (mem s) a =? e then errors s else U32.add (errors s) 1.
Proof.
  unfold verifyReport. cbn [mem errors log].
  destruct (load (mem s) a =? e); split; reflexivity.
Qed.

Lemma verify_step (a e : Z) (s : TestState Mem) :
  mem (verify load a e s) = mem s /\
  errors (verify load a e s)
  = if load (mem s) a =? e then errors s else U32.add (errors s) 1.
Proof.
  unfold verify. cbn [mem errors log].
  destruct (load (mem s) a =? e); split; reflexivity.
Qed.

Lemma count_up (e d : Z) (b : bool) :
  0 <= d -> 0 <= e <= d -> d + 1 < U32.modulus ->
  0 <= (if b then e else U32.add e 1) <= d + 1.
Proof.
  intros Hd He Hm. destruct b; [lia |].
  unfold U32.add. rewrite wrap_small by (unfold U32.in_range; lia). lia.
Qed.

(* A pair adds at most four errors. *)
Lemma testPairBody_errors (c i d : Z) (pairs : PairArray)
      (s s' : TestState Mem) :
  testPairBody load store c pairs i s = Some s' ->
  0 <= d -> 0 <= errors s <= d -> d + 4 < U32.modulus ->
  0 <= errors s' <= d + 4.
Proof.
  unfold testPairBody. destruct (getPair pairs i) as [p |]; [| discriminate].
  cbn [obind]. intros E. injection E as <-. intros Hd He Hm.
  set (p1 := butterflyPattern1 c i). set (p2 := butterflyPattern2 c i).
  set (s1 := write store (snd p) p2 (write store (fst p) p1 s)).
  assert (H1 : 0 <= errors s1 <= d) by exact He.
  set (s2 := verifyReport load (fst p) p1 s1).
  assert (H2 : 0 <= errors s2 <= d + 1).
  { unfold s2. rewrite (proj2 (verifyReport_step _ _ _)).
    apply count_up; lia. }
  set (s3 := verifyReport load (snd p) p2 s2).
  assert (H3 : 0 <= errors s3 <= d + 1 + 1).
  { unfold s3. rewrite (proj2 (verifyReport_step _ _ _)).
    apply count_up; lia. }
  set (s4 := write store (snd p) p1 (write store (fst p) p2 s3)).
  assert (H4 : 0 <= errors s4 <= d + 1 + 1) by exact H3.
  set (s5 := verify load (fst p) p2 s4).
  assert (H5 : 0 <= errors s5 <= d + 1 + 1 + 1).
  { unfold s5. rewrite (proj2 (verify_step _ _ _)). apply count_up; lia. }
  assert (H6 : 0 <= errors (verify load (snd p) p1 s5)
               <= d + 1 + 1 + 1 + 1).
  { rewrite (proj2 (verify_step _ _ _)). apply count_up; lia. }
  lia.
Qed.

Lemma testPairBody_defined (c i n : Z) (pairs : PairArray)
      (s : TestState Mem) :
  0 <= i < n -> n <= 32 -> filledBelow n pairs ->
  exists s', testPairBody load store c pairs i s = Some s'.
Proof.
  intros Hi Hn Hfill. unfold testPairBody, getPair.
  replace (0 <=? i) with true by (symmetry; apply Z.leb_le; lia).
  replace (i <? 32) with true by (symmetry; apply Z.ltb_lt; lia).
  cbn [andb]. destruct (pairs i) as [p |] eqn:E.
  - cbn [obind]. eexists. reflexivity.
  - exfalso. apply (Hfill i); [lia | exact E].
Qed.

End ButterflyErrors.

(** X9. The enhanced butterfly test returns at most four errors per pair,
    hence at most 128, whatever the memory answers. *)
Theorem butterfly_error_count_bounded
        (Mem : Type) (load : Mem -> Z -> Z) (store : Mem -> Z -> Z -> Mem)
        (nbp c startAddr size totalSize : Z) (m : Mem) :
  0 <= nbp -> 0 <= startAddr -> 0 < size -> 0 < totalSize ->
  startAddr + size <= U32.modulus ->
  exists s',
    RunEnhancedButterflyTest load store nbp c startAddr size totalSize m
    = Some s' /\
    0 <= errors s' <= 4 * Z.min 32 (Z.min nbp 32 + 5) /\
    errors s' <= 128.
Proof.
  intros Hnbp Hstart Hsize Htotal Hfit. unfold RunEnhancedButterflyTest.
  destruct (butterflyPairs_inside startAddr size totalSize Hstart Hsize
              Htotal Hfit c nbp Hnbp)
    as [pairs [n [Hpairs [Hn [Hin Hfill]]]]].
  pose proof (butterflyPairs_count _ _ _ _ _ _ _ Hnbp Hpairs) as En.
  rewrite Hpairs. cbn [obind fst snd].
  destruct (forLoop_invariant
              (fun i s => 0 <= i <= n /\ 0 <= errors s <= 4 * i)
              (fun i => i <? n)
              (testPairBody load store c pairs))
    with (n := 32%nat) (i := 0) (s := mkTestState m [] 0)
    as [k [s' [_ [Hrun [[Hk Hs'] _]]]]].
  - cbn beta. intros i s [Hi Hs] Hc. apply Z.ltb_lt in Hc.
    destruct (testPairBody_defined Mem load store c i n pairs s)
      as [s1 E]; try assumption; try lia.
    exists s1. split; [exact E |]. split; [lia |].
    pose proof (testPairBody_errors Mem load store c i (4 * i) pairs s s1 E
                  ltac:(lia) Hs ltac:(unfold U32.modulus; lia)).
    lia.
  - cbn [errors]. lia.
  - exists (Z.to_nat n). split; [lia |]. apply Z.ltb_ge. lia.
  - exists s'. split; [exact Hrun |]. subst n. cbn [Z.add] in *. lia.
Qed.

Lemma butterfly_error_count_bounded_witness :
  0 <= 16 /\ 0 <= 0x20018400 /\ 0 < 0x2000 /\ 0 < 0x8000 /\
  0x20018400 + 0x2000 <= U32.modulus /\
  exists s',
    RunEnhancedButterflyTest idealLoad idealStore 16 1
                             0x20018400 0x2000 0x8000 (fun _ => 0)
    = Some s' /\
    0 <= errors s' <= 4 * Z.min 32 (Z.min 16 32 + 5) /\
    errors s' <= 128.
Proof.
  assert (H1 : 0 <= 16) by lia.
  assert (H2 : 0 <= 0x20018400) by lia.
  assert (H3 : 0 < 0x2000) by lia.
  assert (H4 : 0 < 0x8000) by lia.
  assert (H5 : 0x20018400 + 0x2000 <= U32.modulus)
    by (unfold U32.modulus; lia).
  repeat (split; [assumption |]).
  exact (butterfly_error_count_bounded
           IdealMem idealLoad idealStore 16 1 0x20018400 0x2000 0x8000
           (fun _ => 0) H1 H2 H3 H4 H5).
Defined.

Lemma butterfly_patterns_differ (c i : Z) :
  butterflyPattern1 c i <> butterflyPattern2 c i.
Proof.
  unfold butterflyPattern1, butterflyPattern2, U32.xor. intros E.
  apply lxor_cancel_r in E. apply lxor_cancel_r in E. discriminate E.
Qed.

(** X10. When the two addresses of a pair coincide, the test counts two
    errors for the pair on a memory that returns what was last stored:
    the second store overwrites the first value before it is verified,
    in both orderings. *)
Theorem butterfly_coinciding_pair_reports_errors
        (Mem : Type) (load : Mem -> Z -> Z) (store : Mem -> Z -> Z -> Mem)
        (c i a : Z) (pairs : PairArray) (s : TestState Mem) :
  (forall m b v, U32.in_range v -> load (store m b v) b = v) ->
  U32.in_range c ->
  getPair pairs i = Some (a, a) ->
  0 <= errors s < U32.modulus - 2 ->
  exists s',
    testPairBody load store c pairs i s = Some s' /\
    errors s' = errors s + 2.
Proof.
  intros Hsame Hc Hget He. unfold testPairBody. rewrite Hget.
  cbn [obind fst snd]. eexists. split; [reflexivity |].
  pose proof (butterfly_patterns_differ c i) as Hne.
  assert (Hp1 : U32.in_range (butterflyPattern1 c i))
    by (rewrite <- (butterflyPattern1_range c i Hc); apply wrap_range).
  assert (Hp2 : U32.in_range (butterflyPattern2 c i))
    by (rewrite <- (butterflyPattern2_range c i Hc); apply wrap_range).
  set (p1 := butterflyPattern1 c i) in *.
  set (p2 := butterflyPattern2 c i) in *.
  assert (E21 : (p2 =? p1) = false) by (apply Z.eqb_neq; congruence).
  assert (E12 : (p1 =? p2) = false) by (apply Z.eqb_neq; congruence).
  rewrite (proj2 (verify_step _ _ _ _ _)), (proj1 (verify_step _ _ _ _ _)).
  rewrite (proj2 (verify_step _ _ _ _ _)).
  rewrite !(proj2 (errors_write _ _ _ _ _)), !Hsame by assumption.
  rewrite !(proj1 (errors_write _ _ _ _ _)).
  rewrite (proj2 (verifyReport_step _ _ _ _ _)),
    (proj1 (verifyReport_step _ _ _ _ _)).
  rewrite (proj2 (verifyReport_step _ _ _ _ _)).
  rewrite !(proj2 (errors_write _ _ _ _ _)), !Hsame by assumption.
  rewrite !(proj1 (errors_write _ _ _ _ _)).
  rewrite E21, E12, !Z.eqb_refl.
  unfold U32.add.
  rewrite (wrap_small (errors s + 1)) by (unfold U32.in_range; lia).
  rewrite wrap_small by (unfold U32.in_range; lia). lia.
Qed.

Lemma butterfly_coinciding_pair_reports_errors_witness :
  (forall (m : IdealMem) b v,
     U32.in_range v -> idealLoad (idealStore m b v) b = v) /\
  U32.in_range 1 /\
  (exists pairs n,
     butterflyPairs 0x20018400 0x2000 0x8000 1 16 = Some (pairs, n) /\
     getPair pairs 0 = Some (0x20018413, 0x20018413) /\
     0 <= errors (mkTestState (fun _ : Z => 0) [] 0) < U32.modulus - 2 /\
     exists s',
       testPairBody idealLoad idealStore 1 pairs 0
                    (mkTestState (fun _ => 0) [] 0) = Some s' /\
       errors s' = errors (mkTestState (fun _ : Z => 0) [] 0) + 2).
Proof.
  assert (H1 : forall (m : IdealMem) b v,
             U32.in_range v -> idealLoad (idealStore m b v) b = v)
    by exact (proj1 ideal_memory_sound).
  assert (Hc : U32.in_range 1) by (unfold U32.in_range, U32.modulus; lia).
  split; [exact H1 |]. split; [exact Hc |].
  destruct (butterflyPairs 0x20018400 0x2000 0x8000 1 16)
    as [[pairs n] |] eqn:E; [| vm_compute in E; discriminate].
  exists pairs, n. split; [reflexivity |].
  assert (H2 : getPair pairs 0 = Some (0x20018413, 0x20018413)).
  { vm_compute in E. injection E as <- _. reflexivity. }
  assert (H3 : 0 <= errors (mkTestState (fun _ : Z => 0) [] 0)
               < U32.modulus - 2)
    by (cbn; unfold U32.modulus; lia).
  split; [exact H2 |]. split; [exact H3 |].
  exact (butterfly_coinciding_pair_reports_errors
           IdealMem idealLoad idealStore 1 0 0x20018413 pairs
           (mkTestState (fun _ => 0) [] 0) H1 Hc H2 H3).
Defined.

(** X11. A pair whose second address does not share storage with the
    first adds no error on a memory that returns what was last stored:
    both the value/complement ordering and the swapped ordering read
    back as written. *)
Theorem butterfly_separate_pair_passes
        (Mem : Type) (load : Mem -> Z -> Z) (store : Mem -> Z -> Z -> Mem)
        (c i a0 a1 : Z) (pairs : PairArray) (s : TestState Mem) :
  (forall m b v, U32.in_range v -> load (store m b v) b = v) ->
  (forall m v, load (store m a1 v) a0 = load m a0) ->
  U32.in_range c ->
  getPair pairs i = Some (a0, a1) ->
  exists s',
    testPairBody load store c pairs i s = Some s' /\
    errors s' = errors s.
Proof.
  intros Hsame Hother Hc Hget. unfold testPairBody. rewrite Hget.
  cbn [obind fst snd]. eexists. split; [reflexivity |].
  assert (Hp1 : U32.in_range (butterflyPattern1 c i))
    by (rewrite <- (butterflyPattern1_range c i Hc); apply wrap_range).
  assert (Hp2 : U32.in_range (butterflyPattern2 c i))
    by (rewrite <- (butterflyPattern2_range c i Hc); apply wrap_range).
  set (p1 := butterflyPattern1 c i) in *.
  set (p2 := butterflyPattern2 c i) in *.
  rewrite (proj2 (verify_step _ _ _ _ _)), (proj1 (verify_step _ _ _ _ _)).
  rewrite (proj2 (verify_step _ _ _ _ _)).
  rewrite !(proj2 (errors_write _ _ _ _ _)).
  rewrite !(proj1 (errors_write _ _ _ _ _)).
  rewrite (Hsame _ a1 p1 Hp1), Hother, (Hsame _ a0 p2 Hp2), !Z.eqb_refl.
  rewrite (proj2 (verifyReport_step _ _ _ _ _)),
    (proj1 (verifyReport_step _ _ _ _ _)).
  rewrite (proj2 (verifyReport_step _ _ _ _ _)).
  rewrite !(proj2 (errors_write _ _ _ _ _)).
  rewrite !(proj1 (errors_write _ _ _ _ _)).
  rewrite (Hsame _ a1 p2 Hp2), Hother, (Hsame _ a0 p1 Hp1), !Z.eqb_refl.
  reflexivity.
Qed.

Lemma butterfly_separate_pair_passes_witness :
  let pairs : PairArray :=
    fun j => if j =? 0 then Some (0x20018410, 0x20018450) else None in
  (forall (m : IdealMem) b v,
     U32.in_range v -> idealLoad (idealStore m b v) b = v) /\
  (forall (m : IdealMem) v,
     idealLoad (idealStore m 0x20018450 v) 0x20018410
     = idealLoad m 0x20018410) /\
  U32.in_range 1 /\
  getPair pairs 0 = Some (0x20018410, 0x20018450) /\
  exists s',
    testPairBody idealLoad idealStore 1 pairs 0
                 (mkTestState (fun _ => 0) [] 0) = Some s' /\
    errors s' = errors (mkTestState (fun _ : Z => 0) [] 0).
Proof.
  intros pairs.
  assert (H1 : forall (m : IdealMem) b v,
             U32.in_range v -> idealLoad (idealStore m b v) b = v)
    by exact (proj1 ideal_memory_sound).
  assert (H2 : forall (m : IdealMem) v,
             idealLoad (idealStore m 0x20018450 v) 0x20018410
             = idealLoad m 0x20018410) by reflexivity.
  assert (Hc : U32.in_range 1) by (unfold U32.in_range, U32.modulus; lia).
  assert (H3 : getPair pairs 0 = Some (0x20018410, 0x20018450))
    by reflexivity.
  split; [exact H1 |]. split; [exact H2 |]. split; [exact Hc |].
  split; [exact H3 |].
  exact (butterfly_separate_pair_passes
           IdealMem idealLoad idealStore 1 0 0x20018410 0x20018450 pairs
           (mkTestState (fun _ => 0) [] 0) H1 H2 Hc H3).
Defined.

Lemma forLoop_body_fails {S : Type} (n : nat) (i : Z) (cond : Z -> bool)
      (body : Z -> S -> option S) (s : S) :
  cond i = true -> body i s = None ->
  forLoop (Datatypes.S n) i cond body s = None.
Proof. intros Hc Hb. cbn [forLoop]. now rewrite Hc, Hb. Qed.

Lemma forLoop_skip {S : Type} (n : nat) (i : Z) (cond : Z -> bool)
      (body : Z -> S -> option S) (s : S) :
  cond i = false -> forLoop n i cond body s = Some s.
Proof. intros Hc. destruct n; cbn [forLoop]; now rewrite Hc. Qed.

Lemma mapIntoWindow_empty (startAddr a : Z) :
  U32.in_range startAddr -> mapIntoWindow startAddr 0 a = None.
Proof.
  intros Hs. unfold mapIntoWindow, U32.add.
  rewrite Z.add_0_r, (wrap_small _ Hs).
  destruct (Z.ltb_spec a startAddr); cbn [orb]; [reflexivity |].
  replace (a >=? startAddr) with true
    by (symmetry; rewrite Z.geb_leb; apply Z.leb_le; lia).
  reflexivity.
Qed.

(** X12. A window size of 0 makes the enhanced butterfly test undefined
    for every bank size and pair count: the first pair it builds lies
    outside the empty window and is remapped with a modulo by zero. *)
Theorem butterfly_empty_window_undefined
        (Mem : Type) (load : Mem -> Z -> Z) (store : Mem -> Z -> Z -> Mem)
        (nbp c startAddr totalSize : Z) (m : Mem) :
  0 <= nbp -> U32.in_range startAddr ->
  RunEnhancedButterflyTest load store nbp c startAddr 0 totalSize m = None.
Proof.
  intros Hnbp Hs. unfold RunEnhancedButterflyTest.
  assert (Hp : butterflyPairs startAddr 0 totalSize c nbp = None);
    [| now rewrite Hp].
  unfold butterflyPairs.
  destruct (U32.umod startAddr totalSize) as [r |] eqn:Er; [| reflexivity].
  cbn [obind].
  assert (Ht : totalSize <> 0).
  { intros ->. unfold U32.umod in Er. discriminate Er. }
  unfold U32.umod at 1.
  destruct (Z.eqb_spec totalSize 0) as [E | _]; [contradiction |].
  cbn [obind].
  set (np := if nbp >? 32 then 32 else nbp).
  assert (Hnp : 0 <= np <= 32).
  { unfold np. destruct (Z.gtb_spec nbp 32); lia. }
  destruct (Z.eq_dec np 0) as [E0 | N0].
  - (* no configured pair: the first power-of-two pair fails *)
    rewrite E0. rewrite forLoop_skip by reflexivity. cbn [obind].
    change 5%nat with (Datatypes.S 4).
    rewrite forLoop_body_fails; [reflexivity | reflexivity |].
    unfold extraPairBody, U32.umod.
    destruct (Z.eqb_spec totalSize 0) as [E | _]; [contradiction |].
    cbn [obind]. now rewrite mapIntoWindow_empty.
  - change 32%nat with (Datatypes.S 31).
    rewrite forLoop_body_fails; [reflexivity | apply Z.ltb_lt; lia |].
    unfold mainPairBody, U32.udiv, U32.umod.
    destruct (Z.eqb_spec np 0) as [E | _]; [contradiction |].
    destruct (Z.eqb_spec totalSize 0) as [E | _]; [contradiction |].
    cbn [obind]. now rewrite mapIntoWindow_empty.
Qed.

Lemma butterfly_empty_window_undefined_witness :
  0 <= 16 /\ U32.in_range 0x20018400 /\
  RunEnhancedButterflyTest idealLoad idealStore 16 1 0x20018400 0 0x8000
                           (fun _ => 0) = None.
Proof.
  assert (H1 : 0 <= 16) by lia.
  assert (H2 : U32.in_range 0x20018400)
    by (unfold U32.in_range, U32.modulus; lia).
  split; [exact H1 |]. split; [exact H2 |].
  exact (butterfly_empty_window_undefined
           IdealMem idealLoad idealStore 16 1 0x20018400 0x8000
           (fun _ => 0) H1 H2).
Defined.

(** ** Range tests *)

Lemma strideLoop_invariant {S : Type} (I : Z -> S -> Prop)
      (stride size : Z) (body : Z -> S -> S) :
  0 < stride -> size + stride <= U32.modulus ->
  (forall o s, 0 <= o < size -> I o s -> I (o + stride) (body o s)) ->
  forall (fuel : nat) (o : Z) (s : S),
    0 <= o -> I o s -> size - o <= Z.of_nat fuel * stride ->
    exists o' s',
      RangeTests.strideLoop fuel o stride size body s = Some s' /\
      size <= o' /\ I o' s'.
Proof.
  intros Hstride Hfit Hbody fuel.
  induction fuel as [| fuel IH]; intros o s Ho Hi Hfuel.
  - cbn [RangeTests.strideLoop].
    destruct (Z.ltb_spec o size); [cbn in Hfuel; lia |].
    exists o, s. auto.
  - cbn [RangeTests.strideLoop].
    destruct (Z.ltb_spec o size) as [Hlt | Hge].
    + assert (Hadd : U32.add o stride = o + stride).
      { apply wrap_small. unfold U32.in_range. lia. }
      rewrite Hadd. apply IH; [lia | apply Hbody; [lia | exact Hi] |].
      rewrite Nat2Z.inj_succ, Z.mul_succ_l in Hfuel. lia.
    + exists o, s. auto.
Qed.

Lemma visited_next (stride size o k : Z) :
  0 < stride -> (stride | o) -> (stride | k) -> k < o + stride ->
  k = o \/ k + stride <= o.
Proof.
  intros Hs [q Hq] [r Hr] Hlt. subst o k.
  destruct (Z.eq_dec r q) as [-> | Hne]; [now left | right].
  assert (r < q + 1) by nia. nia.
Qed.

Lemma window_address (startAddr size o : Z) :
  0 <= startAddr -> startAddr + size <= U32.modulus -> 0 <= o < size ->
  U32.add startAddr o = startAddr + o.
Proof.
  intros Hs Hfit Ho. apply wrap_small. unfold U32.in_range. lia.
Qed.

Section RangeFacts.

Variable Mem : Type.
Variable load : Mem -> Z -> Z.
Variable store : Mem -> Z -> Z -> Mem.
Variables stride startAddr size : Z.
Hypothesis Hstride : 4 <= stride.
Hypothesis Hstart : 0 <= startAddr.
Hypothesis Hfit : startAddr + size <= U32.modulus.
Hypothesis Hloop : size + stride <= U32.modulus.

(* The write loop changes no error count, whatever the memory does. *)
Lemma writePhase_errors (fuel : nat) (valueAt : Z -> Z)
      (s : RangeTests.RunState Mem) :
  size <= Z.of_nat fuel * stride ->
  exists s',
    RangeTests.writePhase store fuel stride startAddr size valueAt s
    = Some s' /\
    RangeTests.errors s' = RangeTests.errors s.
Proof.
  intros Hfuel. unfold RangeTests.writePhase.
  destruct (strideLoop_invariant
              (fun _ s' => RangeTests.errors s' = RangeTests.errors s)
              stride size
              (fun offset s0 =>
                 RangeTests.poke store (U32.add startAddr offset)
                                 (valueAt (U32.add startAddr offset)) s0))
    with (fuel := fuel) (o := 0) (s := s) as [o' [s' [E [_ He]]]];
    try lia; try reflexivity.
  - intros o s0 _ H. exact H.
  - now exists s'.
Qed.

(* On a sound memory, after the write loop every visited address holds
   its value. *)
Lemma writePhase_stores (fuel : nat) (valueAt : Z -> Z)
      (s : RangeTests.RunState Mem) :
  soundMemory load store ->
  (forall k, visited stride size k ->
             U32.in_range (valueAt (startAddr + k))) ->
  size <= Z.of_nat fuel * stride ->
  exists s',
    RangeTests.writePhase store fuel stride startAddr size valueAt s
    = Some s' /\
    RangeTests.errors s' = RangeTests.errors s /\
    forall k, visited stride size k ->
              load (RangeTests.mem s') (startAddr + k)
              = valueAt (startAddr + k).
Proof.
  intros [Hsame Hother] Hval Hfuel. unfold RangeTests.writePhase.
  destruct (strideLoop_invariant
              (fun o s' =>
                 (stride | o) /\
                 RangeTests.errors s' = RangeTests.errors s /\
                 forall k, visited stride size k -> k < o ->
                           load (RangeTests.mem s') (startAddr + k)
                           = valueAt (startAddr + k))
              stride size
              (fun offset s0 =>
                 RangeTests.poke store (U32.add startAddr offset)
                                 (valueAt (U32.add startAddr offset)) s0))
    with (fuel := fuel) (o := 0) (s := s)
    as [o' [s' [E [Ho' [_ [He Hmem]]]]]]; try lia.
  - intros o s0 Ho [Hdiv [He Hmem]].
    rewrite (window_address startAddr size o Hstart Hfit Ho).
    split; [now apply Z.divide_add_r; [| apply Z.divide_refl] |].
    split; [exact He |].
    intros k [Hk Hkd] Hlt. cbn [RangeTests.poke RangeTests.mem].
    destruct (visited_next stride size o k ltac:(lia) Hdiv Hkd Hlt)
      as [-> | Hfar].
    + apply Hsame, Hval. now split.
    + rewrite Hother by lia. apply Hmem; [now split | lia].
  - split; [apply Z.divide_0_r |]. split; [reflexivity |].
    intros k [Hk _] Hlt. lia.
  - exists s'. split; [exact E |]. split; [exact He |].
    intros k Hk. apply Hmem; [exact Hk | destruct Hk; lia].
Qed.

(* The read loop leaves the memory alone; when every visited address
   holds its value it counts no error. *)
Lemma readPhase_clean (fuel : nat) (kind : RangeTests.LineKind)
      (valueAt : Z -> Z) (s : RangeTests.RunState Mem) :
  (forall k, visited stride size k ->
             load (RangeTests.mem s) (startAddr + k)
             = valueAt (startAddr + k)) ->
  size <= Z.of_nat fuel * stride ->
  exists s',
    RangeTests.readPhase load fuel stride startAddr size kind valueAt s
    = Some s' /\
    RangeTests.errors s' = RangeTests.errors s /\
    RangeTests.mem s' = RangeTests.mem s.
Proof.
  intros Hmem Hfuel. unfold RangeTests.readPhase.
  destruct (strideLoop_invariant
              (fun o s' =>
                 (stride | o) /\
                 RangeTests.errors s' = RangeTests.errors s /\
                 RangeTests.mem s' = RangeTests.mem s)
              stride size
              (fun offset s0 =>
                 RangeTests.check load kind (U32.add startAddr offset)
                                  (valueAt (U32.add startAddr offset)) s0))
    with (fuel := fuel) (o := 0) (s := s)
    as [o' [s' [E [_ [_ [He Hm]]]]]]; try lia.
  - intros o s0 Ho [Hdiv [He Hm]].
    rewrite (window_address startAddr size o Hstart Hfit Ho).
    split; [now apply Z.divide_add_r; [| apply Z.divide_refl] |].
    unfold RangeTests.check. rewrite Hm, (Hmem o) by now split.
    rewrite Z.eqb_refl. cbn [negb RangeTests.errors RangeTests.mem]. auto.
  - split; [apply Z.divide_0_r |]. split; reflexivity.
  - now exists s'.
Qed.

End RangeFacts.

Lemma lxor_in_range (a b : Z) :
  U32.in_range a -> U32.in_range b -> U32.in_range (Z.lxor a b).
Proof.
  intros Ha Hb.
  rewrite <- (wrap_small a Ha), <- (wrap_small b Hb), <- wrap_lxor.
  apply wrap_range.
Qed.

Lemma GenerateAddressPattern_in_range (c a : Z) :
  U32.in_range a -> U32.in_range (GenerateAddressPattern c a).
Proof.
  intros Ha. unfold GenerateAddressPattern, U32.xor, U32.mul.
  apply lxor_in_range; [apply lxor_in_range; [exact Ha | apply wrap_range] |].
  unfold U32.in_range, U32.modulus. lia.
Qed.

(** X13. On a memory that returns what was last stored, the checkerboard
    test of a window inside the address space returns 0 errors, counts
    one more data test and one more success, and leaves the complement of
    the pattern in every word it visited. *)
Theorem checkerboard_passes_on_sound_memory
        (Mem : Type) (load : Mem -> Z -> Z) (store : Mem -> Z -> Z -> Mem)
        (fuel : nat) (startAddr size pattern : Z)
        (status : RangeTests.MemoryTestStatus) (m : Mem) :
  soundMemory load store ->
  U32.in_range pattern ->
  0 <= startAddr -> startAddr + size <= U32.modulus ->
  size + 4 <= U32.modulus ->
  size <= Z.of_nat fuel * 4 ->
  exists s',
    RangeTests.RunCheckerboardTest load store fuel startAddr size pattern
                                   status m
    = Some (s', RangeTests.set_dataTest
                  status
                  (U32.add (RangeTests.dataTestSuccess status) 1)
                  (U32.add (RangeTests.dataTestTotal status) 1)) /\
    RangeTests.errors s' = 0 /\
    forall k, visited 4 size k ->
              load (RangeTests.mem s') (startAddr + k) = U32.not pattern.
Proof.
  intros Hsound Hpat Hstart Hfit Hloop Hfuel.
  unfold RangeTests.RunCheckerboardTest.
  destruct (writePhase_stores Mem load store 4 startAddr size
              ltac:(lia) Hstart Hfit Hloop fuel (fun _ => pattern)
              (RangeTests.mkRunState m [] 0) Hsound (fun _ _ => Hpat) Hfuel)
    as [s1 [E1 [He1 Hm1]]].
  rewrite E1. cbn [obind].
  destruct (readPhase_clean Mem load 4 startAddr size ltac:(lia) Hstart
              Hfit Hloop fuel RangeTests.CheckerboardError (fun _ => pattern) s1
              Hm1 Hfuel) as [s2 [E2 [He2 Hm2]]].
  rewrite E2. cbn [obind].
  destruct (writePhase_stores Mem load store 4 startAddr size
              ltac:(lia) Hstart Hfit Hloop fuel (fun _ => U32.not pattern)
              s2 Hsound (fun _ _ => wrap_range _) Hfuel)
    as [s3 [E3 [He3 Hm3]]].
  rewrite E3. cbn [obind].
  destruct (readPhase_clean Mem load 4 startAddr size ltac:(lia) Hstart
              Hfit Hloop fuel RangeTests.CheckerboardInvError
              (fun _ => U32.not pattern) s3 Hm3 Hfuel)
    as [s4 [E4 [He4 Hm4]]].
  rewrite E4. cbn [obind].
  assert (He : RangeTests.errors s4 = 0)
    by (rewrite He4, He3, He2, He1; reflexivity).
  rewrite He. cbn [Z.eqb].
  exists s4. split; [reflexivity |]. split; [exact He |].
  intros k Hk. rewrite Hm4. now apply Hm3.
Qed.


Lemma checkerboard_passes_on_sound_memory_witness :
  soundMemory idealLoad idealStore /\
  U32.in_range 0xAA55AA55 /\
  0 <= 0x20018400 /\ 0x20018400 + 0x40 <= U32.modulus /\
  0x40 + 4 <= U32.modulus /\ 0x40 <= Z.of_nat 16 * 4 /\
  exists s',
    RangeTests.RunCheckerboardTest idealLoad idealStore 16 0x20018400 0x40
                                   0xAA55AA55 RangeTests.emptyStatus
                                   (fun _ => 0)
    = Some (s', RangeTests.set_dataTest
                  RangeTests.emptyStatus
                  (U32.add (RangeTests.dataTestSuccess
                              RangeTests.emptyStatus) 1)
                  (U32.add (RangeTests.dataTestTotal
                              RangeTests.emptyStatus) 1)) /\
    RangeTests.errors s' = 0 /\
    forall k, visited 4 0x40 k ->
              idealLoad (RangeTests.mem s') (0x20018400 + k)
              = U32.not 0xAA55AA55.
Proof.
  assert (H1 : U32.in_range 0xAA55AA55)
    by (unfold U32.in_range, U32.modulus; lia).
  assert (H2 : 0 <= 0x20018400) by lia.
  assert (H3 : 0x20018400 + 0x40 <= U32.modulus)
    by (unfold U32.modulus; lia).
  assert (H4 : 0x40 + 4 <= U32.modulus) by (unfold U32.modulus; lia).
  assert (H5 : 0x40 <= Z.of_nat 16 * 4) by (cbn; lia).
  split; [exact ideal_memory_sound |].
  repeat (split; [assumption |]).
  exact (checkerboard_passes_on_sound_memory
           IdealMem idealLoad idealStore 16 0x20018400 0x40 0xAA55AA55
           RangeTests.emptyStatus (fun _ => 0)
           ideal_memory_sound H1 H2 H3 H4 H5).
Defined.

(** X14. On a memory that returns what was last stored, the address test
    of address_tests.c returns 0 errors for every stride of at least four
    bytes, and leaves GenerateAddressPattern of its address in every
    word it visited. *)
Theorem address_test_passes_on_sound_memory
        (Mem : Type) (load : Mem -> Z -> Z) (store : Mem -> Z -> Z -> Mem)
        (fuel : nat) (stride c startAddr size totalSize : Z) (m : Mem) :
  soundMemory load store ->
  4 <= stride ->
  0 <= startAddr -> startAddr + size <= U32.modulus ->
  size + stride <= U32.modulus ->
  size <= Z.of_nat fuel * stride ->
  exists s',
    RangeTests.RunImprovedAddressTest load store fuel stride c
                                      startAddr size totalSize m
    = Some s' /\
    RangeTests.errors s' = 0 /\
    forall k, visited stride size k ->
              load (RangeTests.mem s') (startAddr + k)
              = GenerateAddressPattern c (startAddr + k).
Proof.
  intros Hsound Hstride Hstart Hfit Hloop Hfuel.
  unfold RangeTests.RunImprovedAddressTest.
  assert (Hval : forall k, visited stride size k ->
                    U32.in_range (GenerateAddressPattern c (startAddr + k))).
  { intros k [Hk _]. apply GenerateAddressPattern_in_range.
    unfold U32.in_range. lia. }
  destruct (writePhase_stores Mem load store stride startAddr size
              Hstride Hstart Hfit Hloop fuel (GenerateAddressPattern c)
              (RangeTests.mkRunState m [] 0) Hsound Hval Hfuel)
    as [s1 [E1 [He1 Hm1]]].
  rewrite E1. cbn [obind].
  destruct (readPhase_clean Mem load stride startAddr size Hstride Hstart
              Hfit Hloop fuel RangeTests.AddressTestError
              (GenerateAddressPattern c) s1 Hm1 Hfuel)
    as [s2 [E2 [He2 Hm2]]].
  exists s2. split; [exact E2 |].
  split; [rewrite He2, He1; reflexivity |].
  intros k Hk. rewrite Hm2. now apply Hm1.
Qed.

Lemma address_test_passes_on_sound_memory_witness :
  soundMemory idealLoad idealStore /\
  4 <= 256 /\ 0 <= 0x20002000 /\ 0x20002000 + 0x4000 <= U32.modulus /\
  0x4000 + 256 <= U32.modulus /\ 0x4000 <= Z.of_nat 64 * 256 /\
  exists s',
    RangeTests.RunImprovedAddressTest idealLoad idealStore 64 256 1
                                      0x20002000 0x4000 0x18000 (fun _ => 0)
    = Some s' /\
    RangeTests.errors s' = 0 /\
    forall k, visited 256 0x4000 k ->
              idealLoad (RangeTests.mem s') (0x20002000 + k)
              = GenerateAddressPattern 1 (0x20002000 + k).
Proof.
  assert (H1 : 4 <= 256) by lia.
  assert (H2 : 0 <= 0x20002000) by lia.
  assert (H3 : 0x20002000 + 0x4000 <= U32.modulus)
    by (unfold U32.modulus; lia).
  assert (H4 : 0x4000 + 256 <= U32.modulus) by (unfold U32.modulus; lia).
  assert (H5 : 0x4000 <= Z.of_nat 64 * 256) by (cbn; lia).
  split; [exact ideal_memory_sound |].
  repeat (split; [assumption |]).
  exact (address_test_passes_on_sound_memory
           IdealMem idealLoad idealStore 64 256 1 0x20002000 0x4000 0x18000
           (fun _ => 0) ideal_memory_sound H1 H2 H3 H4 H5).
Defined.

Lemma strideLoop_zero_stride {S : Type} (size : Z) (body : Z -> S -> S) :
  0 < size ->
  forall (fuel : nat) (s : S),
    RangeTests.strideLoop fuel 0 0 size body s = None.
Proof.
  intros Hsize fuel. induction fuel as [| fuel IH]; intros s;
    cbn [RangeTests.strideLoop];
    (destruct (Z.ltb_spec 0 size); [| lia]); [reflexivity |].
  change (U32.add 0 0) with 0. apply IH.
Qed.

(** X15. With an address test stride of 0 and a non-empty window the
    address test of address_tests.c never leaves its write loop: no
    number of iterations is enough for it to return. *)
Theorem address_test_zero_stride_never_returns
        (Mem : Type) (load : Mem -> Z -> Z) (store : Mem -> Z -> Z -> Mem)
        (fuel : nat) (c startAddr size totalSize : Z) (m : Mem) :
  0 < size ->
  RangeTests.RunImprovedAddressTest load store fuel 0 c
                                    startAddr size totalSize m = None.
Proof.
  intros Hsize.
  unfold RangeTests.RunImprovedAddressTest, RangeTests.writePhase.
  now rewrite strideLoop_zero_stride.
Qed.

Lemma address_test_zero_stride_never_returns_witness :
  0 < 0x4000 /\
  RangeTests.RunImprovedAddressTest idealLoad idealStore 1000 0 1
                                    0x20002000 0x4000 0x18000 (fun _ => 0)
  = None.
Proof.
  assert (H : 0 < 0x4000) by lia.
  split; [exact H |].
  exact (address_test_zero_stride_never_returns
           IdealMem idealLoad idealStore 1000 1 0x20002000 0x4000 0x18000
           (fun _ => 0) H).
Defined.

Lemma not_testbit (x b : Z) :
  0 <= b < 32 -> Z.testbit (U32.not x) b = negb (Z.testbit x b).
Proof.
  intros Hb. unfold U32.not. rewrite wrap_testbit, Z.lnot_spec by lia.
  replace (b <? 32) with true by (symmetry; apply Z.ltb_lt; lia).
  reflexivity.
Qed.

Section ReadCounts.

Variable Mem : Type.
Variable load : Mem -> Z -> Z.
Variables startAddr size : Z.
Hypothesis Hstart : 0 <= startAddr.
Hypothesis Hsize : 0 <= size.
Hypothesis Hfit : startAddr + size <= U32.modulus.
Hypothesis Hloop : size + 4 <= U32.modulus.

(* A read loop of the checkerboard test never lowers the error count,
   adds at most one error per word, and adds at least one when a visited
   word cannot read as the expected value. *)
Lemma readPhase_counts (fuel : nat) (kind : RangeTests.LineKind)
      (expected k : Z) (s : RangeTests.RunState Mem) :
  0 <= RangeTests.errors s <= 2 ^ 30 ->
  size <= Z.of_nat fuel * 4 ->
  visited 4 size k ->
  exists s',
    RangeTests.readPhase load fuel 4 startAddr size kind
                         (fun _ => expected) s = Some s' /\
    RangeTests.errors s <= RangeTests.errors s'
    <= RangeTests.errors s + 2 ^ 30 /\
    ((forall m, load m (startAddr + k) <> expected) ->
     RangeTests.errors s + 1 <= RangeTests.errors s').
Proof.
  intros He Hfuel [Hk Hkd]. unfold RangeTests.readPhase.
  set (e0 := RangeTests.errors s) in *.
  destruct (strideLoop_invariant
              (fun o s' =>
                 (4 | o) /\ o < size + 4 /\
                 e0 <= RangeTests.errors s' /\
                 4 * (RangeTests.errors s' - e0) <= o /\
                 ((forall m, load m (startAddr + k) <> expected) ->
                  k < o -> e0 + 1 <= RangeTests.errors s'))
              4 size
              (fun offset s0 =>
                 RangeTests.check load kind (U32.add startAddr offset)
                                  expected s0))
    with (fuel := fuel) (o := 0) (s := s)
    as [o' [s' [E [Ho' [_ [Hlt [Hlo [Hhi Hbad]]]]]]]]; try lia.
  - intros o s0 Ho [Hdiv [_ [Hlo [Hhi Hbad]]]].
    rewrite (window_address startAddr size o Hstart Hfit Ho).
    split; [now apply Z.divide_add_r; [| apply Z.divide_refl] |].
    split; [lia |].
    unfold RangeTests.check.
    destruct (Z.eqb_spec (load (RangeTests.mem s0) (startAddr + o))
                         expected) as [Eq | Ne];
      cbn [negb RangeTests.errors].
    + split; [exact Hlo |]. split; [lia |].
      intros Hstuck Hko.
      destruct (visited_next 4 size o k ltac:(lia) Hdiv Hkd Hko)
        as [-> | Hfar]; [exfalso; exact (Hstuck _ Eq) |].
      apply Hbad; [exact Hstuck | lia].
    + assert (Hadd : U32.add (RangeTests.errors s0) 1
                     = RangeTests.errors s0 + 1).
      { apply wrap_small. unfold U32.in_range, U32.modulus in *. lia. }
      rewrite Hadd. split; [lia |]. split; [lia |]. intros _ _. lia.
  - split; [apply Z.divide_0_r |]. split; [lia |]. split; [lia |].
    split; [lia |]. intros _ Hneg. lia.
  - exists s'. split; [exact E |].
    unfold U32.modulus in *. split; [lia |].
    intros Hstuck. apply Hbad; [exact Hstuck | lia].
Qed.

End ReadCounts.

(** X16. The checkerboard test detects every stuck bit in a word it
    visits: if bit b of the word at a visited address always reads as the
    same value, then, whatever the rest of the memory does, the test
    returns at least one error and does not count a success, because it
    verifies both the pattern and its complement. *)
Theorem checkerboard_detects_stuck_bit
        (Mem : Type) (load : Mem -> Z -> Z) (store : Mem -> Z -> Z -> Mem)
        (fuel : nat) (startAddr size pattern k b : Z) (stuck : bool)
        (status : RangeTests.MemoryTestStatus) (m : Mem) :
  0 <= startAddr -> startAddr + size <= U32.modulus ->
  size + 4 <= U32.modulus ->
  size <= Z.of_nat fuel * 4 ->
  visited 4 size k -> 0 <= b < 32 ->
  (forall m', Z.testbit (load m' (startAddr + k)) b = stuck) ->
  exists s' status',
    RangeTests.RunCheckerboardTest load store fuel startAddr size pattern
                                   status m = Some (s', status') /\
    1 <= RangeTests.errors s' /\
    RangeTests.dataTestSuccess status' = RangeTests.dataTestSuccess status /\
    RangeTests.dataTestTotal status'
    = U32.add (RangeTests.dataTestTotal status) 1.
Proof.
  intros Hstart Hfit Hloop Hfuel Hk Hb Hstuck.
  assert (Hsize : 0 <= size) by (destruct Hk as [Hk _]; lia).
  unfold RangeTests.RunCheckerboardTest.
  destruct (writePhase_errors Mem store 4 startAddr size ltac:(lia) Hloop
              fuel (fun _ => pattern) (RangeTests.mkRunState m [] 0) Hfuel)
    as [s1 [E1 He1]].
  rewrite E1. cbn [obind]. cbn [RangeTests.errors] in He1.
  destruct (readPhase_counts Mem load startAddr size Hstart Hsize Hfit
              Hloop fuel RangeTests.CheckerboardError pattern k s1
              ltac:(lia) Hfuel Hk) as [s2 [E2 [Hr2 Hbad2]]].
  rewrite E2. cbn [obind].
  destruct (writePhase_errors Mem store 4 startAddr size ltac:(lia) Hloop
              fuel (fun _ => U32.not pattern) s2 Hfuel) as [s3 [E3 He3]].
  rewrite E3. cbn [obind].
  destruct (readPhase_counts Mem load startAddr size Hstart Hsize Hfit
              Hloop fuel RangeTests.CheckerboardInvError (U32.not pattern)
              k s3 ltac:(lia) Hfuel Hk) as [s4 [E4 [Hr4 Hbad4]]].
  rewrite E4. cbn [obind].
  assert (Herr : 1 <= RangeTests.errors s4).
  { destruct (Bool.bool_dec (Z.testbit pattern b) stuck) as [Eq | Ne].
    - (* the complement disagrees with the stuck bit *)
      assert (H : forall m', load m' (startAddr + k) <> U32.not pattern).
      { intros m' E. pose proof (Hstuck m') as Hs.
        rewrite E, not_testbit, Eq in Hs by exact Hb.
        now destruct stuck. }
      specialize (Hbad4 H). lia.
    - assert (H : forall m', load m' (startAddr + k) <> pattern).
      { intros m' E. pose proof (Hstuck m') as Hs.
        rewrite E in Hs. contradiction. }
      specialize (Hbad2 H). lia. }
  destruct (Z.eqb_spec (RangeTests.errors s4) 0) as [E0 | _]; [lia |].
  eexists; eexists. split; [reflexivity |]. split; [exact Herr |].
  split; reflexivity.
Qed.

Lemma checkerboard_detects_stuck_bit_witness :
  let stuckLoad : IdealMem -> Z -> Z :=
    fun m a => if a =? 0x20018408 then 2 * (m a / 2) else m a in
  0 <= 0x20018400 /\ 0x20018400 + 0x40 <= U32.modulus /\
  0x40 + 4 <= U32.modulus /\ 0x40 <= Z.of_nat 16 * 4 /\
  visited 4 0x40 8 /\ 0 <= 0 < 32 /\
  (forall m', Z.testbit (stuckLoad m' (0x20018400 + 8)) 0 = false) /\
  exists s' status',
    RangeTests.RunCheckerboardTest stuckLoad idealStore 16 0x20018400 0x40
                                   0xAA55AA55 RangeTests.emptyStatus
                                   (fun _ => 0) = Some (s', status') /\
    1 <= RangeTests.errors s' /\
    RangeTests.dataTestSuccess status'
    = RangeTests.dataTestSuccess RangeTests.emptyStatus /\
    RangeTests.dataTestTotal status'
    = U32.add (RangeTests.dataTestTotal RangeTests.emptyStatus) 1.
Proof.
  intros stuckLoad.
  assert (H1 : 0 <= 0x20018400) by lia.
  assert (H2 : 0x20018400 + 0x40 <= U32.modulus)
    by (unfold U32.modulus; lia).
  assert (H3 : 0x40 + 4 <= U32.modulus) by (unfold U32.modulus; lia).
  assert (H4 : 0x40 <= Z.of_nat 16 * 4) by (cbn; lia).
  assert (H5 : visited 4 0x40 8).
  { split; [lia |]. exists 2. reflexivity. }
  assert (H6 : 0 <= 0 < 32) by lia.
  assert (H7 : forall m', Z.testbit (stuckLoad m' (0x20018400 + 8)) 0
                          = false).
  { intros m'. unfold stuckLoad. cbn [Z.add Pos.add Pos.succ Z.eqb Pos.eqb].
    apply Z.testbit_even_0. }
  repeat (split; [assumption |]).
  exact (checkerboard_detects_stuck_bit
           IdealMem stuckLoad idealStore 16 0x20018400 0x40 0xAA55AA55 8 0
           false RangeTests.emptyStatus (fun _ => 0)
           H1 H2 H3 H4 H5 H6 H7).
Defined.

(** ** The persistent store over a session *)

Lemma CheckForReset_resetCount (iw pin cause : Z) (s : Persist) :
  resetCount (CheckForReset iw pin cause s)
  = if negb (U32.and cause iw =? 0)
    then U32.add (resetCount s) 1 else resetCount s.
Proof.
  unfold CheckForReset.
  destruct (negb (U32.and cause iw =? 0)).
  - unfold resetCount. cbn [bkp transmit bkpWrite].
    apply bkup_read_write_same.
  - destruct (negb (U32.and cause pin =? 0)); [| reflexivity].
    unfold resetCount. cbn [bkp transmit bkpWrite].
    now rewrite !bkup_read_write_other by (cbv; discriminate).
Qed.

Lemma transmit_regs (msg : UartMsg) (s : Persist) :
  bkp (transmit msg s) = bkp s.
Proof. reflexivity. Qed.

Lemma faultHandler_regs (c err : Z) (s : Persist) :
  let s' := faultHandler c err s in
  operationTag s' = operationTag s /\ lastCycle s' = c /\
  errorCode s' = err /\ resetCount s' = resetCount s.
Proof.
  cbn zeta. unfold faultHandler.
  destruct (SaveTestState_regs c (HAL_RTCEx_BKUPRead (bkp s) RTC_BKP_DR0)
              err s) as [A [B [C D]]].
  unfold operationTag, lastCycle, errorCode, resetCount in *.
  rewrite !transmit_regs. auto.
Qed.

Lemma step_resetCount (iw pin : Z) (st : Session.Step) (s : Persist) :
  resetCount (Session.step iw pin st s)
  = if Session.isWatchdogBoot iw st
    then U32.add (resetCount s) 1 else resetCount s.
Proof.
  destruct st as [cause | c op err | c operation | c err];
    cbn [Session.step Session.isWatchdogBoot].
  - apply CheckForReset_resetCount.
  - apply SaveTestState_regs.
  - apply SaveTestState_regs.
  - apply faultHandler_regs.
Qed.

(** X17. Over any session of boots, state saves, operation updates and
    fault traps, the persisted reset counter ends as its initial value
    plus the number of boots that found the watchdog flag set (modulo
    2^32): nothing else writes it and nothing clears it. *)
Theorem reset_counter_counts_watchdog_boots
        (iw pin : Z) (steps : list Session.Step) (s : Persist) :
  U32.in_range (resetCount s) ->
  resetCount (Session.run iw pin steps s)
  = U32.wrap (resetCount s
              + Z.of_nat (List.length
                            (filter (Session.isWatchdogBoot iw) steps))).
Proof.
  revert s. induction steps as [| st steps IH]; intros s Hr.
  - cbn. rewrite Z.add_0_r. symmetry. now apply wrap_small.
  - unfold Session.run. cbn [fold_left filter].
    fold (Session.run iw pin steps (Session.step iw pin st s)).
    pose proof (step_resetCount iw pin st s) as Hs.
    destruct (Session.isWatchdogBoot iw st).
    + rewrite IH by (rewrite Hs; apply wrap_range).
      rewrite Hs. cbn [List.length]. unfold U32.add, U32.wrap.
      rewrite Zplus_mod_idemp_l. f_equal. lia.
    + rewrite IH by (rewrite Hs; exact Hr). now rewrite Hs.
Qed.

Lemma reset_counter_counts_watchdog_boots_witness :
  let s := mkPersist (regsOf 0x41 37 0x06 2) [] in
  let steps := [Session.Boot 0x24000000;
                Session.Operation 1 "SRAM1 Address Test";
                Session.Fault 1 ERROR_HARDFAULT;
                Session.Boot 0x24000000;
                Session.Boot 0x0C000000] in
  U32.in_range (resetCount s) /\
  resetCount (Session.run 0x20000000 0x04000000 steps s)
  = U32.wrap (resetCount s
              + Z.of_nat (List.length
                            (filter (Session.isWatchdogBoot 0x20000000)
                                    steps))).
Proof.
  intros s steps.
  assert (H : U32.in_range (resetCount s))
    by (cbn; unfold U32.in_range, U32.modulus; lia).
  split; [exact H |].
  exact (reset_counter_counts_watchdog_boots 0x20000000 0x04000000 steps s H).
Defined.

(** X18. A fault trap followed by a watchdog reset is diagnosed at boot:
    if a test operation was announced, a fault handler ran with a
    non-zero error code and the next boot finds the watchdog flag, then
    the boot report carries the incremented reset count, the cycle of the
    fault, the tag of the announced operation and the fault's error
    code. *)
Theorem fault_is_reported_after_watchdog_reset
        (iw pin cause c c' err : Z) (operation : string) (s : Persist) :
  U32.and cause iw <> 0 -> err <> 0 ->
  let tag := operationCodeOf 4 operation 0 in
  let s' := Session.run iw pin [Session.Operation c operation;
                                Session.Fault c' err;
                                Session.Boot cause] s in
  uart s' = uart s ++ [ErrorReport err tag c'; FaultReport err;
                       WatchdogResetReport (U32.add (resetCount s) 1)
                                           c' tag err] /\
  operationTag s' = tag /\ lastCycle s' = c' /\ errorCode s' = err /\
  resetCount s' = U32.add (resetCount s) 1.
Proof.
  intros Hwd Herr tag s'. subst s'.
  unfold Session.run. cbn [fold_left Session.step]. fold tag.
  pose (s1 := SaveTestState c tag 0 s).
  pose (s2 := faultHandler c' err s1).
  change (CheckForReset iw pin cause (faultHandler c' err
                                        (SaveTestState c tag 0 s)))
    with (CheckForReset iw pin cause s2).
  pose proof (SaveTestState_regs c tag 0 s) as [A1 [_ [_ D1]]].
  change (SaveTestState c tag 0 s) with s1 in A1, D1.
  assert (U1 : uart s1 = uart s) by reflexivity.
  pose proof (faultHandler_regs c' err s1) as [A2 [B2 [C2 D2]]].
  change (faultHandler c' err s1) with s2 in A2, B2, C2, D2.
  assert (U2 : uart s2 = uart s1 ++ [ErrorReport err (operationTag s1) c';
                                     FaultReport err]).
  { unfold s2, faultHandler, SaveTestState.
    destruct (Z.eqb_spec err ERROR_NONE) as [E | _];
      [unfold ERROR_NONE in E; contradiction |].
    cbn [negb uart transmit bkpWrite]. now rewrite <- app_assoc. }
  clearbody s1 s2.
  unfold CheckForReset.
  destruct (Z.eqb_spec (U32.and cause iw) 0) as [E | _]; [contradiction |].
  cbn [negb].
  unfold resetCount, operationTag, lastCycle, errorCode in *.
  cbn [bkp uart transmit bkpWrite].
  rewrite bkup_read_write_same.
  rewrite !bkup_read_write_other by (cbv; discriminate).
  rewrite U2, U1, A2, B2, C2, D2, A1, D1, <- app_assoc.
  repeat split.
Qed.

Lemma fault_is_reported_after_watchdog_reset_witness :
  let s := mkPersist (regsOf 0 0 0 2) [] in
  U32.and 0x24000000 0x20000000 <> 0 /\ ERROR_BUSFAULT <> 0 /\
  let tag := operationCodeOf 4 "Flash Cache Test" 0 in
  let s' := Session.run 0x20000000 0x04000000
              [Session.Operation 37 "Flash Cache Test";
               Session.Fault 37 ERROR_BUSFAULT;
               Session.Boot 0x24000000] s in
  uart s' = uart s ++ [ErrorReport ERROR_BUSFAULT tag 37;
                       FaultReport ERROR_BUSFAULT;
                       WatchdogResetReport (U32.add (resetCount s) 1)
                                           37 tag ERROR_BUSFAULT] /\
  operationTag s' = tag /\ lastCycle s' = 37 /\
  errorCode s' = ERROR_BUSFAULT /\
  resetCount s' = U32.add (resetCount s) 1.
Proof.
  intros s.
  assert (H1 : U32.and 0x24000000 0x20000000 <> 0) by (cbv; discriminate).
  assert (H2 : ERROR_BUSFAULT <> 0) by (cbv; discriminate).
  split; [exact H1 |]. split; [exact H2 |].
  exact (fault_is_reported_after_watchdog_reset
           0x20000000 0x04000000 0x24000000 37 37 ERROR_BUSFAULT
           "Flash Cache Test" s H1 H2).
Defined.

(** X19. The operation tag stored by UpdateTestOperation depends on the
    first four characters of the operation string only, so operations
    that share them (all SRAM1 and SRAM2 tests, for instance) persist the
    same tag. *)
Theorem operation_tag_ignores_tail (prefix tail1 tail2 : string) :
  String.length prefix = 4%nat ->
  operationCodeOf 4 (prefix ++ tail1) 0
  = operationCodeOf 4 (prefix ++ tail2) 0.
Proof.
  intros Hlen.
  destruct prefix as [| c0 [| c1 [| c2 [| c3 [| c4 rest]]]]];
    try discriminate Hlen.
  cbn [String.append operationCodeOf].
  repeat (destruct (_ =? 0); [reflexivity |]). reflexivity.
Qed.

Lemma operation_tag_ignores_tail_witness :
  String.length "SRAM" = 4%nat /\
  operationCodeOf 4 ("SRAM" ++ "1 Address Test") 0
  = operationCodeOf 4 ("SRAM" ++ "2 Walking Test") 0.
Proof.
  assert (H : String.length "SRAM" = 4%nat) by reflexivity.
  split; [exact H |].
  exact (operation_tag_ignores_tail "SRAM" "1 Address Test"
                                    "2 Walking Test" H).
Defined.

(* UpdateTestOperation acts on the persistent store as the session step
   for an operation update does. *)
Lemma UpdateTestOperation_as_step (iw pin : Z) (operation : string)
      (w : World) :
  persist (UpdateTestOperation operation w)
  = Session.step iw pin
                 (Session.Operation (testCycleCounter w) operation)
                 (persist w).
Proof. reflexivity. Qed.

(** ** The scheduler's cycle *)

(** X20. A scheduler cycle cannot complete on a small advanced-test
    interval: with advancedTestInterval = 0 in the normal and stress
    modes, and with advancedTestInterval / 2 = 0 (interval 0 or 1) in the
    SRAM-only mode, the schedule check of the cycle is a modulo by zero,
    so MainTestCycle has no defined result. *)
Theorem cycle_undefined_on_small_interval (w : World) :
  (currentTestMode w <> SRAM_ONLY_CYCLE /\
   currentTestMode w <> FLASH_ONLY_CYCLE /\
   currentTestMode w <> CACHE_ONLY_CYCLE /\
   advancedTestInterval (testConfig w) = 0) \/
  (currentTestMode w = SRAM_ONLY_CYCLE /\
   advancedTestInterval (testConfig w) / 2 = 0) ->
  MainTestCycle w = None.
Proof.
  intros H. unfold MainTestCycle.
  cbn [testCycleCounter testConfig currentTestMode currentTestOperation
       persist calls].
  destruct (RotateTestParameters _ _) as [cfg |] eqn:Hrot; [| reflexivity].
  cbn [obind].
  apply RotateTestParameters_frame in Hrot. destruct Hrot as [Hcfg _].
  set (w1 := if U32.add (testCycleCounter w) 1 mod 20 =? 0
             then ReportConfigStatus _ else _).
  assert (H1 : currentTestMode w1 = currentTestMode w /\
               advancedTestInterval (testConfig w1)
               = advancedTestInterval (testConfig w)).
  { subst w1. destruct (_ =? 0); cbn; rewrite Hcfg; auto. }
  destruct H1 as [Hmode Hint]. rewrite Hmode.
  assert (Hall : advancedTestInterval (testConfig w) = 0 ->
                 TestAllMemoryRegions w1 = None).
  { intros E. unfold TestAllMemoryRegions, U32.umod.
    now rewrite Hint, E. }
  destruct H as [[N2 [N3 [N4 E]]] | [E2 E]].
  - destruct (currentTestMode w =? STRESS_TEST_CYCLE);
      [now rewrite (Hall E) |].
    destruct (Z.eqb_spec (currentTestMode w) SRAM_ONLY_CYCLE);
      [contradiction |].
    destruct (Z.eqb_spec (currentTestMode w) FLASH_ONLY_CYCLE);
      [contradiction |].
    destruct (Z.eqb_spec (currentTestMode w) CACHE_ONLY_CYCLE);
      [contradiction |].
    now rewrite (Hall E).
  - rewrite E2. cbn [Z.eqb Pos.eqb STRESS_TEST_CYCLE SRAM_ONLY_CYCLE].
    change (SRAM_ONLY_CYCLE =? STRESS_TEST_CYCLE) with false.
    change (SRAM_ONLY_CYCLE =? SRAM_ONLY_CYCLE) with true. cbn iota.
    assert (Hs : TestSRAMOnly w1 = None).
    { unfold TestSRAMOnly, U32.umod. now rewrite Hint, E. }
    now rewrite Hs.
Qed.

Lemma cycle_undefined_on_small_interval_witness :
  let w := mkWorld (mkConfig 0x8000 0x4000 0x2000 0x2000
                             0x20000 0x2000 0x400 0x400
                             256 16 1000 1 1 1)
                   0 SRAM_ONLY_CYCLE EmptyString
                   (mkPersist (fun _ => 0) []) [] in
  ((currentTestMode w <> SRAM_ONLY_CYCLE /\
    currentTestMode w <> FLASH_ONLY_CYCLE /\
    currentTestMode w <> CACHE_ONLY_CYCLE /\
    advancedTestInterval (testConfig w) = 0) \/
   (currentTestMode w = SRAM_ONLY_CYCLE /\
    advancedTestInterval (testConfig w) / 2 = 0)) /\
  MainTestCycle w = None.
Proof.
  intros w.
  assert (H : (currentTestMode w <> SRAM_ONLY_CYCLE /\
               currentTestMode w <> FLASH_ONLY_CYCLE /\
               currentTestMode w <> CACHE_ONLY_CYCLE /\
               advancedTestInterval (testConfig w) = 0) \/
              (currentTestMode w = SRAM_ONLY_CYCLE /\
               advancedTestInterval (testConfig w) / 2 = 0))
    by (right; split; reflexivity).
  split; [exact H |].
  exact (cycle_undefined_on_small_interval w H).
Defined.

Lemma keepsFrame_refl (w : World) : keepsFrame w w.
Proof. unfold keepsFrame. auto. Qed.

Lemma keepsFrame_run (w0 w : World) (t : TestCall) :
  keepsFrame w0 w -> keepsFrame w0 (run t w).
Proof. exact (fun H => H). Qed.

Lemma keepsFrame_update (w0 w : World) (operation : string) :
  keepsFrame w0 w -> keepsFrame w0 (UpdateTestOperation operation w).
Proof.
  intros [A [B [C D]]]. unfold keepsFrame, UpdateTestOperation.
  cbn [testCycleCounter currentTestMode testConfig persist].
  repeat (split; [assumption |]).
  rewrite <- D. apply SaveTestState_regs.
Qed.

Lemma cycleSaved_run (w : World) (t : TestCall) :
  cycleSaved w -> cycleSaved (run t w).
Proof. exact (fun H => H). Qed.

Lemma cycleSaved_update (w : World) (operation : string) :
  cycleSaved (UpdateTestOperation operation w).
Proof.
  unfold cycleSaved, UpdateTestOperation. cbn [persist testCycleCounter].
  destruct (SaveTestState_regs (testCycleCounter w)
              (operationCodeOf 4 operation 0) 0 (persist w))
    as [_ [B [C _]]].
  auto.
Qed.

Ltac cycle_steps :=
  cbv zeta;
  repeat lazymatch goal with
    | |- keepsFrame _ (run _ _) => apply keepsFrame_run
    | |- keepsFrame _ (UpdateTestOperation _ _) => apply keepsFrame_update
    | |- keepsFrame ?w ?w => apply keepsFrame_refl
    | |- cycleSaved (run _ _) => apply cycleSaved_run
    | |- cycleSaved (UpdateTestOperation _ _) => apply cycleSaved_update
    end.

(* Every mode function ends with the cycle counter saved and error code
   0 in the persistent store, and keeps counter, mode, configuration and
   reset counter. *)
Lemma mode_function_saves (w w' : World) :
  (if currentTestMode w =? STRESS_TEST_CYCLE then TestAllMemoryRegions w
   else if currentTestMode w =? SRAM_ONLY_CYCLE then TestSRAMOnly w
   else if currentTestMode w =? FLASH_ONLY_CYCLE then TestFlashOnly w
   else if currentTestMode w =? CACHE_ONLY_CYCLE then TestCacheOnly w
   else TestAllMemoryRegions w) = Some w' ->
  keepsFrame w w' /\ cycleSaved w'.
Proof.
  assert (Hall : TestAllMemoryRegions w = Some w' ->
                 keepsFrame w w' /\ cycleSaved w').
  { unfold TestAllMemoryRegions.
    destruct (U32.umod _ _) as [r |]; [| discriminate]. cbn [obind].
    destruct (r =? 0); intros E; injection E as <-; split; cycle_steps. }
  destruct (currentTestMode w =? STRESS_TEST_CYCLE); [exact Hall |].
  destruct (currentTestMode w =? SRAM_ONLY_CYCLE).
  { unfold TestSRAMOnly.
    destruct (U32.umod _ _) as [r |]; [| discriminate]. cbn [obind].
    destruct (r =? 0); intros E; injection E as <-; split; cycle_steps. }
  destruct (currentTestMode w =? FLASH_ONLY_CYCLE).
  { unfold TestFlashOnly. intros E; injection E as <-; split; cycle_steps. }
  destruct (currentTestMode w =? CACHE_ONLY_CYCLE); [| exact Hall].
  unfold TestCacheOnly. cbn [forLoop obind].
  change (0 <? 5) with true. change (0 + 1 <? 5) with true.
  change (0 + 1 + 1 <? 5) with true. change (0 + 1 + 1 + 1 <? 5) with true.
  change (0 + 1 + 1 + 1 + 1 <? 5) with true.
  change (0 + 1 + 1 + 1 + 1 + 1 <? 5) with false.
  cbn iota. intros E; injection E as <-; split; cycle_steps.
Qed.

Lemma MainTestCycle_frame (w w' : World) :
  MainTestCycle w = Some w' ->
  testCycleCounter w' = U32.add (testCycleCounter w) 1 /\
  currentTestMode w' = currentTestMode w /\
  resetCount (persist w') = resetCount (persist w) /\
  cycleSaved w'.
Proof.
  unfold MainTestCycle.
  cbn [testCycleCounter testConfig currentTestMode currentTestOperation
       persist calls].
  destruct (RotateTestParameters _ _) as [cfg |]; [| discriminate].
  cbn [obind].
  set (w1 := if U32.add (testCycleCounter w) 1 mod 20 =? 0
             then ReportConfigStatus _ else _).
  assert (H1 : testCycleCounter w1 = U32.add (testCycleCounter w) 1 /\
               currentTestMode w1 = currentTestMode w /\
               resetCount (persist w1) = resetCount (persist w)).
  { subst w1. destruct (_ =? 0); cbn; auto. }
  destruct H1 as [Hc [Hm Hr]].
  match goal with
  | |- context [obind ?x _] => destruct x as [w2 |] eqn:E2
  end; [| discriminate].
  cbn [obind]. intros E. injection E as <-.
  destruct (mode_function_saves w1 w2 E2) as [[A [B [_ D]]] Hs].
  cbn [testCycleCounter currentTestMode persist run].
  rewrite A, B, D, Hc, Hm, Hr. repeat split; apply Hs.
Qed.

(** X21. Every completed scheduler cycle, in every test mode, increments
    the cycle counter by one, leaves that counter value in the persisted
    cycle register, and leaves the test mode and the persisted reset
    counter as they were.  The persisted error code is not part of this:
    an ECC state save (HandleECCError, or FLASH_IRQHandler with operation
    code 0) puts ERROR_ECC_DETECTED there, while it stores the same cycle
    counter and leaves the reset counter alone. *)
Theorem completed_cycle_persists_counter (w w' : World) :
  MainTestCycle w = Some w' ->
  testCycleCounter w' = U32.add (testCycleCounter w) 1 /\
  lastCycle (persist w') = testCycleCounter w' /\
  resetCount (persist w') = resetCount (persist w) /\
  currentTestMode w' = currentTestMode w /\
  forall operationCode,
    let s := HandleECCError (testCycleCounter w') operationCode
                            (persist w') in
    errorCode s = ERROR_ECC_DETECTED /\
    lastCycle s = testCycleCounter w' /\
    resetCount s = resetCount (persist w).
Proof.
  intros E. destruct (MainTestCycle_frame w w' E) as [A [B [C [D1 D2]]]].
  do 4 (split; [assumption |]).
  intros op s. subst s. unfold HandleECCError.
  destruct (SaveTestState_regs (testCycleCounter w') op ERROR_ECC_DETECTED
                               (persist w')) as [_ [Hc [He Hr]]].
  rewrite Hr. auto.
Qed.

Lemma completed_cycle_persists_counter_witness :
  let w := mkWorld InitializeDefaultConfig 36 CACHE_ONLY_CYCLE EmptyString
                   (mkPersist (regsOf 0x41 36 0x06 2) []) [] in
  exists w',
    MainTestCycle w = Some w' /\
    testCycleCounter w' = U32.add (testCycleCounter w) 1 /\
    lastCycle (persist w') = testCycleCounter w' /\
    resetCount (persist w') = resetCount (persist w) /\
    currentTestMode w' = currentTestMode w /\
    forall operationCode,
      let s := HandleECCError (testCycleCounter w') operationCode
                              (persist w') in
      errorCode s = ERROR_ECC_DETECTED /\
      lastCycle s = testCycleCounter w' /\
      resetCount s = resetCount (persist w).
Proof.
  intros w.
  destruct (MainTestCycle w) as [w' |] eqn:E;
    [| vm_compute in E; discriminate].
  exists w'. split; [reflexivity |].
  exact (completed_cycle_persists_counter w w' E).
Defined.

(** X22. After n completed scheduler cycles the cycle counter is its
    initial value plus n, modulo 2^32, and the test mode is unchanged. *)
Theorem cycles_advance_counter (n : nat) (w w' : World) :
  U32.in_range (testCycleCounter w) ->
  runCycles n w = Some w' ->
  testCycleCounter w' = U32.wrap (testCycleCounter w + Z.of_nat n) /\
  currentTestMode w' = currentTestMode w.
Proof.
  revert w. induction n as [| n IH]; intros w Hr.
  - cbn [runCycles]. intros E. injection E as <-.
    rewrite Z.add_0_r. split; [symmetry; now apply wrap_small | reflexivity].
  - cbn [runCycles].
    destruct (MainTestCycle w) as [w1 |] eqn:E1; [| discriminate].
    cbn [obind]. intros E.
    destruct (MainTestCycle_frame w w1 E1) as [A [B _]].
    destruct (IH w1 ltac:(rewrite A; apply wrap_range) E) as [C D].
    split; [| congruence].
    rewrite C, A. unfold U32.add, U32.wrap.
    rewrite Zplus_mod_idemp_l. f_equal. lia.
Qed.

Lemma cycles_advance_counter_witness :
  exists w',
    U32.in_range (testCycleCounter (initialWorld SRAM_ONLY_CYCLE)) /\
    runCycles 12 (initialWorld SRAM_ONLY_CYCLE) = Some w' /\
    testCycleCounter w'
    = U32.wrap (testCycleCounter (initialWorld SRAM_ONLY_CYCLE)
                + Z.of_nat 12) /\
    currentTestMode w' = currentTestMode (initialWorld SRAM_ONLY_CYCLE).
Proof.
  assert (H : U32.in_range (testCycleCounter (initialWorld SRAM_ONLY_CYCLE)))
    by (cbn; unfold U32.in_range, U32.modulus; lia).
  destruct (runCycles 12 (initialWorld SRAM_ONLY_CYCLE)) as [w' |] eqn:E;
    [| vm_compute in E; discriminate].
  exists w'. split; [exact H |]. split; [reflexivity |].
  exact (cycles_advance_counter 12 (initialWorld SRAM_ONLY_CYCLE) w' H E).
Defined.

(** ** What the address test finds *)

Section ReadDetects.

Variable Mem : Type.
Variable load : Mem -> Z -> Z.
Variables stride startAddr size : Z.
Hypothesis Hstride : 1 <= stride.
Hypothesis Hstart : 0 <= startAddr.
Hypothesis Hfit : startAddr + size <= U32.modulus.
Hypothesis Hloop : size + stride <= U32.modulus.

(* A read loop started with no error counts at least one when a visited
   word does not hold its expected value. *)
Lemma readPhase_detects (fuel : nat) (kind : RangeTests.LineKind)
      (valueAt : Z -> Z) (k : Z) (s : RangeTests.RunState Mem) :
  RangeTests.errors s = 0 ->
  size <= Z.of_nat fuel * stride ->
  visited stride size k ->
  load (RangeTests.mem s) (startAddr + k) <> valueAt (startAddr + k) ->
  exists s',
    RangeTests.readPhase load fuel stride startAddr size kind valueAt s
    = Some s' /\
    1 <= RangeTests.errors s' < U32.modulus.
Proof.
  intros He Hfuel [Hk Hkd] Hbad. unfold RangeTests.readPhase.
  destruct (strideLoop_invariant
              (fun o s' =>
                 (stride | o) /\ o < size + stride /\
                 RangeTests.mem s' = RangeTests.mem s /\
                 0 <= RangeTests.errors s' <= o /\
                 (k < o -> 1 <= RangeTests.errors s'))
              stride size
              (fun offset s0 =>
                 RangeTests.check load kind (U32.add startAddr offset)
                                  (valueAt (U32.add startAddr offset)) s0))
    with (fuel := fuel) (o := 0) (s := s)
    as [o' [s' [E [Ho' [_ [Hlt [_ [Hr Hdet]]]]]]]]; try lia.
  - intros o s0 Ho [Hdiv [_ [Hm [Hr Hdet]]]].
    rewrite (window_address startAddr size o Hstart Hfit Ho).
    split; [now apply Z.divide_add_r; [| apply Z.divide_refl] |].
    split; [lia |].
    unfold RangeTests.check.
    destruct (Z.eqb_spec (load (RangeTests.mem s0) (startAddr + o))
                         (valueAt (startAddr + o))) as [Eq | Ne];
      cbn [negb RangeTests.errors RangeTests.mem].
    + split; [exact Hm |]. split; [lia |]. intros Hko.
      destruct (visited_next stride size o k ltac:(lia) Hdiv Hkd Hko)
        as [-> | Hfar]; [| apply Hdet; lia].
      exfalso. apply Hbad. now rewrite <- Hm.
    + assert (Hadd : U32.add (RangeTests.errors s0) 1
                     = RangeTests.errors s0 + 1).
      { apply wrap_small. unfold U32.in_range. lia. }
      rewrite Hadd. split; [exact Hm |]. split; lia.
  - split; [apply Z.divide_0_r |]. split; [lia |].
    split; [reflexivity |]. split; lia.
  - exists s'. split; [exact E |]. split; [apply Hdet; lia | lia].
Qed.

End ReadDetects.

(** X23. The address test of address_tests.c detects address aliasing:
    if two different visited addresses always read the same word (an
    address line that is not decoded), the test returns at least one
    error, whatever else the memory does, because the two addresses
    expect different patterns. *)
Theorem address_test_detects_aliasing
        (Mem : Type) (load : Mem -> Z -> Z) (store : Mem -> Z -> Z -> Mem)
        (fuel : nat) (stride c startAddr size totalSize k1 k2 : Z)
        (m : Mem) :
  1 <= stride ->
  0 <= startAddr -> startAddr + size <= U32.modulus ->
  size + stride <= U32.modulus ->
  size <= Z.of_nat fuel * stride ->
  visited stride size k1 -> visited stride size k2 -> k1 <> k2 ->
  (forall m', load m' (startAddr + k1) = load m' (startAddr + k2)) ->
  exists s',
    RangeTests.RunImprovedAddressTest load store fuel stride c
                                      startAddr size totalSize m
    = Some s' /\
    1 <= RangeTests.errors s'.
Proof.
  intros Hstride Hstart Hfit Hloop Hfuel Hk1 Hk2 Hne Halias.
  unfold RangeTests.RunImprovedAddressTest.
  assert (Hw : exists s1,
             RangeTests.writePhase store fuel stride startAddr size
                                   (GenerateAddressPattern c)
                                   (RangeTests.mkRunState m [] 0)
             = Some s1 /\ RangeTests.errors s1 = 0).
  { unfold RangeTests.writePhase.
    destruct (strideLoop_invariant
                (fun _ (s' : RangeTests.RunState Mem) =>
                   RangeTests.errors s' = 0)
                stride size
                (fun offset s0 =>
                   RangeTests.poke store (U32.add startAddr offset)
                     (GenerateAddressPattern c (U32.add startAddr offset))
                     s0))
      with (fuel := fuel) (o := 0) (s := RangeTests.mkRunState m [] 0)
      as [o' [s1 [E [_ He]]]]; try lia; try reflexivity.
    - intros o s0 _ H. exact H.
    - now exists s1. }
  destruct Hw as [s1 [E1 He1]]. rewrite E1. cbn [obind].
  assert (Hbad : load (RangeTests.mem s1) (startAddr + k1)
                 <> GenerateAddressPattern c (startAddr + k1) \/
                 load (RangeTests.mem s1) (startAddr + k2)
                 <> GenerateAddressPattern c (startAddr + k2)).
  { destruct (Z.eq_dec (load (RangeTests.mem s1) (startAddr + k1))
                       (GenerateAddressPattern c (startAddr + k1)))
      as [E | N]; [right | now left].
    rewrite <- Halias, E. intros Heq.
    apply GenerateAddressPattern_injective in Heq. lia. }
  destruct Hbad as [Hbad | Hbad].
  - destruct (readPhase_detects Mem load stride startAddr size Hstride
                Hstart Hfit Hloop fuel RangeTests.AddressTestError
                (GenerateAddressPattern c) k1 s1 He1 Hfuel Hk1 Hbad)
      as [s2 [E2 H2]].
    exists s2. split; [exact E2 | lia].
  - destruct (readPhase_detects Mem load stride startAddr size Hstride
                Hstart Hfit Hloop fuel RangeTests.AddressTestError
                (GenerateAddressPattern c) k2 s1 He1 Hfuel Hk2 Hbad)
      as [s2 [E2 H2]].
    exists s2. split; [exact E2 | lia].
Qed.

Lemma address_test_detects_aliasing_witness :
  let aliasLoad : IdealMem -> Z -> Z :=
    fun m a => m (if a =? 0x20002100 then 0x20002000 else a) in
  let aliasStore : IdealMem -> Z -> Z -> IdealMem :=
    fun m a v => idealStore m (if a =? 0x20002100 then 0x20002000 else a)
                            v in
  1 <= 256 /\ 0 <= 0x20002000 /\ 0x20002000 + 0x400 <= U32.modulus /\
  0x400 + 256 <= U32.modulus /\ 0x400 <= Z.of_nat 4 * 256 /\
  visited 256 0x400 0 /\ visited 256 0x400 0x100 /\ 0 <> 0x100 /\
  (forall m', aliasLoad m' (0x20002000 + 0)
              = aliasLoad m' (0x20002000 + 0x100)) /\
  exists s',
    RangeTests.RunImprovedAddressTest aliasLoad aliasStore 4 256 1
                                      0x20002000 0x400 0x18000 (fun _ => 0)
    = Some s' /\
    1 <= RangeTests.errors s'.
Proof.
  intros aliasLoad aliasStore.
  assert (H1 : 1 <= 256) by lia.
  assert (H2 : 0 <= 0x20002000) by lia.
  assert (H3 : 0x20002000 + 0x400 <= U32.modulus)
    by (unfold U32.modulus; lia).
  assert (H4 : 0x400 + 256 <= U32.modulus) by (unfold U32.modulus; lia).
  assert (H5 : 0x400 <= Z.of_nat 4 * 256) by (cbn; lia).
  assert (H6 : visited 256 0x400 0).
  { split; [lia |]. exists 0. reflexivity. }
  assert (H7 : visited 256 0x400 0x100).
  { split; [lia |]. exists 1. reflexivity. }
  assert (H8 : 0 <> 0x100) by discriminate.
  assert (H9 : forall m', aliasLoad m' (0x20002000 + 0)
                          = aliasLoad m' (0x20002000 + 0x100))
    by reflexivity.
  repeat (split; [assumption |]).
  exact (address_test_detects_aliasing
           IdealMem aliasLoad aliasStore 4 256 1 0x20002000 0x400 0x18000
           0 0x100 (fun _ => 0) H1 H2 H3 H4 H5 H6 H7 H8 H9).
Defined.

(** X24. On a memory that returns what was last stored, the address test
    of memory_test_framework.c (step 256) returns 0 errors and counts one
    more address test and one more success. *)
Theorem framework_address_test_passes_on_sound_memory
        (Mem : Type) (load : Mem -> Z -> Z) (store : Mem -> Z -> Z -> Mem)
        (fuel : nat) (c startAddr size : Z)
        (status : RangeTests.MemoryTestStatus) (m : Mem) :
  soundMemory load store ->
  0 <= startAddr -> startAddr + size <= U32.modulus ->
  size + 256 <= U32.modulus ->
  size <= Z.of_nat fuel * 256 ->
  exists s',
    RangeTests.RunAddressTest load store fuel c startAddr size status m
    = Some (s', RangeTests.set_addressTest
                  status
                  (U32.add (RangeTests.addressTestSuccess status) 1)
                  (U32.add (RangeTests.addressTestTotal status) 1)) /\
    RangeTests.errors s' = 0.
Proof.
  intros Hsound Hstart Hfit Hloop Hfuel.
  unfold RangeTests.RunAddressTest.
  set (expectedValue := fun addr => U32.xor addr (U32.mul c 0x1234567B)).
  assert (Hval : forall k, visited 256 size k ->
                           U32.in_range (expectedValue (startAddr + k))).
  { intros k [Hk _]. unfold expectedValue, U32.xor, U32.mul.
    apply lxor_in_range; [unfold U32.in_range; lia | apply wrap_range]. }
  destruct (writePhase_stores Mem load store 256 startAddr size
              ltac:(lia) Hstart Hfit Hloop fuel expectedValue
              (RangeTests.mkRunState m [] 0) Hsound Hval Hfuel)
    as [s1 [E1 [He1 Hm1]]].
  rewrite E1. cbn [obind].
  destruct (readPhase_clean Mem load 256 startAddr size ltac:(lia) Hstart
              Hfit Hloop fuel RangeTests.AddressTestError expectedValue s1
              Hm1 Hfuel) as [s2 [E2 [He2 Hm2]]].
  rewrite E2. cbn [obind].
  assert (He : RangeTests.errors s2 = 0) by (rewrite He2, He1; reflexivity).
  rewrite He. cbn [Z.eqb].
  exists s2. split; [reflexivity | exact He].
Qed.

Lemma framework_address_test_passes_on_sound_memory_witness :
  soundMemory idealLoad idealStore /\
  0 <= 0x20002000 /\ 0x20002000 + 0x1000 <= U32.modulus /\
  0x1000 + 256 <= U32.modulus /\ 0x1000 <= Z.of_nat 16 * 256 /\
  exists s',
    RangeTests.RunAddressTest idealLoad idealStore 16 3 0x20002000 0x1000
                              RangeTests.emptyStatus (fun _ => 0)
    = Some (s', RangeTests.set_addressTest
                  RangeTests.emptyStatus
                  (U32.add (RangeTests.addressTestSuccess
                              RangeTests.emptyStatus) 1)
                  (U32.add (RangeTests.addressTestTotal
                              RangeTests.emptyStatus) 1)) /\
    RangeTests.errors s' = 0.
Proof.
  assert (H2 : 0 <= 0x20002000) by lia.
  assert (H3 : 0x20002000 + 0x1000 <= U32.modulus)
    by (unfold U32.modulus; lia).
  assert (H4 : 0x1000 + 256 <= U32.modulus) by (unfold U32.modulus; lia).
  assert (H5 : 0x1000 <= Z.of_nat 16 * 256) by (cbn; lia).
  split; [exact ideal_memory_sound |].
  repeat (split; [assumption |]).
  exact (framework_address_test_passes_on_sound_memory
           IdealMem idealLoad idealStore 16 3 0x20002000 0x1000
           RangeTests.emptyStatus (fun _ => 0)
           ideal_memory_sound H2 H3 H4 H5).
Defined.

(** ** Windows and bank addresses *)

(** X25. When the window invariant holds and offsets and sizes are not
    negative, the start address each Get...TestStart returns is the bank
    base plus the offset, without wrap-around, and the window that starts
    there ends at least a safety margin before the end of its bank. *)
Theorem windows_lie_inside_banks (c : MemoryTestConfig) :
  windows_ok c ->
  0 <= flashTestOffset c -> 0 <= sram1TestOffset c ->
  0 <= sram2TestOffset c -> 0 <= ccmTestOffset c ->
  0 <= flashTestSize c -> 0 <= sram1TestSize c ->
  0 <= sram2TestSize c -> 0 <= ccmTestSize c ->
  (GetFlashTestStart c = FLASH_START_ADDR + flashTestOffset c /\
   GetFlashTestStart c + flashTestSize c + FLASH_MARGIN
   <= FLASH_START_ADDR + FLASH_SIZE) /\
  (GetSRAM1TestStart c = SRAM1_START_ADDR + sram1TestOffset c /\
   GetSRAM1TestStart c + sram1TestSize c + SRAM1_MARGIN
   <= SRAM1_START_ADDR + SRAM1_SIZE) /\
  (GetSRAM2TestStart c = SRAM2_START_ADDR + sram2TestOffset c /\
   GetSRAM2TestStart c + sram2TestSize c + SRAM2_MARGIN
   <= SRAM2_START_ADDR + SRAM2_SIZE) /\
  (GetCCMTestStart c = CCM_SRAM_START_ADDR + ccmTestOffset c /\
   GetCCMTestStart c + ccmTestSize c + CCM_MARGIN
   <= CCM_SRAM_START_ADDR + CCM_SRAM_SIZE).
Proof.
  unfold windows_ok, window_ok, GetFlashTestStart, GetSRAM1TestStart,
    GetSRAM2TestStart, GetCCMTestStart, U32.add,
    FLASH_MARGIN, SRAM1_MARGIN, SRAM2_MARGIN, CCM_MARGIN,
    FLASH_START_ADDR, SRAM1_START_ADDR, SRAM2_START_ADDR,
    CCM_SRAM_START_ADDR, FLASH_SIZE, SRAM1_SIZE, SRAM2_SIZE, CCM_SRAM_SIZE.
  intros [Hf [H1 [H2 Hc]]] Of O1 O2 Oc Sf S1 S2 Sc.
  rewrite !wrap_small by (unfold U32.in_range, U32.modulus; lia).
  lia.
Qed.

Lemma windows_lie_inside_banks_witness :
  let c := InitializeDefaultConfig in
  windows_ok c /\
  0 <= flashTestOffset c /\ 0 <= sram1TestOffset c /\
  0 <= sram2TestOffset c /\ 0 <= ccmTestOffset c /\
  0 <= flashTestSize c /\ 0 <= sram1TestSize c /\
  0 <= sram2TestSize c /\ 0 <= ccmTestSize c /\
  (GetFlashTestStart c = FLASH_START_ADDR + flashTestOffset c /\
   GetFlashTestStart c + flashTestSize c + FLASH_MARGIN
   <= FLASH_START_ADDR + FLASH_SIZE) /\
  (GetSRAM1TestStart c = SRAM1_START_ADDR + sram1TestOffset c /\
   GetSRAM1TestStart c + sram1TestSize c + SRAM1_MARGIN
   <= SRAM1_START_ADDR + SRAM1_SIZE) /\
  (GetSRAM2TestStart c = SRAM2_START_ADDR + sram2TestOffset c /\
   GetSRAM2TestStart c + sram2TestSize c + SRAM2_MARGIN
   <= SRAM2_START_ADDR + SRAM2_SIZE) /\
  (GetCCMTestStart c = CCM_SRAM_START_ADDR + ccmTestOffset c /\
   GetCCMTestStart c + ccmTestSize c + CCM_MARGIN
   <= CCM_SRAM_START_ADDR + CCM_SRAM_SIZE).
Proof.
  intros c.
  assert (H : windows_ok c).
  { unfold windows_ok, window_ok. repeat split; vm_compute; discriminate. }
  assert (Of : 0 <= flashTestOffset c) by (cbn; lia).
  assert (O1 : 0 <= sram1TestOffset c) by (cbn; lia).
  assert (O2 : 0 <= sram2TestOffset c) by (cbn; lia).
  assert (Oc : 0 <= ccmTestOffset c) by (cbn; lia).
  assert (Sf : 0 <= flashTestSize c) by (cbn; lia).
  assert (S1 : 0 <= sram1TestSize c) by (cbn; lia).
  assert (S2 : 0 <= sram2TestSize c) by (cbn; lia).
  assert (Sc : 0 <= ccmTestSize c) by (cbn; lia).
  repeat (split; [assumption |]).
  exact (windows_lie_inside_banks c H Of O1 O2 Oc Sf S1 S2 Sc).
Defined.
